(** * PicoFFT: acquisition core and calibration math

    A shallow embedding of the unified ADC sampling module
    (adc_sampling.h / adc_sampling.c) with its window function, of the
    magnitude and dBm calibration loops of [adc_sampling_process_fft] and
    [fft_realtime_analysis], of the rate calibration and the peak search of
    the latter, of the main loop of fft_realtime_unified.c, of the clamp,
    the smoothing and the column mapping of
    [fft_streaming_display_update_spectrum], and of the window constants of
    config_settings.h.

    Conventions.
    - [uint32_t] counters are [Z] with the wrap-around written out
      ([wrap32]); [uint16_t] samples are [Z] reduced modulo 2^16.
    - The only values the two buffer pointers ever hold are the null pointer
      and the addresses of the two arrays of the analyzer, hence [bufptr].
    - Hardware accesses (ADC, DMA, interrupt controller, [sleep_us]) and the
      stores to the volatile hand-off flag [data_ready] are recorded, in
      program order, in a trace.
    - In [Acquisition] every API function and the interrupt handler is one
      step.  [Coordinator] refines this for the main loop of
      fft_realtime_unified.c: the functions it calls are split at their
      accesses to the variables they share with the handler, and completion
      interrupts are served in between.
    - C [float] arithmetic of the calibration code is read as arithmetic on
      real numbers; rounding, infinities and NaN are outside that model.
      Where rounding decides, the code is evaluated in binary32
      ([Calibration.Binary32]).  The
      measured sampling rate, which only needs the field operations, is a
      rational.  [printf] output is omitted. *)

From Stdlib Require Import ZArith QArith Qround Reals Lra Lia List.
From Stdlib Require Import Floats.SpecFloat.
From stdpp Require Import base list.
Import ListNotations.

Local Open Scope Z_scope.

(** ** config_settings.h and the size constants of adc_sampling.h *)

Module Config.

Definition TARGET_FPS : Z := 30.
Definition SAMPLING_RATE_HZ : Z := 128000.
Definition SAMPLING_INTERVAL_US : Q := 1000000 # 128000.
Definition ADC_RESOLUTION_BITS : Z := 12.
Definition FFT_WINDOW_TYPE : Z := 0.
Definition ADC_DMA_ENABLED : bool := true.
Definition ADC_DMA_CHANNEL_AUTO : Z := -1.
Definition ADC_DMA_ERROR_RECOVERY : bool := true.
Definition ADC_DMA_OVERRUN_DETECTION : bool := true.
Definition FREQUENCY_RANGE_MIN : Z := 1000.
Definition FREQUENCY_RANGE_MAX : Z := 50000.
Definition AMPLITUDE_RANGE_MIN_DB : Z := -100.
Definition AMPLITUDE_RANGE_MAX_DB : Z := 20.

(** adc_sampling.h, fft_analyzer.h and fft_streaming_display.h agree on the
    transform size. *)
Definition ADC_SAMPLING_FFT_SIZE : nat := 1024.
Definition FFT_SIZE : nat := 1024.
Definition STREAM_FFT_SIZE : nat := 1024.
Definition ADC_SAMPLING_RATE : Z := SAMPLING_RATE_HZ.

End Config.

(** ** The acquisition core (adc_sampling.h, adc_sampling.c) *)

Module Acquisition.
Import Config.

Inductive adc_sampling_mode_t : Set :=
| ADC_MODE_MANUAL
| ADC_MODE_DMA.

Inductive adc_sampling_status_t : Set :=
| ADC_STATUS_IDLE
| ADC_STATUS_SAMPLING
| ADC_STATUS_DATA_READY
| ADC_STATUS_ERROR.

(** Values of [current_buffer] and [ready_buffer]: [NULL], [buffer_ping] or
    [buffer_pong]. *)
Inductive bufptr : Set :=
| NULL
| PING
| PONG.

Definition mode_eqb (a b : adc_sampling_mode_t) : bool :=
  match a, b with
  | ADC_MODE_MANUAL, ADC_MODE_MANUAL | ADC_MODE_DMA, ADC_MODE_DMA => true
  | _, _ => false
  end.

Definition status_eqb (a b : adc_sampling_status_t) : bool :=
  match a, b with
  | ADC_STATUS_IDLE, ADC_STATUS_IDLE
  | ADC_STATUS_SAMPLING, ADC_STATUS_SAMPLING
  | ADC_STATUS_DATA_READY, ADC_STATUS_DATA_READY
  | ADC_STATUS_ERROR, ADC_STATUS_ERROR => true
  | _, _ => false
  end.

Definition bufptr_eqb (a b : bufptr) : bool :=
  match a, b with
  | NULL, NULL | PING, PING | PONG, PONG => true
  | _, _ => false
  end.

Definition wrap32 (x : Z) : Z := x mod 2 ^ 32.
Definition wrap16 (x : Z) : Z := x mod 2 ^ 16.

(** [unified_fft_analyzer_t].  The fields [dma_config] (opaque SDK value),
    [last_sample_time] (never accessed) and the numeric arrays [fft_input],
    [fft_output] and [magnitude] (see [Calibration]) are left out.
    [fft_cfg] records whether the pointer is non-null.  Times are
    microseconds. *)
Record unified_fft_analyzer_t : Type := Build_analyzer {
  mode : adc_sampling_mode_t;
  status : adc_sampling_status_t;
  buffer_ping : list Z;
  buffer_pong : list Z;
  current_buffer : bufptr;
  ready_buffer : bufptr;
  buffer_selector : bool;
  data_ready : bool;
  sampling_active : bool;
  sample_count : Z;
  buffer_overruns : Z;
  dma_channel : Z;
  dma_error : bool;
  manual_sample_index : Z;
  fft_cfg : bool;
  fft_ready : bool;
  sampling_start_time : Z;
  last_buffer_completion : Z;
  actual_sample_rate : Q
}.

Definition set_mode (v : adc_sampling_mode_t) (a : unified_fft_analyzer_t)
  : unified_fft_analyzer_t :=
  Build_analyzer v (status a) (buffer_ping a) (buffer_pong a)
    (current_buffer a) (ready_buffer a) (buffer_selector a) (data_ready a)
    (sampling_active a) (sample_count a) (buffer_overruns a) (dma_channel a)
    (dma_error a) (manual_sample_index a) (fft_cfg a) (fft_ready a)
    (sampling_start_time a) (last_buffer_completion a) (actual_sample_rate a).
Definition set_status (v : adc_sampling_status_t) (a : unified_fft_analyzer_t)
  : unified_fft_analyzer_t :=
  Build_analyzer (mode a) v (buffer_ping a) (buffer_pong a) (current_buffer a)
    (ready_buffer a) (buffer_selector a) (data_ready a) (sampling_active a)
    (sample_count a) (buffer_overruns a) (dma_channel a) (dma_error a)
    (manual_sample_index a) (fft_cfg a) (fft_ready a) (sampling_start_time a)
    (last_buffer_completion a) (actual_sample_rate a).
Definition set_buffer_ping (v : list Z) (a : unified_fft_analyzer_t)
  : unified_fft_analyzer_t :=
  Build_analyzer (mode a) (status a) v (buffer_pong a) (current_buffer a)
    (ready_buffer a) (buffer_selector a) (data_ready a) (sampling_active a)
    (sample_count a) (buffer_overruns a) (dma_channel a) (dma_error a)
    (manual_sample_index a) (fft_cfg a) (fft_ready a) (sampling_start_time a)
    (last_buffer_completion a) (actual_sample_rate a).
Definition set_buffer_pong (v : list Z) (a : unified_fft_analyzer_t)
  : unified_fft_analyzer_t :=
  Build_analyzer (mode a) (status a) (buffer_ping a) v (current_buffer a)
    (ready_buffer a) (buffer_selector a) (data_ready a) (sampling_active a)
    (sample_count a) (buffer_overruns a) (dma_channel a) (dma_error a)
    (manual_sample_index a) (fft_cfg a) (fft_ready a) (sampling_start_time a)
    (last_buffer_completion a) (actual_sample_rate a).
Definition set_current_buffer (v : bufptr) (a : unified_fft_analyzer_t)
  : unified_fft_analyzer_t :=
  Build_analyzer (mode a) (status a) (buffer_ping a) (buffer_pong a) v
    (ready_buffer a) (buffer_selector a) (data_ready a) (sampling_active a)
    (sample_count a) (buffer_overruns a) (dma_channel a) (dma_error a)
    (manual_sample_index a) (fft_cfg a) (fft_ready a) (sampling_start_time a)
    (last_buffer_completion a) (actual_sample_rate a).
Definition set_ready_buffer (v : bufptr) (a : unified_fft_analyzer_t)
  : unified_fft_analyzer_t :=
  Build_analyzer (mode a) (status a) (buffer_ping a) (buffer_pong a)
    (current_buffer a) v (buffer_selector a) (data_ready a)
    (sampling_active a) (sample_count a) (buffer_overruns a) (dma_channel a)
    (dma_error a) (manual_sample_index a) (fft_cfg a) (fft_ready a)
    (sampling_start_time a) (last_buffer_completion a) (actual_sample_rate a).
Definition set_buffer_selector (v : bool) (a : unified_fft_analyzer_t)
  : unified_fft_analyzer_t :=
  Build_analyzer (mode a) (status a) (buffer_ping a) (buffer_pong a)
    (current_buffer a) (ready_buffer a) v (data_ready a) (sampling_active a)
    (sample_count a) (buffer_overruns a) (dma_channel a) (dma_error a)
    (manual_sample_index a) (fft_cfg a) (fft_ready a) (sampling_start_time a)
    (last_buffer_completion a) (actual_sample_rate a).
Definition set_data_ready (v : bool) (a : unified_fft_analyzer_t)
  : unified_fft_analyzer_t :=
  Build_analyzer (mode a) (status a) (buffer_ping a) (buffer_pong a)
    (current_buffer a) (ready_buffer a) (buffer_selector a) v
    (sampling_active a) (sample_count a) (buffer_overruns a) (dma_channel a)
    (dma_error a) (manual_sample_index a) (fft_cfg a) (fft_ready a)
    (sampling_start_time a) (last_buffer_completion a) (actual_sample_rate a).
Definition set_sampling_active (v : bool) (a : unified_fft_analyzer_t)
  : unified_fft_analyzer_t :=
  Build_analyzer (mode a) (status a) (buffer_ping a) (buffer_pong a)
    (current_buffer a) (ready_buffer a) (buffer_selector a) (data_ready a) v
    (sample_count a) (buffer_overruns a) (dma_channel a) (dma_error a)
    (manual_sample_index a) (fft_cfg a) (fft_ready a) (sampling_start_time a)
    (last_buffer_completion a) (actual_sample_rate a).
Definition set_sample_count (v : Z) (a : unified_fft_analyzer_t)
  : unified_fft_analyzer_t :=
  Build_analyzer (mode a) (status a) (buffer_ping a) (buffer_pong a)
    (current_buffer a) (ready_buffer a) (buffer_selector a) (data_ready a)
    (sampling_active a) v (buffer_overruns a) (dma_channel a) (dma_error a)
    (manual_sample_index a) (fft_cfg a) (fft_ready a) (sampling_start_time a)
    (last_buffer_completion a) (actual_sample_rate a).
Definition set_buffer_overruns (v : Z) (a : unified_fft_analyzer_t)
  : unified_fft_analyzer_t :=
  Build_analyzer (mode a) (status a) (buffer_ping a) (buffer_pong a)
    (current_buffer a) (ready_buffer a) (buffer_selector a) (data_ready a)
    (sampling_active a) (sample_count a) v (dma_channel a) (dma_error a)
    (manual_sample_index a) (fft_cfg a) (fft_ready a) (sampling_start_time a)
    (last_buffer_completion a) (actual_sample_rate a).
Definition set_dma_channel (v : Z) (a : unified_fft_analyzer_t)
  : unified_fft_analyzer_t :=
  Build_analyzer (mode a) (status a) (buffer_ping a) (buffer_pong a)
    (current_buffer a) (ready_buffer a) (buffer_selector a) (data_ready a)
    (sampling_active a) (sample_count a) (buffer_overruns a) v (dma_error a)
    (manual_sample_index a) (fft_cfg a) (fft_ready a) (sampling_start_time a)
    (last_buffer_completion a) (actual_sample_rate a).
Definition set_manual_sample_index (v : Z) (a : unified_fft_analyzer_t)
  : unified_fft_analyzer_t :=
  Build_analyzer (mode a) (status a) (buffer_ping a) (buffer_pong a)
    (current_buffer a) (ready_buffer a) (buffer_selector a) (data_ready a)
    (sampling_active a) (sample_count a) (buffer_overruns a) (dma_channel a)
    (dma_error a) v (fft_cfg a) (fft_ready a) (sampling_start_time a)
    (last_buffer_completion a) (actual_sample_rate a).
Definition set_fft_cfg (v : bool) (a : unified_fft_analyzer_t)
  : unified_fft_analyzer_t :=
  Build_analyzer (mode a) (status a) (buffer_ping a) (buffer_pong a)
    (current_buffer a) (ready_buffer a) (buffer_selector a) (data_ready a)
    (sampling_active a) (sample_count a) (buffer_overruns a) (dma_channel a)
    (dma_error a) (manual_sample_index a) v (fft_ready a)
    (sampling_start_time a) (last_buffer_completion a) (actual_sample_rate a).
Definition set_fft_ready (v : bool) (a : unified_fft_analyzer_t)
  : unified_fft_analyzer_t :=
  Build_analyzer (mode a) (status a) (buffer_ping a) (buffer_pong a)
    (current_buffer a) (ready_buffer a) (buffer_selector a) (data_ready a)
    (sampling_active a) (sample_count a) (buffer_overruns a) (dma_channel a)
    (dma_error a) (manual_sample_index a) (fft_cfg a) v
    (sampling_start_time a) (last_buffer_completion a) (actual_sample_rate a).
Definition set_sampling_start_time (v : Z) (a : unified_fft_analyzer_t)
  : unified_fft_analyzer_t :=
  Build_analyzer (mode a) (status a) (buffer_ping a) (buffer_pong a)
    (current_buffer a) (ready_buffer a) (buffer_selector a) (data_ready a)
    (sampling_active a) (sample_count a) (buffer_overruns a) (dma_channel a)
    (dma_error a) (manual_sample_index a) (fft_cfg a) (fft_ready a) v
    (last_buffer_completion a) (actual_sample_rate a).
Definition set_last_buffer_completion (v : Z) (a : unified_fft_analyzer_t)
  : unified_fft_analyzer_t :=
  Build_analyzer (mode a) (status a) (buffer_ping a) (buffer_pong a)
    (current_buffer a) (ready_buffer a) (buffer_selector a) (data_ready a)
    (sampling_active a) (sample_count a) (buffer_overruns a) (dma_channel a)
    (dma_error a) (manual_sample_index a) (fft_cfg a) (fft_ready a)
    (sampling_start_time a) v (actual_sample_rate a).
Definition set_actual_sample_rate (v : Q) (a : unified_fft_analyzer_t)
  : unified_fft_analyzer_t :=
  Build_analyzer (mode a) (status a) (buffer_ping a) (buffer_pong a)
    (current_buffer a) (ready_buffer a) (buffer_selector a) (data_ready a)
    (sampling_active a) (sample_count a) (buffer_overruns a) (dma_channel a)
    (dma_error a) (manual_sample_index a) (fft_cfg a) (fft_ready a)
    (sampling_start_time a) (last_buffer_completion a) v.

(** What the code does to the hardware, and the stores to [data_ready]. *)
Inductive event : Type :=
| EvAdcInit (clkdiv : Q)
| EvAdcFifoSetup
| EvDmaIrqSetup (ch : Z)
| EvAdcRun (on : bool)
| EvAdcRead (v : Z)
| EvSleepUs (us : Z)
| EvDmaConfigure (ch : Z) (dst : bufptr) (count : Z) (trigger : bool)
| EvDmaStart (ch : Z)
| EvDmaAbort (ch : Z)
| EvIrqAck (ch : Z)
| EvStoreDataReady (b : bool).

(** The global [g_unified_analyzer] together with the state of the ADC and
    of the claimed DMA channel: whether the ADC free-runs, whether a transfer
    is in flight and the buffer it writes to. *)
Record world : Type := Build_world {
  g_unified_analyzer :> unified_fft_analyzer_t;
  adc_running : bool;
  dma_busy : bool;
  dma_write_addr : bufptr;
  trace : list event
}.

Definition upd (f : unified_fft_analyzer_t -> unified_fft_analyzer_t)
  (w : world) : world :=
  Build_world (f (g_unified_analyzer w)) (adc_running w) (dma_busy w)
    (dma_write_addr w) (trace w).

Definition emit (e : event) (w : world) : world :=
  Build_world (g_unified_analyzer w) (adc_running w) (dma_busy w)
    (dma_write_addr w) (trace w ++ [e]).

Definition set_adc_running (v : bool) (w : world) : world :=
  Build_world (g_unified_analyzer w) v (dma_busy w) (dma_write_addr w)
    (trace w).

Definition set_dma_busy (v : bool) (w : world) : world :=
  Build_world (g_unified_analyzer w) (adc_running w) v (dma_write_addr w)
    (trace w).

Definition set_dma_write_addr (v : bufptr) (w : world) : world :=
  Build_world (g_unified_analyzer w) (adc_running w) (dma_busy w) v
    (trace w).

(** [g_unified_analyzer = {0}], and the effect of [memset]. *)
Definition zeroed : unified_fft_analyzer_t :=
  Build_analyzer ADC_MODE_MANUAL ADC_STATUS_IDLE
    (repeat 0 ADC_SAMPLING_FFT_SIZE) (repeat 0 ADC_SAMPLING_FFT_SIZE)
    NULL NULL false false false 0 0 0 false 0 false false 0 0 0%Q.

Definition power_on : world := Build_world zeroed false false NULL [].

(** Array accesses through a buffer pointer. *)
Definition deref (p : bufptr) (a : unified_fft_analyzer_t) : option (list Z) :=
  match p with
  | NULL => None
  | PING => Some (buffer_ping a)
  | PONG => Some (buffer_pong a)
  end.

(** [p[i] = v].  A store through the null pointer is undefined in C; the
    model leaves the analyzer alone, and no statement below relies on it. *)
Definition store (p : bufptr) (i : nat) (v : Z) (a : unified_fft_analyzer_t)
  : unified_fft_analyzer_t :=
  match p with
  | NULL => a
  | PING => set_buffer_ping (<[i := v]> (buffer_ping a)) a
  | PONG => set_buffer_pong (<[i := v]> (buffer_pong a)) a
  end.

(** SDK calls on the DMA channel and the ADC. *)
Definition dma_channel_configure (ch : Z) (dst : bufptr) (count : Z)
  (trigger : bool) (w : world) : world :=
  let w := set_dma_write_addr dst w in
  let w := if trigger then set_dma_busy true w else w in
  emit (EvDmaConfigure ch dst count trigger) w.

Definition dma_channel_start (ch : Z) (w : world) : world :=
  emit (EvDmaStart ch) (set_dma_busy true w).

Definition dma_channel_abort (ch : Z) (w : world) : world :=
  emit (EvDmaAbort ch) (set_dma_busy false w).

Definition adc_run (on : bool) (w : world) : world :=
  emit (EvAdcRun on) (set_adc_running on w).

(** [sleep_us] takes an integer: the interval 7.8125 is truncated to 7. *)
Definition sleep_us (us : Q) (w : world) : world :=
  emit (EvSleepUs (Qfloor us)) w.

(** *** Common internal functions *)

Definition _adc_swap_buffers (w : world) : world :=
  let w := upd (fun a => set_ready_buffer (current_buffer a) a) w in
  let w := upd (fun a => set_buffer_selector (negb (buffer_selector a)) a) w in
  upd (fun a =>
         set_current_buffer (if buffer_selector a then PONG else PING) a) w.

(** *** Performance counters *)

Definition adc_sampling_reset_counters (w : world) : world :=
  let w := upd (set_sample_count 0) w in
  let w := upd (set_buffer_overruns 0) w in
  upd (set_actual_sample_rate 0%Q) w.

Definition adc_sampling_get_actual_rate (w : world) : Q :=
  actual_sample_rate w.
Definition adc_sampling_get_overrun_count (w : world) : Z :=
  buffer_overruns w.
Definition adc_sampling_get_sample_count (w : world) : Z :=
  sample_count w.
Definition adc_sampling_get_status (w : world) : adc_sampling_status_t :=
  status w.
Definition adc_sampling_get_mode (w : world) : adc_sampling_mode_t :=
  mode w.

(** *** DMA mode *)

(** [claimed] is what [dma_claim_unused_channel] returns. *)
Definition _adc_dma_init (claimed : Z) (w : world) : bool * world :=
  if ADC_DMA_ENABLED then
    let w := emit EvAdcFifoSetup w in
    let w :=
      if ADC_DMA_CHANNEL_AUTO =? -1 then upd (set_dma_channel claimed) w
      else upd (set_dma_channel ADC_DMA_CHANNEL_AUTO) w in
    if dma_channel w <? 0 then (false, w)
    else (true, emit (EvDmaIrqSetup (dma_channel w)) w)
  else (false, w).

Definition _adc_dma_start (w : world) : world :=
  if ADC_DMA_ENABLED then
    let w := dma_channel_configure (dma_channel w) (current_buffer w)
               (Z.of_nat ADC_SAMPLING_FFT_SIZE) false w in
    let w := dma_channel_start (dma_channel w) w in
    adc_run true w
  else w.

Definition _adc_dma_stop (w : world) : world :=
  if ADC_DMA_ENABLED then
    let w := adc_run false w in
    dma_channel_abort (dma_channel w) w
  else w.

Definition _adc_dma_interrupt_handler (now : Z) (w : world) : world :=
  if ADC_DMA_ENABLED then
    let w := emit (EvIrqAck (dma_channel w)) w in
    let w := upd (fun a => set_sample_count
                   (wrap32 (sample_count a + Z.of_nat ADC_SAMPLING_FFT_SIZE)) a)
               w in
    let w :=
      if data_ready w
      then upd (fun a => set_buffer_overruns
                  (wrap32 (buffer_overruns a + 1)) a) w
      else w in
    let w := _adc_swap_buffers w in
    let w := dma_channel_configure (dma_channel w) (current_buffer w)
               (Z.of_nat ADC_SAMPLING_FFT_SIZE) true w in
    let w := emit (EvStoreDataReady true) (upd (set_data_ready true) w) in
    upd (set_last_buffer_completion now) w
  else w.

(** *** Manual mode *)

Definition _adc_manual_init (w : world) : bool * world :=
  (true, upd (set_manual_sample_index 0) w).

(** [adc_read] returns the next conversion, a [uint16_t]. *)
Definition adc_read (v : Z) (w : world) : Z * world :=
  (wrap16 v, emit (EvAdcRead (wrap16 v)) w).

(** The sampling loop, [k] iterations left, at index [i]; [adc j] is the
    conversion the [j]-th read of this call finds. *)
Fixpoint manual_sample_loop (adc : nat -> Z) (k i : nat) (w : world) : world :=
  match k with
  | O => w
  | S k' =>
      let '(v, w) := adc_read (adc i) w in
      let w := upd (store (current_buffer w) i v) w in
      let w := sleep_us SAMPLING_INTERVAL_US w in
      manual_sample_loop adc k' (S i) w
  end.

(** [t_start], [t_end] and [t_done] are the three readings of
    [get_absolute_time]. *)
Definition _adc_manual_sample_buffer (adc : nat -> Z)
  (t_start t_end t_done : Z) (w : world) : world :=
  let sample_start := t_start in
  let w := manual_sample_loop adc ADC_SAMPLING_FFT_SIZE 0 w in
  let w := upd (fun a => set_sample_count
                 (wrap32 (sample_count a + Z.of_nat ADC_SAMPLING_FFT_SIZE)) a)
             w in
  let sample_end := t_end in
  let sample_time_us := sample_end - sample_start in
  let w :=
    if 0 <? sample_time_us then
      let current_rate :=
        (inject_Z (Z.of_nat ADC_SAMPLING_FFT_SIZE) * 1000000
         / inject_Z sample_time_us)%Q in
      if Qeq_bool (actual_sample_rate w) 0
      then upd (set_actual_sample_rate current_rate) w
      else upd (fun a => set_actual_sample_rate
                  ((9 # 10) * actual_sample_rate a
                   + (1 # 10) * current_rate)%Q a) w
    else w in
  let w := _adc_swap_buffers w in
  let w := emit (EvStoreDataReady true) (upd (set_data_ready true) w) in
  upd (set_last_buffer_completion t_done) w.

(** *** Core API *)

(** [fft_alloc_ok] tells whether [kiss_fft_alloc] returned a configuration,
    [claimed] is the channel the SDK hands out. *)
Definition adc_sampling_init (m : adc_sampling_mode_t) (fft_alloc_ok : bool)
  (claimed : Z) (w : world) : bool * world :=
  let w := upd (fun _ => zeroed) w in
  let w := upd (set_mode m) w in
  let w := upd (set_status ADC_STATUS_IDLE) w in
  let w := emit (EvAdcInit (48000000 / inject_Z ADC_SAMPLING_RATE)%Q) w in
  let w := upd (fun a => set_current_buffer PING a) w in
  let w := upd (set_ready_buffer NULL) w in
  let w := upd (set_buffer_selector false) w in
  let w := upd (set_fft_cfg fft_alloc_ok) w in
  if negb (fft_cfg w) then (false, w)
  else if mode_eqb m ADC_MODE_DMA then _adc_dma_init claimed w
       else _adc_manual_init w.

Definition adc_sampling_start (now : Z) (w : world) : bool * world :=
  if status_eqb (status w) ADC_STATUS_SAMPLING then (true, w)
  else
    let w := adc_sampling_reset_counters w in
    let w := upd (set_sampling_start_time now) w in
    let w := if mode_eqb (mode w) ADC_MODE_DMA then _adc_dma_start w
             else w in
    let w := upd (set_status ADC_STATUS_SAMPLING) w in
    let w := upd (set_sampling_active true) w in
    (true, w).

Definition adc_sampling_stop (now : Z) (w : world) : bool * world :=
  if status_eqb (status w) ADC_STATUS_IDLE then (true, w)
  else
    let w := if mode_eqb (mode w) ADC_MODE_DMA then _adc_dma_stop w
             else w in
    let w := upd (set_status ADC_STATUS_IDLE) w in
    let w := upd (set_sampling_active false) w in
    let w := emit (EvStoreDataReady false) (upd (set_data_ready false) w) in
    let total_time := now - sampling_start_time w in
    let w :=
      if 0 <? total_time then
        upd (fun a => set_actual_sample_rate
               (inject_Z (sample_count a) * 1000000
                / inject_Z total_time)%Q a) w
      else w in
    (true, w).

Definition adc_sampling_is_ready (adc : nat -> Z) (t_start t_end t_done : Z)
  (w : world) : bool * world :=
  let w :=
    if mode_eqb (mode w) ADC_MODE_MANUAL && sampling_active w
       && negb (data_ready w)
    then _adc_manual_sample_buffer adc t_start t_end t_done w
    else w in
  (data_ready w, w).

Definition adc_sampling_get_buffer (w : world) : bufptr :=
  if negb (data_ready w) then NULL else ready_buffer w.

Definition adc_sampling_complete_processing (w : world) : world :=
  if data_ready w then
    let w := emit (EvStoreDataReady false) (upd (set_data_ready false) w) in
    let w := upd (set_fft_ready false) w in
    upd (set_ready_buffer NULL) w
  else w.

(** [adc_sampling_process_fft] as one step, on the fields of this record.
    The record leaves out the arrays [fft_input], [fft_output] and
    [magnitude], which this function overwrites when it succeeds and which
    nothing else writes; they are kept in [Coordinator.fft_arrays], and
    [Coordinator.adc_sampling_process_fft_irq] is the function with them. *)
Definition adc_sampling_process_fft (w : world) : bool * world :=
  let buffer := adc_sampling_get_buffer w in
  if bufptr_eqb buffer NULL then (false, w)
  else (true, upd (set_fft_ready true) w).

Definition adc_sampling_is_fft_ready (w : world) : bool := fft_ready w.

(** *** The environment *)

(** What a full transfer or a full sampling loop leaves in a buffer. *)
Definition frame_of (adc : nat -> Z) : list Z :=
  map (fun j => wrap16 (adc j)) (seq 0 ADC_SAMPLING_FFT_SIZE).

(** The DMA engine finishes the transfer in flight: it has moved
    [ADC_SAMPLING_FFT_SIZE] half-words from the ADC FIFO to the buffer it was
    armed on. *)
Definition dma_fill (adc : nat -> Z) (w : world) : world :=
  let samples := frame_of adc in
  let w :=
    match dma_write_addr w with
    | NULL => w
    | PING => upd (set_buffer_ping samples) w
    | PONG => upd (set_buffer_pong samples) w
    end in
  set_dma_busy false w.

(** Calls from the main context, the completion interrupt [DMA_IRQ_0], and a
    transfer that the channel abandons with a bus error, for which the code
    installs no handler. *)
Inductive op : Type :=
| OpInit (m : adc_sampling_mode_t) (fft_alloc_ok : bool) (claimed : Z)
| OpStart (now : Z)
| OpStop (now : Z)
| OpIsReady (adc : nat -> Z) (t_start t_end t_done : Z)
| OpGetBuffer
| OpProcessFft
| OpCompleteProcessing
| OpResetCounters
| OpSwapBuffers
| OpDmaComplete (adc : nat -> Z) (now : Z)
| OpDmaFault.

Definition step (o : op) (w : world) : world :=
  match o with
  | OpInit m ok claimed => snd (adc_sampling_init m ok claimed w)
  | OpStart now => snd (adc_sampling_start now w)
  | OpStop now => snd (adc_sampling_stop now w)
  | OpIsReady adc t0 t1 t2 => snd (adc_sampling_is_ready adc t0 t1 t2 w)
  | OpGetBuffer => w
  | OpProcessFft => snd (adc_sampling_process_fft w)
  | OpCompleteProcessing => adc_sampling_complete_processing w
  | OpResetCounters => adc_sampling_reset_counters w
  | OpSwapBuffers => _adc_swap_buffers w
  | OpDmaComplete adc now =>
      if dma_busy w then _adc_dma_interrupt_handler now (dma_fill adc w)
      else w
  | OpDmaFault => set_dma_busy false w
  end.

Definition run (ops : list op) (w : world) : world :=
  fold_left (fun w o => step o w) ops w.

(** States the analyzer can be in once [adc_sampling_init] has been called,
    whatever memory and hardware held before. *)
Definition reachable (w : world) : Prop :=
  exists w0 m ok claimed ops,
    w = run ops (snd (adc_sampling_init m ok claimed w0)).

(** *** Auxiliary notions for the statements below *)

(** What every initialised state satisfies: the selector names the write
    target, a ready buffer is the other one, a raised flag comes with a
    buffer, the counters fit their type, and the status is one of the two
    values the code assigns. *)
Record Inv (w : world) : Prop := {
  inv_current : current_buffer w = if buffer_selector w then PONG else PING;
  inv_ready : ready_buffer w = NULL \/
              ready_buffer w = if buffer_selector w then PING else PONG;
  inv_flag : data_ready w = true -> ready_buffer w <> NULL;
  inv_samples : 0 <= sample_count w < 2 ^ 32;
  inv_overruns : 0 <= buffer_overruns w < 2 ^ 32;
  inv_status : status w = ADC_STATUS_IDLE \/ status w = ADC_STATUS_SAMPLING;
  inv_dma_error : dma_error w = false;
  inv_ping : length (buffer_ping w) = ADC_SAMPLING_FFT_SIZE;
  inv_pong : length (buffer_pong w) = ADC_SAMPLING_FFT_SIZE
}.

(** The stores of the sampling loop, on the array itself. *)
Fixpoint fill_list (adc : nat -> Z) (k i : nat) (l : list Z) : list Z :=
  match k with
  | O => l
  | S k' => fill_list adc k' (S i) (<[i := wrap16 (adc i)]> l)
  end.

(** The hardware accesses of the sampling loop. *)
Definition loop_trace (adc : nat -> Z) (k i : nat) : list event :=
  flat_map (fun j => [EvAdcRead (wrap16 (adc j));
                      EvSleepUs (Qfloor SAMPLING_INTERVAL_US)])
           (seq i k).

(** Ownership of the two physical buffers. *)
Definition is_write_target (w : world) (b : bufptr) : Prop :=
  b <> NULL /\ current_buffer w = b.

Definition is_ready_buffer (w : world) (b : bufptr) : Prop :=
  b <> NULL /\ ready_buffer w = b.

(** Operations that can start a transfer again after the channel has
    stopped: [adc_sampling_start] returns early while the status is
    [ADC_STATUS_SAMPLING], so it takes a stop or a new initialisation
    first. *)
Definition keeps_running (o : op) : bool :=
  match o with
  | OpInit _ _ _ | OpStop _ => false
  | _ => true
  end.

(** Concrete runs used as test inputs. *)
Definition ramp (j : nat) : Z := Z.of_nat j.

Definition dma_started : world :=
  run [OpStart 0] (snd (adc_sampling_init ADC_MODE_DMA true 0 power_on)).

Definition dma_one_frame : world :=
  run [OpStart 0; OpDmaComplete ramp 8000]
      (snd (adc_sampling_init ADC_MODE_DMA true 0 power_on)).

Definition manual_started : world :=
  run [OpStart 0] (snd (adc_sampling_init ADC_MODE_MANUAL true 0 power_on)).

End Acquisition.

(** ** Window constants and calibration math
    (config_settings.h, adc_sampling.c, fft_realtime_unified.c, the
    [fft_realtime_analysis] loop and the streaming display's entry clamp) *)

Module Calibration.
Import Config.

Local Open Scope R_scope.

Definition ADC_REFERENCE_VOLTAGE : R := 33 / 10.
Definition ADC_OFFSET_VOLTAGE : R := 165 / 100.
Definition ADC_VOLTAGE_PER_BIT : R :=
  ADC_REFERENCE_VOLTAGE / IZR (Z.shiftl 1 ADC_RESOLUTION_BITS).
Definition DB_REFERENCE_VOLTAGE_0DBM : R := 274 / 1000.
Definition DB_REFERENCE_IMPEDANCE : R := 75.
Definition ADC_INPUT_IMPEDANCE : R := 100000.
Definition SIGNAL_SOURCE_IMPEDANCE : R := 75.
Definition IMPEDANCE_CORRECTION_FACTOR : R :=
  (ADC_INPUT_IMPEDANCE + SIGNAL_SOURCE_IMPEDANCE) / ADC_INPUT_IMPEDANCE.

Definition WINDOW_COHERENT_GAIN_RECTANGLE : R := 1.
Definition WINDOW_COHERENT_GAIN_HAMMING : R := 54 / 100.
Definition WINDOW_COHERENT_GAIN_HANN : R := 5 / 10.
Definition WINDOW_COHERENT_GAIN_BLACKMAN : R := 42 / 100.
Definition WINDOW_COHERENT_GAIN_BLACKMANHARRIS : R := 35875 / 100000.
Definition WINDOW_COHERENT_GAIN_KAISER_BESSEL : R := 4 / 10.
Definition WINDOW_COHERENT_GAIN_FLATTOP : R := 2156 / 10000.

Definition WINDOW_AMPLITUDE_CORRECTION_RECTANGLE : R := 1 / 1.
Definition WINDOW_AMPLITUDE_CORRECTION_HAMMING : R := 1 / (54 / 100).
Definition WINDOW_AMPLITUDE_CORRECTION_HANN : R := 1 / (5 / 10).
Definition WINDOW_AMPLITUDE_CORRECTION_BLACKMAN : R := 1 / (42 / 100).
Definition WINDOW_AMPLITUDE_CORRECTION_BLACKMANHARRIS : R :=
  1 / (35875 / 100000).
Definition WINDOW_AMPLITUDE_CORRECTION_KAISER_BESSEL : R := 1 / (4 / 10).
Definition WINDOW_AMPLITUDE_CORRECTION_FLATTOP : R := 1 / (2156 / 10000).

(** The seven shapes, in the order of the [FFT_WINDOW_TYPE] selector. *)
Inductive window_t : Set :=
| RECTANGLE
| HAMMING
| HANN
| BLACKMAN
| BLACKMANHARRIS
| KAISER_BESSEL
| FLATTOP.

Definition all_windows : list window_t :=
  [RECTANGLE; HAMMING; HANN; BLACKMAN; BLACKMANHARRIS; KAISER_BESSEL; FLATTOP].

Definition coherent_gain (w : window_t) : R :=
  match w with
  | RECTANGLE => WINDOW_COHERENT_GAIN_RECTANGLE
  | HAMMING => WINDOW_COHERENT_GAIN_HAMMING
  | HANN => WINDOW_COHERENT_GAIN_HANN
  | BLACKMAN => WINDOW_COHERENT_GAIN_BLACKMAN
  | BLACKMANHARRIS => WINDOW_COHERENT_GAIN_BLACKMANHARRIS
  | KAISER_BESSEL => WINDOW_COHERENT_GAIN_KAISER_BESSEL
  | FLATTOP => WINDOW_COHERENT_GAIN_FLATTOP
  end.

Definition amplitude_correction (w : window_t) : R :=
  match w with
  | RECTANGLE => WINDOW_AMPLITUDE_CORRECTION_RECTANGLE
  | HAMMING => WINDOW_AMPLITUDE_CORRECTION_HAMMING
  | HANN => WINDOW_AMPLITUDE_CORRECTION_HANN
  | BLACKMAN => WINDOW_AMPLITUDE_CORRECTION_BLACKMAN
  | BLACKMANHARRIS => WINDOW_AMPLITUDE_CORRECTION_BLACKMANHARRIS
  | KAISER_BESSEL => WINDOW_AMPLITUDE_CORRECTION_KAISER_BESSEL
  | FLATTOP => WINDOW_AMPLITUDE_CORRECTION_FLATTOP
  end.

(** [fft_realtime_unified_get_window_correction]: the table indexed by the
    selector, 1.0 outside of it. *)
Definition fft_realtime_unified_get_window_correction (window_type : Z) : R :=
  match window_type with
  | 0%Z => WINDOW_AMPLITUDE_CORRECTION_RECTANGLE
  | 1%Z => WINDOW_AMPLITUDE_CORRECTION_HAMMING
  | 2%Z => WINDOW_AMPLITUDE_CORRECTION_HANN
  | 3%Z => WINDOW_AMPLITUDE_CORRECTION_BLACKMAN
  | 4%Z => WINDOW_AMPLITUDE_CORRECTION_BLACKMANHARRIS
  | 5%Z => WINDOW_AMPLITUDE_CORRECTION_KAISER_BESSEL
  | 6%Z => WINDOW_AMPLITUDE_CORRECTION_FLATTOP
  | _ => 1
  end.

(** The [switch] of [fft_realtime_analysis], whose numbering starts at the
    Hamming window. *)
Definition realtime_window_correction (window_type : Z) : R :=
  match window_type with
  | 0%Z => WINDOW_AMPLITUDE_CORRECTION_HAMMING
  | 1%Z => WINDOW_AMPLITUDE_CORRECTION_HANN
  | 2%Z => WINDOW_AMPLITUDE_CORRECTION_BLACKMAN
  | 3%Z => WINDOW_AMPLITUDE_CORRECTION_BLACKMANHARRIS
  | 4%Z => WINDOW_AMPLITUDE_CORRECTION_KAISER_BESSEL
  | 5%Z => WINDOW_AMPLITUDE_CORRECTION_FLATTOP
  | _ => WINDOW_AMPLITUDE_CORRECTION_HAMMING
  end.

Definition sqrtf (x : R) : R := sqrt x.
Definition log10f (x : R) : R := ln x / ln 10.

(** [kiss_fft_cpx] *)
Record kiss_fft_cpx : Type := cpx { r : R; i : R }.

(** *** [adc_sampling_process_fft], one turn of the magnitude loop *)

Definition process_fft_magnitude (c : kiss_fft_cpx) : R :=
  let real := r c in
  let imag := i c in
  let magnitude := sqrtf (real * real + imag * imag) in
  magnitude / INR ADC_SAMPLING_FFT_SIZE.

Definition process_fft_db (voltage_magnitude : R) : R :=
  if Rgt_dec voltage_magnitude (1 / 10 ^ 10)
  then 20 * log10f (voltage_magnitude / DB_REFERENCE_VOLTAGE_0DBM)
  else -200.

Definition process_fft_bin (c : kiss_fft_cpx) : R :=
  let magnitude := process_fft_magnitude c in
  let voltage_magnitude := magnitude * ADC_VOLTAGE_PER_BIT in
  process_fft_db voltage_magnitude.

(** The array [magnitude] after the loop over the first half of
    [fft_output]. *)
Definition process_fft_spectrum (fft_output : list kiss_fft_cpx) : list R :=
  map process_fft_bin (take (ADC_SAMPLING_FFT_SIZE / 2) fft_output).

(** [fft_realtime_unified_update_display]: what is handed to the display. *)
Definition corrected_spectrum (window_type : Z) (magnitude_spectrum : list R)
  : list R :=
  map (fun m =>
         m + 20 * log10f (fft_realtime_unified_get_window_correction
                            window_type))
      (take (ADC_SAMPLING_FFT_SIZE / 2) magnitude_spectrum).

(** *** [fft_realtime_analysis], one turn of the magnitude loop at bin [n] *)

Definition realtime_magnitude (window_type : Z) (n : nat) (c : kiss_fft_cpx)
  : R :=
  let real := r c in
  let imag := i c in
  let magnitude := sqrtf (real * real + imag * imag) in
  let magnitude := magnitude * realtime_window_correction window_type in
  if Nat.eqb n 0 then magnitude / INR FFT_SIZE
  else magnitude / INR (FFT_SIZE / 2).

Definition realtime_db (corrected_voltage : R) : R :=
  if Rgt_dec corrected_voltage (1 / 10 ^ 9)
  then 20 * log10f (corrected_voltage / DB_REFERENCE_VOLTAGE_0DBM)
  else -120.

Definition realtime_bin (window_type : Z) (n : nat) (c : kiss_fft_cpx) : R :=
  let magnitude := realtime_magnitude window_type n c in
  let voltage_magnitude := magnitude * ADC_VOLTAGE_PER_BIT in
  let corrected_voltage := voltage_magnitude * IMPEDANCE_CORRECTION_FACTOR in
  realtime_db corrected_voltage.

(** The copy into [magnitude_db] with the design limits applied. *)
Definition realtime_limit (m : R) : R :=
  let m := if Rgt_dec m 20 then 20 else m in
  if Rlt_dec m (-100) then -100 else m.

Definition realtime_spectrum (window_type : Z) (fft_output : list kiss_fft_cpx)
  : list R :=
  imap (fun n c => realtime_limit (realtime_bin window_type n c))
       (take (FFT_SIZE / 2) fft_output).

(** *** [fft_streaming_display_update_spectrum], the clamp on [db_value] *)

Definition display_clamp (db_value : R) : R :=
  let db_value := if Rlt_dec db_value (-100) then -100 else db_value in
  if Rgt_dec db_value 20 then 20 else db_value.

(** The configured display range. *)
Definition in_display_range (x : R) : Prop :=
  IZR AMPLITUDE_RANGE_MIN_DB <= x <= IZR AMPLITUDE_RANGE_MAX_DB.

(** *** The window constants as the compiler evaluates them

    IEEE 754 binary32 with round to nearest even.  A decimal literal [p/q]
    with [p] and [q] below 2^24 is the correctly rounded quotient. *)
Module Binary32.

Definition prec : Z := 24.
Definition emax : Z := 128.
Definition of_Z (n : Z) : spec_float := binary_normalize prec emax n 0 false.
Definition fdiv (x y : spec_float) : spec_float := SFdiv prec emax x y.
Definition fmul (x y : spec_float) : spec_float := SFmul prec emax x y.
Definition fsub (x y : spec_float) : spec_float := SFsub prec emax x y.
Definition fadd (x y : spec_float) : spec_float := SFadd prec emax x y.
Definition lit (p q : Z) : spec_float := fdiv (of_Z p) (of_Z q).

Definition coherent_gain (w : window_t) : spec_float :=
  match w with
  | RECTANGLE => lit 1 1
  | HAMMING => lit 54 100
  | HANN => lit 5 10
  | BLACKMAN => lit 42 100
  | BLACKMANHARRIS => lit 35875 100000
  | KAISER_BESSEL => lit 4 10
  | FLATTOP => lit 2156 10000
  end.

Definition amplitude_correction (w : window_t) : spec_float :=
  fdiv (lit 1 1) (coherent_gain w).

(** One unit in the last place of 1.0, [FLT_EPSILON]. *)
Definition FLT_EPSILON : spec_float :=
  binary_normalize prec emax 1 (-23) false.

Definition near_one (x : spec_float) : bool :=
  SFleb (SFabs (fsub x (of_Z 1))) FLT_EPSILON.

End Binary32.

End Calibration.

(** ** Windowing, the legacy loop and the streaming display
    (adc_sampling.c, [fft_realtime_analysis], fft_streaming_display.c) *)

Module Pipeline.
Import Config Calibration.

Local Open Scope R_scope.

Definition KAISER_BESSEL_BETA : R := 85 / 10.
Definition M_PI : R := PI.
Definition USE_LOG_FREQ_SCALE : bool := false.
Definition PEAK_HOLD_DURATION_MS : Z := 1.
Definition STREAM_SPECTRUM_X : Z := 40.
Definition STREAM_SPECTRUM_Y : Z := 20.
Definition STREAM_SPECTRUM_W : Z := 240.
Definition STREAM_SPECTRUM_H : Z := 180.
Definition STREAM_BUFFER_COLS : Z := 240.

(** The conversion [(int) x] of a float truncates toward zero. *)
Definition int_of_float (x : R) : Z :=
  if Rle_dec 0 x then Int_part x else (- Int_part (- x))%Z.

(** *** [_adc_apply_window_function] *)

(** The [switch] on the window selector, at sample [n]. *)
Definition window_coefficient (window_type : Z) (n : nat) : R :=
  let size1 := INR (ADC_SAMPLING_FFT_SIZE - 1) in
  match window_type with
  | 0%Z => 1
  | 1%Z => 54 / 100 - 46 / 100 * cos (2 * M_PI * INR n / size1)
  | 2%Z => 5 / 10 * (1 - cos (2 * M_PI * INR n / size1))
  | 3%Z => 42 / 100 - 5 / 10 * cos (2 * M_PI * INR n / size1)
           + 8 / 100 * cos (4 * M_PI * INR n / size1)
  | 4%Z => 35875 / 100000 - 48829 / 100000 * cos (2 * M_PI * INR n / size1)
           + 14128 / 100000 * cos (4 * M_PI * INR n / size1)
           - 1168 / 100000 * cos (6 * M_PI * INR n / size1)
  | 5%Z =>
      let alpha := size1 / 2 in
      let x := (INR n - alpha) / alpha in
      let arg := KAISER_BESSEL_BETA * sqrtf (1 - x * x) in
      if Rlt_dec arg 50 then exp (arg - KAISER_BESSEL_BETA) else 0
  | 6%Z => 1 - 193 / 100 * cos (2 * M_PI * INR n / size1)
           + 129 / 100 * cos (4 * M_PI * INR n / size1)
           - 388 / 1000 * cos (6 * M_PI * INR n / size1)
           + 32 / 1000 * cos (8 * M_PI * INR n / size1)
  | _ => 1
  end.

(** The first loop: the sum of the samples, divided by the size.  The code
    accumulates in binary32.  For samples of the 12-bit converter every
    partial sum is an integer below 2^22 and the quotient by 1024 a multiple
    of 2^-10 below 2^12, all of them binary32 numbers, so that no rounding
    takes place and the real-number reading is exact; beyond a sum of 2^24
    it is not (see [dc_offset_binary32]). *)
Definition dc_offset_of (adc_buffer : list Z) : R :=
  fold_left (fun acc x => acc + IZR x)
            (take ADC_SAMPLING_FFT_SIZE adc_buffer) 0
  / INR ADC_SAMPLING_FFT_SIZE.

(** The same loop and the subtraction that follows it, in binary32. *)
Definition dc_offset_binary32 (adc_buffer : list Z) : spec_float :=
  Binary32.fdiv
    (fold_left (fun acc x => Binary32.fadd acc (Binary32.of_Z x))
               (take ADC_SAMPLING_FFT_SIZE adc_buffer) (Binary32.of_Z 0))
    (Binary32.of_Z (Z.of_nat ADC_SAMPLING_FFT_SIZE)).

Definition sample_binary32 (adc_buffer : list Z) (x : Z) : spec_float :=
  Binary32.fsub (Binary32.of_Z x) (dc_offset_binary32 adc_buffer).

Definition _adc_apply_window_function (window_type : Z) (adc_buffer : list Z)
  : list kiss_fft_cpx :=
  let dc_offset := dc_offset_of adc_buffer in
  imap (fun n x =>
          let sample := IZR x - dc_offset in
          let sample := sample * window_coefficient window_type n in
          cpx sample 0)
       (take ADC_SAMPLING_FFT_SIZE adc_buffer).

(** The sum of a list of numbers, to speak about the mean. *)
Definition total (l : list R) : R := fold_right Rplus 0 l.

(** *** Bins and frequencies *)

Definition adc_sampling_bin_to_frequency (bin : Z) : R :=
  IZR bin * IZR ADC_SAMPLING_RATE / INR ADC_SAMPLING_FFT_SIZE.

(** In [fft_streaming_display_update_spectrum]: the frequency of a bin and
    the test that lets it through. *)
Definition display_bin_freq (bin : Z) (sample_rate : R) : R :=
  IZR bin * sample_rate / INR STREAM_FFT_SIZE.

Definition display_takes (bin : Z) (sample_rate : R) : bool :=
  let bin_freq := display_bin_freq bin sample_rate in
  if Rlt_dec bin_freq (IZR FREQUENCY_RANGE_MIN) then false
  else if Rgt_dec bin_freq (IZR FREQUENCY_RANGE_MAX) then false
  else true.

Definition fft_streaming_display_freq_to_position (freq_hz : R) : R :=
  if Rlt_dec freq_hz (IZR FREQUENCY_RANGE_MIN) then 0
  else if Rgt_dec freq_hz (IZR FREQUENCY_RANGE_MAX) then 1
  else if USE_LOG_FREQ_SCALE then
    let log_freq := log10f freq_hz in
    let log_min := log10f (IZR FREQUENCY_RANGE_MIN) in
    let log_max := log10f (IZR FREQUENCY_RANGE_MAX) in
    (log_freq - log_min) / (log_max - log_min)
  else
    (freq_hz - IZR FREQUENCY_RANGE_MIN)
    / IZR (FREQUENCY_RANGE_MAX - FREQUENCY_RANGE_MIN).

Definition fft_streaming_display_freq_to_column (freq_hz : R) : Z :=
  let normalized := fft_streaming_display_freq_to_position freq_hz in
  let col := int_of_float (normalized * IZR STREAM_BUFFER_COLS) in
  let col := if (col <? 0)%Z then 0%Z else col in
  if (col >=? STREAM_BUFFER_COLS)%Z then (STREAM_BUFFER_COLS - 1)%Z else col.

(** *** One column of [fft_streaming_display_update_spectrum] *)

(** The exponential moving average in [smooth_buffer]. *)
Definition smooth_update (smooth_init : bool) (old db_value : R) : R :=
  let smooth_factor := 4 / 10 in
  if negb smooth_init then db_value
  else old * (1 - smooth_factor) + db_value * smooth_factor.

(** The peak hold: the held level and the time it was taken. *)
Definition hold_update (peak_db : R) (hold_time now : Z) (smooth : R)
  : R * Z :=
  if Rgt_dec smooth peak_db then (smooth, now)
  else if (now - hold_time >? PEAK_HOLD_DURATION_MS * 1000)%Z
       then (smooth, now)
       else (peak_db, hold_time).

(** From a level to the height of the bar and the row of its top. *)
Definition bar_height (level : R) : Z :=
  let db_range := IZR (AMPLITUDE_RANGE_MAX_DB - AMPLITUDE_RANGE_MIN_DB) in
  let normalized_db := (level - IZR AMPLITUDE_RANGE_MIN_DB) / db_range in
  let height := int_of_float (normalized_db * IZR STREAM_SPECTRUM_H) in
  let height := if (height <? 0)%Z then 0%Z else height in
  if (height >=? STREAM_SPECTRUM_H)%Z then (STREAM_SPECTRUM_H - 1)%Z
  else height.

Definition bar_top (level : R) : Z :=
  (STREAM_SPECTRUM_Y + STREAM_SPECTRUM_H - bar_height level)%Z.

(** The column state after one bin has been mapped to it: smoothed level,
    held peak and its time, top row of the bar. *)
Definition column_update (smooth_init : bool) (old peak_db : R)
  (hold_time now : Z) (magnitude : R) : R * (R * Z) * Z :=
  let db_value := display_clamp magnitude in
  let smooth := smooth_update smooth_init old db_value in
  (smooth, hold_update peak_db hold_time now smooth, bar_top smooth).

(** *** [fft_realtime_analysis]: rate calibration and peak search *)

(** The running average of the measured sampling rate over the first ten
    frames; [frame_count] is the number of frames finished before. *)
Definition calibrate_rate (measured_sample_rate : R) (rate_calibrated : bool)
  (frame_count : nat) (current_sample_rate : R) : R * bool :=
  if negb rate_calibrated && (frame_count <? 10)%nat then
    let measured :=
      (measured_sample_rate * INR frame_count + current_sample_rate)
      / INR (frame_count + 1) in
    (measured, if (frame_count =? 9)%nat then true else rate_calibrated)
  else (measured_sample_rate, rate_calibrated).

(** The loop over the frames, one measured rate per frame. *)
Fixpoint calibrate_frames (rates : list R) (frame_count : nat)
  (st : R * bool) : R * bool :=
  match rates with
  | [] => st
  | current :: rest =>
      calibrate_frames rest (S frame_count)
        (calibrate_rate (fst st) (snd st) frame_count current)
  end.

(** The search for the strongest bin, from bin [n] on, over what is left of
    [magnitude_db]. *)
Fixpoint peak_search (magnitude_db : list R) (n : nat)
  (max_magnitude : R) (max_bin : nat) : R * nat :=
  match magnitude_db with
  | [] => (max_magnitude, max_bin)
  | m :: rest =>
      if Rgt_dec m max_magnitude then peak_search rest (S n) m n
      else peak_search rest (S n) max_magnitude max_bin
  end.

(** The loop starts at bin 1, with -200 and bin 1. *)
Definition find_peak (magnitude_db : list R) : R * nat :=
  peak_search (drop 1 (take (FFT_SIZE / 2) magnitude_db)) 1 (-200) 1.

End Pipeline.

(** ** The main loop of fft_realtime_unified.c, with the completion
    interrupt served inside the calls of the main context *)

Module Coordinator.
Import Config Acquisition Calibration Pipeline.

Definition TARGET_FRAME_TIME_US : Z := 1000000 / TARGET_FPS.

(** Calls a program makes that initialises the analyzer once and leaves the
    internal swap to the module. *)
Definition in_service (o : op) : bool :=
  match o with
  | OpInit _ _ _ | OpSwapBuffers => false
  | _ => true
  end.

(** Calls of such a program between two completion interrupts. *)
Definition no_completion (o : op) : bool :=
  match o with
  | OpInit _ _ _ | OpSwapBuffers | OpDmaComplete _ _ => false
  | _ => true
  end.

(** *** Completion interrupts *)

(** A completion interrupt: the samples its transfer has moved, and the
    time the handler reads. *)
Definition irq : Type := ((nat -> Z) * Z)%type.

(** The completions served, one after the other, at one point of the main
    context.  [DMA_IRQ_0] is enabled from [_adc_dma_init] on and nothing in
    the module masks it; the handler runs to its end before the main
    context goes on. *)
Definition serve (pending : list irq) (w : world) : world :=
  fold_left (fun w q => step (OpDmaComplete (fst q) (snd q)) w) pending w.

Definition none_pending (pending : list irq) : bool :=
  match pending with
  | [] => true
  | _ => false
  end.

(** What holds of the buffers and of the channel wherever the handler cuts
    in: the selector names the write target, a ready buffer is the other
    one, and a transfer in flight writes to the write target. *)
Record coherent (w : world) : Prop := {
  coh_current : current_buffer w = if buffer_selector w then PONG else PING;
  coh_ready : ready_buffer w = NULL \/
              ready_buffer w = if buffer_selector w then PING else PONG;
  coh_ping : length (buffer_ping w) = ADC_SAMPLING_FFT_SIZE;
  coh_pong : length (buffer_pong w) = ADC_SAMPLING_FFT_SIZE;
  coh_dma : dma_busy w = true ->
            mode w = ADC_MODE_DMA /\ dma_write_addr w = current_buffer w
}.

(** A raised flag comes with a buffer. *)
Definition flag_ok (w : world) : Prop :=
  data_ready w = true -> ready_buffer w <> NULL.

(** *** [adc_sampling_get_buffer] and [adc_sampling_complete_processing],
    access by access *)

(** The test of [data_ready], then the load of [ready_buffer]. *)
Definition adc_sampling_get_buffer_irq (at_get_buffer : list irq) (w : world)
  : bufptr * world :=
  if negb (data_ready w) then (NULL, w)
  else
    let w := serve at_get_buffer w in
    (ready_buffer w, w).

(** The test of [data_ready], then the three stores. *)
Definition adc_sampling_complete_processing_irq
  (at_release_test at_release_flag at_release_fft : list irq) (w : world)
  : world :=
  if data_ready w then
    let w := serve at_release_test w in
    let w := emit (EvStoreDataReady false) (upd (set_data_ready false) w) in
    let w := serve at_release_flag w in
    let w := upd (set_fft_ready false) w in
    let w := serve at_release_fft w in
    upd (set_ready_buffer NULL) w
  else w.

(** *** [adc_sampling_process_fft] with the arrays it fills *)

(** The three arrays of [unified_fft_analyzer_t] that only
    [adc_sampling_process_fft] writes. *)
Record fft_arrays : Type := Build_fft_arrays {
  fft_input : list kiss_fft_cpx;
  fft_output : list kiss_fft_cpx;
  magnitude : list R
}.

Section Transform.

(** [kiss_fft] of the library, with the configuration that
    [adc_sampling_init] has allocated. *)
Variable kiss_fft : list kiss_fft_cpx -> list kiss_fft_cpx.

(** Window, transform and magnitude loop on the samples the window
    function reads. *)
Definition process_fft_arrays (adc_buffer : list Z) : fft_arrays :=
  let fft_input := _adc_apply_window_function FFT_WINDOW_TYPE adc_buffer in
  let fft_output := kiss_fft fft_input in
  Build_fft_arrays fft_input fft_output (process_fft_spectrum fft_output).

(** Completions can be served between the two accesses of
    [adc_sampling_get_buffer], while the window function reads the buffer,
    and during the transform and the magnitude loop.  The first completion
    served while the buffer is read arms the transfer on this very buffer,
    so what the window function then reads is mixed from two frames: it is
    given by [torn].  Otherwise it reads the buffer as it is. *)
Definition adc_sampling_process_fft_irq
  (at_get_buffer at_window at_transform : list irq) (torn : list Z)
  (a : fft_arrays) (w : world) : bool * fft_arrays * world :=
  let '(buffer, w) := adc_sampling_get_buffer_irq at_get_buffer w in
  if bufptr_eqb buffer NULL then (false, a, w)
  else
    let seen :=
      if dma_busy w && negb (none_pending at_window) then torn
      else default [] (deref buffer w) in
    let w := serve at_window w in
    let a := process_fft_arrays seen in
    let w := serve at_transform w in
    (true, a, upd (set_fft_ready true) w).

(** [adc_sampling_get_magnitude_spectrum]: the array, unless [fft_ready]
    is clear. *)
Definition adc_sampling_get_magnitude_spectrum (a : fft_arrays) (w : world)
  : option (list R) :=
  if negb (fft_ready w) then None else Some (magnitude a).

(** [fft_realtime_unified_update_display]: the array it passes to
    [fft_streaming_display_update_spectrum]. *)
Definition fft_realtime_unified_update_display (magnitude_spectrum : list R)
  : list R :=
  corrected_spectrum FFT_WINDOW_TYPE magnitude_spectrum.

(** *** [fft_realtime_unified_run] *)

(** The static counters of the file, and the arrays handed to the display,
    oldest first. *)
Record coordinator : Type := Build_coordinator {
  frame_count : Z;
  error_count : Z;
  last_frame_time : Z;
  actual_fps : Q;
  published : list (list R)
}.

(** The frame-rate control at the end of both main loops: the time to sleep,
    if any. *)
Definition frame_sleep (frame_time_us : Z) : option Z :=
  let target_frame_time_us := TARGET_FRAME_TIME_US in
  if frame_time_us <? target_frame_time_us then
    let sleep_time_us := target_frame_time_us - frame_time_us in
    if 0 <? sleep_time_us then Some sleep_time_us else None
  else None.

(** What the environment contributes to one turn of the loop: the
    conversions a manual poll finds, the readings of the clock, and the
    completion interrupts by the point of the turn at which they are
    served. *)
Record turn : Type := Build_turn {
  samples : nat -> Z;
  frame_start : Z;
  poll_start : Z;
  poll_end : Z;
  poll_done : Z;
  frame_end : Z;
  at_poll : list irq;
  at_process : list irq;
  at_get_buffer : list irq;
  at_window : list irq;
  at_transform : list irq;
  at_display : list irq;
  at_release_test : list irq;
  at_release_flag : list irq;
  at_release_fft : list irq;
  at_sleep : list irq;
  torn : list Z
}.

(** No completion is served between the stores of the release. *)
Definition quiet_release (t : turn) : Prop :=
  at_release_flag t = [] /\ at_release_fft t = [].

(** A turn without any completion interrupt. *)
Definition quiet_turn (adc : nat -> Z)
  (frame_start poll_start poll_end poll_done frame_end : Z) : turn :=
  Build_turn adc frame_start poll_start poll_end poll_done frame_end
    [] [] [] [] [] [] [] [] [] [] [].

Record loop_state : Type := Build_loop_state {
  loop_counters : coordinator;
  loop_arrays : fft_arrays;
  loop_world : world
}.

(** One turn of the loop of [fft_realtime_unified_run].  The periodic status
    and overrun messages only print and are left out. *)
Definition unified_iteration (t : turn) (s : loop_state) : loop_state :=
  let c := loop_counters s in
  let a := loop_arrays s in
  let w := serve (at_poll t) (loop_world s) in
  let '(ready, w) :=
    adc_sampling_is_ready (samples t) (poll_start t) (poll_end t)
      (poll_done t) w in
  let '(c, a, w) :=
    if ready then
      let w := serve (at_process t) w in
      let '(ok, a, w) :=
        adc_sampling_process_fft_irq (at_get_buffer t) (at_window t)
          (at_transform t) (torn t) a w in
      if ok then
        let c :=
          match adc_sampling_get_magnitude_spectrum a w with
          | Some magnitude =>
              Build_coordinator (wrap32 (frame_count c + 1)) (error_count c)
                (last_frame_time c) (actual_fps c)
                (published c
                 ++ [fft_realtime_unified_update_display magnitude])
          | None => c
          end in
        let w := serve (at_display t) w in
        let w :=
          adc_sampling_complete_processing_irq (at_release_test t)
            (at_release_flag t) (at_release_fft t) w in
        (c, a, w)
      else
        (Build_coordinator (frame_count c) (wrap32 (error_count c + 1))
           (last_frame_time c) (actual_fps c) (published c), a, w)
    else (c, a, w) in
  let frame_time_us := frame_end t - frame_start t in
  let total_frame_time_us := frame_end t - last_frame_time c in
  let fps :=
    if 0 <? total_frame_time_us
    then (1000000 / inject_Z total_frame_time_us)%Q
    else actual_fps c in
  let c := Build_coordinator (frame_count c) (error_count c) (frame_end t)
             fps (published c) in
  let w :=
    match frame_sleep frame_time_us with
    | Some us => emit (EvSleepUs us) w
    | None => w
    end in
  Build_loop_state c a (serve (at_sleep t) w).

(** The loop, turn after turn. *)
Definition unified_run (turns : list turn) (s : loop_state) : loop_state :=
  fold_left (fun s t => unified_iteration t s) turns s.

End Transform.

End Coordinator.

(** * Properties of the acquisition core *)

Module AcquisitionFacts.
Import Config Acquisition.

Lemma wrap32_range x : 0 <= wrap32 x < 2 ^ 32.
Proof. unfold wrap32. apply Z.mod_pos_bound. lia. Qed.

Lemma wrap32_small x : 0 <= x < 2 ^ 32 -> wrap32 x = x.
Proof. intros H. unfold wrap32. apply Z.mod_small. exact H. Qed.


Lemma fill_list_spec adc k : forall i (l : list Z),
  (i + k <= length l)%nat ->
  fill_list adc k i l =
  take i l ++ map (fun j => wrap16 (adc j)) (seq i k) ++ drop (i + k) l.
Proof.
  induction k as [|k IH]; intros i l Hlen; cbn [fill_list seq map].
  - rewrite Nat.add_0_r. cbn. now rewrite take_drop.
  - rewrite IH by (rewrite length_insert; lia).
    rewrite (take_S_r _ i (wrap16 (adc i)))
      by (apply list_lookup_insert_eq; lia).
    rewrite take_insert_ge by lia.
    rewrite drop_insert_lt by lia.
    rewrite <- app_assoc. cbn.
    now replace (i + S k)%nat with (S (i + k)) by lia.
Qed.

Lemma fill_list_full adc (l : list Z) :
  length l = ADC_SAMPLING_FFT_SIZE ->
  fill_list adc ADC_SAMPLING_FFT_SIZE 0 l = frame_of adc.
Proof.
  intros Hlen. rewrite fill_list_spec by (rewrite Hlen; lia).
  rewrite take_0, drop_ge by (rewrite Hlen; cbn; lia).
  cbn [app]. now rewrite app_nil_r.
Qed.

Lemma frame_of_length adc : length (frame_of adc) = ADC_SAMPLING_FFT_SIZE.
Proof. unfold frame_of. now rewrite length_map, length_seq. Qed.

Lemma fill_list_length adc k : forall i (l : list Z),
  length (fill_list adc k i l) = length l.
Proof.
  induction k as [|k IH]; intros i l; cbn; [reflexivity|].
  now rewrite IH, length_insert.
Qed.

(** The sampling loop stores into the write target, appends its hardware
    accesses to the trace and touches nothing else. *)
Lemma manual_sample_loop_spec adc k : forall i (w : world),
  manual_sample_loop adc k i w =
  Build_world
    (match current_buffer w with
     | NULL => g_unified_analyzer w
     | PING => set_buffer_ping (fill_list adc k i (buffer_ping w)) w
     | PONG => set_buffer_pong (fill_list adc k i (buffer_pong w)) w
     end)
    (adc_running w) (dma_busy w) (dma_write_addr w)
    (trace w ++ loop_trace adc k i).
Proof.
  induction k as [|k IH]; intros i [a run busy dst tr].
  - destruct a as [? ? ? ? [] ? ? ? ? ? ? ? ? ? ? ? ? ? ?]; cbn;
      now rewrite app_nil_r.
  - cbn [manual_sample_loop adc_read]. rewrite IH.
    destruct a as [? ? ? ? [] ? ? ? ? ? ? ? ? ? ? ? ? ? ?]; cbn;
      now rewrite <- !app_assoc.
Qed.


(** *** The invariant *)

#[local] Arguments wrap32 : simpl never.
#[local] Arguments Z.pow : simpl never.
#[local] Arguments fill_list : simpl never.
#[local] Arguments frame_of : simpl never.
#[local] Arguments loop_trace : simpl never.
#[local] Arguments Z.of_nat : simpl never.

Create HintDb inv.
#[local] Hint Resolve wrap32_range : inv.
Create Rewrite HintDb inv_rw.
#[local] Hint Rewrite fill_list_length frame_of_length : inv_rw.

Ltac split_world w :=
  let a := fresh "a" in
  destruct w as [a ? ? ? ?];
  destruct a as [? ? ? ? ? ? ? ? ? ? ? ? ? ? ? ? ? ? ?].

Ltac case_ifs :=
  repeat (cbn in *;
          match goal with
          | |- context [if ?b then _ else _] => destruct b eqn:?
          | H : context [if ?b then _ else _] |- _ => destruct b eqn:?
          end).

Ltac inv_solve :=
  case_ifs; constructor; cbn in *; autorewrite with inv_rw;
  try solve [ auto with inv
            | congruence
            | lia
            | intuition (congruence || lia || auto with inv) ].

Lemma Inv_zeroed_lengths :
  length (repeat 0 ADC_SAMPLING_FFT_SIZE) = ADC_SAMPLING_FFT_SIZE.
Proof. apply repeat_length. Qed.

Lemma Inv_init m ok claimed w0 :
  Inv (snd (adc_sampling_init m ok claimed w0)).
Proof.
  unfold adc_sampling_init, _adc_dma_init, _adc_manual_init.
  split_world w0. cbn.
  destruct ok; cbn; [destruct m; cbn; [|destruct (claimed <? 0)]|];
    constructor; cbn; auto using Inv_zeroed_lengths; lia || congruence.
Qed.

Lemma Inv_swap w : Inv w -> Inv (_adc_swap_buffers w).
Proof.
  intros [Hc Hr Hf Hs Ho Hst He Hp Hq]. split_world w. cbn in *.
  subst. destruct buffer_selector0; inv_solve.
Qed.


Lemma Inv_handler now w : Inv w -> Inv (_adc_dma_interrupt_handler now w).
Proof.
  intros [Hc Hr Hf Hs Ho Hst He Hp Hq]. split_world w. cbn in *.
  subst. destruct data_ready0, buffer_selector0; inv_solve.
Qed.

Lemma Inv_dma_fill adc w : Inv w -> Inv (dma_fill adc w).
Proof.
  intros [Hc Hr Hf Hs Ho Hst He Hp Hq]. split_world w. cbn in *.
  unfold dma_fill. cbn. destruct dma_write_addr0; inv_solve.
Qed.

Lemma Inv_manual adc t0 t1 t2 w :
  Inv w -> Inv (_adc_manual_sample_buffer adc t0 t1 t2 w).
Proof.
  intros [Hc Hr Hf Hs Ho Hst He Hp Hq].
  unfold _adc_manual_sample_buffer. rewrite manual_sample_loop_spec.
  split_world w. cbn in *. subst.
  destruct buffer_selector0, (0 <? t1 - t0),
    (Qeq_bool actual_sample_rate0 0); inv_solve.
Qed.

Lemma Inv_step o w : Inv w -> Inv (step o w).
Proof.
  intros HI. destruct o; cbn [step].
  - apply Inv_init.
  - destruct HI as [Hc Hr Hf Hs Ho Hst He Hp Hq].
    unfold adc_sampling_start. split_world w. cbn in *.
    destruct status0, mode0; inv_solve.
  - destruct HI as [Hc Hr Hf Hs Ho Hst He Hp Hq].
    unfold adc_sampling_stop. split_world w. cbn in *.
    destruct status0, mode0, (0 <? now - sampling_start_time0); inv_solve.
  - unfold adc_sampling_is_ready.
    destruct (mode_eqb (mode w) ADC_MODE_MANUAL && sampling_active w
              && negb (data_ready w)); cbn [snd]; auto using Inv_manual.
  - exact HI.
  - destruct HI as [Hc Hr Hf Hs Ho Hst He Hp Hq].
    unfold adc_sampling_process_fft, adc_sampling_get_buffer.
    split_world w. cbn in *.
    destruct data_ready0, ready_buffer0; inv_solve.
  - destruct HI as [Hc Hr Hf Hs Ho Hst He Hp Hq].
    unfold adc_sampling_complete_processing. split_world w. cbn in *.
    destruct data_ready0; inv_solve.
  - destruct HI as [Hc Hr Hf Hs Ho Hst He Hp Hq].
    split_world w. cbn in *. inv_solve.
  - now apply Inv_swap.
  - destruct (dma_busy w); auto using Inv_handler, Inv_dma_fill.
  - destruct HI as [Hc Hr Hf Hs Ho Hst He Hp Hq].
    split_world w. cbn in *. inv_solve.
Qed.

Lemma Inv_run ops : forall w, Inv w -> Inv (run ops w).
Proof.
  induction ops as [|o ops IH]; intros w HI; cbn; auto using Inv_step.
Qed.

Lemma reachable_Inv w : reachable w -> Inv w.
Proof.
  intros (w0 & m & ok & claimed & ops & ->).
  apply Inv_run, Inv_init.
Qed.

Lemma reachable_step o w : reachable w -> reachable (step o w).
Proof.
  intros (w0 & m & ok & claimed & ops & ->).
  exists w0, m, ok, claimed, (ops ++ [o]).
  unfold run. now rewrite fold_left_app.
Qed.


(** *** Buffer ownership *)

(** C2.  In every state reachable from an initialisation by any sequence of
    operations (initialise again, start, stop, poll, take, process, release,
    reset counters, swap, transfer completion, transfer fault), exactly one
    of the two physical buffers is the write target, at most one is the
    ready buffer, and no buffer is both. *)
Theorem C2_buffer_ownership (w : world) :
  reachable w ->
  (exists b, is_write_target w b /\ forall b', is_write_target w b' -> b' = b)
  /\ (forall b1 b2, is_ready_buffer w b1 -> is_ready_buffer w b2 -> b1 = b2)
  /\ (forall b, ~ (is_write_target w b /\ is_ready_buffer w b))
  /\ (ready_buffer w <> NULL -> ready_buffer w <> current_buffer w).
Proof.
  intros Hr. destruct (reachable_Inv w Hr) as [Hc Hrd _ _ _ _ _ _ _].
  unfold is_write_target, is_ready_buffer.
  repeat split.
  - exists (current_buffer w). repeat split.
    + rewrite Hc. destruct (buffer_selector w); discriminate.
    + now intros b' [_ <-].
  - intros b1 b2 [_ <-] [_ <-]. reflexivity.
  - intros b [[_ H1] [H2 H3]]. subst b.
    destruct Hrd as [Hn | Ho]; [congruence|].
    rewrite Hc, Ho in H3. destruct (buffer_selector w); discriminate.
  - intros Hn Heq. destruct Hrd as [Hnull | Ho]; [congruence|].
    rewrite Hc, Ho in Heq. destruct (buffer_selector w); discriminate.
Qed.

Lemma C2_buffer_ownership_witness :
  reachable dma_one_frame /\
  is_write_target dma_one_frame PONG /\
  is_ready_buffer dma_one_frame PING /\
  (ready_buffer dma_one_frame <> NULL ->
   ready_buffer dma_one_frame <> current_buffer dma_one_frame).
Proof.
  assert (Hr : reachable dma_one_frame).
  { exists power_on, ADC_MODE_DMA, true, 0,
      [OpStart 0; OpDmaComplete ramp 8000]. reflexivity. }
  split; [exact Hr|].
  split; [split; [discriminate | vm_compute; reflexivity]|].
  split; [split; [discriminate | vm_compute; reflexivity]|].
  exact (proj2 (proj2 (proj2 (C2_buffer_ownership dma_one_frame Hr)))).
Defined.

(** C8.  From every state of the initialised analyzer, two successive buffer
    swaps bring the write target (and the selector) back to the same
    physical buffer; a single swap moves it to the other one. *)
Theorem C8_swap_involution (w : world) :
  reachable w ->
  current_buffer (_adc_swap_buffers (_adc_swap_buffers w)) = current_buffer w
  /\ buffer_selector (_adc_swap_buffers (_adc_swap_buffers w))
     = buffer_selector w
  /\ current_buffer (_adc_swap_buffers w) <> current_buffer w.
Proof.
  intros Hr. destruct (reachable_Inv w Hr) as [Hc _ _ _ _ _ _ _ _].
  split_world w. cbn in *. subst.
  destruct buffer_selector0; cbn; repeat split; discriminate.
Qed.

Lemma C8_swap_involution_witness :
  reachable dma_started /\
  current_buffer (_adc_swap_buffers (_adc_swap_buffers dma_started)) = PING /\
  current_buffer dma_started = PING.
Proof.
  assert (Hr : reachable dma_started).
  { exists power_on, ADC_MODE_DMA, true, 0, [OpStart 0]. reflexivity. }
  split; [exact Hr|]. split; [|vm_compute; reflexivity].
  rewrite (proj1 (C8_swap_involution dma_started Hr)).
  vm_compute; reflexivity.
Defined.

(** Before [adc_sampling_init] has run the write target is the null pointer
    and two swaps do not lead back to it. *)
Example swap_twice_before_init :
  current_buffer power_on = NULL /\
  current_buffer (_adc_swap_buffers (_adc_swap_buffers power_on)) = PING.
Proof. split; reflexivity. Qed.

(** *** Release *)

(** C10.  [adc_sampling_complete_processing] leaves the whole state alone
    when no buffer is ready.  When one is ready it clears [data_ready],
    [fft_ready] and [ready_buffer] and no other field of the analyzer: mode,
    status, both arrays, write target, selector, activity flag, sample and
    overrun counts, channel, error flag, timestamps and measured rate are
    unchanged, and so is the hardware. *)
Theorem C10_release_frame (w : world) :
  (data_ready w = false -> adc_sampling_complete_processing w = w)
  /\ (data_ready w = true ->
      let w' := adc_sampling_complete_processing w in
      data_ready w' = false /\ fft_ready w' = false /\ ready_buffer w' = NULL
      /\ mode w' = mode w /\ status w' = status w
      /\ current_buffer w' = current_buffer w
      /\ sample_count w' = sample_count w
      /\ buffer_overruns w' = buffer_overruns w
      /\ actual_sample_rate w' = actual_sample_rate w
      /\ buffer_ping w' = buffer_ping w /\ buffer_pong w' = buffer_pong w
      /\ buffer_selector w' = buffer_selector w
      /\ sampling_active w' = sampling_active w
      /\ dma_channel w' = dma_channel w /\ dma_error w' = dma_error w
      /\ manual_sample_index w' = manual_sample_index w
      /\ fft_cfg w' = fft_cfg w
      /\ sampling_start_time w' = sampling_start_time w
      /\ last_buffer_completion w' = last_buffer_completion w
      /\ adc_running w' = adc_running w /\ dma_busy w' = dma_busy w
      /\ dma_write_addr w' = dma_write_addr w
      /\ trace w' = trace w ++ [EvStoreDataReady false]).
Proof.
  unfold adc_sampling_complete_processing. split; intros H; rewrite H.
  - reflexivity.
  - cbn. repeat split.
Qed.

Lemma C10_release_frame_witness :
  (data_ready dma_started = false /\
   adc_sampling_complete_processing dma_started = dma_started)
  /\ (data_ready dma_one_frame = true /\
      ready_buffer (adc_sampling_complete_processing dma_one_frame) = NULL /\
      buffer_overruns (adc_sampling_complete_processing dma_one_frame)
      = buffer_overruns dma_one_frame).
Proof.
  assert (H0 : data_ready dma_started = false) by (vm_compute; reflexivity).
  assert (H1 : data_ready dma_one_frame = true) by (vm_compute; reflexivity).
  split.
  - split; [exact H0|].
    exact (proj1 (C10_release_frame dma_started) H0).
  - split; [exact H1|].
    pose proof (proj2 (C10_release_frame dma_one_frame) H1) as H.
    cbv zeta in H. split; [apply H | apply H].
Defined.


(** *** Overrun *)

(** C1.  In DMA mode, when the transfer armed on the write target completes
    while an unread buffer is still ready, the interrupt handler adds exactly
    one to the overrun counter (a [uint32_t]: one more, modulo 2^32), and
    [adc_sampling_get_buffer] then returns the buffer that has just been
    filled, holding the new frame, not the buffer it returned before.  The
    next transfer is armed on the new write target, and started, before the
    store that raises [data_ready]. *)
Theorem C1_overrun_takes_newest (adc : nat -> Z) (now : Z) (w : world) :
  reachable w ->
  mode w = ADC_MODE_DMA ->
  dma_busy w = true ->
  dma_write_addr w = current_buffer w ->
  data_ready w = true ->
  let w' := step (OpDmaComplete adc now) w in
  buffer_overruns w' = wrap32 (buffer_overruns w + 1)
  /\ (buffer_overruns w < 2 ^ 32 - 1 ->
      buffer_overruns w' = buffer_overruns w + 1)
  /\ adc_sampling_get_buffer w' = current_buffer w
  /\ adc_sampling_get_buffer w' <> adc_sampling_get_buffer w
  /\ adc_sampling_get_buffer w <> NULL
  /\ deref (adc_sampling_get_buffer w') w' = Some (frame_of adc)
  /\ current_buffer w' <> current_buffer w
  /\ dma_busy w' = true
  /\ dma_write_addr w' = current_buffer w'
  /\ trace w' =
     trace w ++ [EvIrqAck (dma_channel w);
                 EvDmaConfigure (dma_channel w) (current_buffer w')
                   (Z.of_nat ADC_SAMPLING_FFT_SIZE) true;
                 EvStoreDataReady true].
Proof.
  intros Hr Hm Hb Ha Hd.
  destruct (reachable_Inv w Hr) as [Hc Hrd Hf Hs Ho Hst He Hp Hq].
  specialize (Hf Hd).
  cbn [step]. rewrite Hb. unfold dma_fill. rewrite Ha.
  unfold adc_sampling_get_buffer. rewrite Hd.
  split_world w. cbn in *. subst.
  assert (Hw : buffer_overruns0 < 2 ^ 32 - 1 ->
               wrap32 (buffer_overruns0 + 1) = buffer_overruns0 + 1)
    by (intros; apply wrap32_small; lia).
  destruct buffer_selector0; cbn;
    (destruct Hrd as [Hn | Hn]; [congruence|]); subst; cbn;
    rewrite <- !app_assoc; cbn; repeat split; auto; discriminate.
Qed.

Lemma C1_overrun_takes_newest_witness :
  (reachable dma_one_frame /\ mode dma_one_frame = ADC_MODE_DMA /\
   dma_busy dma_one_frame = true /\
   dma_write_addr dma_one_frame = current_buffer dma_one_frame /\
   data_ready dma_one_frame = true)
  /\ buffer_overruns (step (OpDmaComplete ramp 16000) dma_one_frame)
     = wrap32 (buffer_overruns dma_one_frame + 1).
Proof.
  assert (Hr : reachable dma_one_frame).
  { exists power_on, ADC_MODE_DMA, true, 0,
      [OpStart 0; OpDmaComplete ramp 8000]. reflexivity. }
  assert (Hm : mode dma_one_frame = ADC_MODE_DMA) by (vm_compute; reflexivity).
  assert (Hb : dma_busy dma_one_frame = true) by (vm_compute; reflexivity).
  assert (Ha : dma_write_addr dma_one_frame = current_buffer dma_one_frame)
    by (vm_compute; reflexivity).
  assert (Hd : data_ready dma_one_frame = true) by (vm_compute; reflexivity).
  split; [auto|].
  exact (proj1 (C1_overrun_takes_newest ramp 16000 dma_one_frame
                  Hr Hm Hb Ha Hd)).
Defined.

(** The first frame of the run above is ready in the ping buffer; after the
    overrun the reader gets the pong buffer and the counter shows one. *)
Example overrun_run :
  adc_sampling_get_buffer dma_one_frame = PING /\
  adc_sampling_get_buffer (step (OpDmaComplete ramp 16000) dma_one_frame)
  = PONG /\
  buffer_overruns (step (OpDmaComplete ramp 16000) dma_one_frame) = 1.
Proof. vm_compute. repeat split. Qed.

(** *** Polling *)

(** C7.  [adc_sampling_is_ready] depends on the mode.  In DMA mode it
    returns the flag and changes nothing: no hardware access, no sleep.  In
    manual mode, when sampling is active and no data is pending, the call
    itself runs the sampling loop: [ADC_SAMPLING_FFT_SIZE] times it reads
    one conversion and sleeps the sampling interval, which fills the whole
    write target; it then counts the samples, swaps the buffers, raises the
    flag and returns true.  In manual mode with sampling inactive or data
    pending it only returns the flag. *)
Theorem C7_poll_by_mode (adc : nat -> Z) (t0 t1 t2 : Z) (w : world) :
  (mode w = ADC_MODE_DMA ->
   adc_sampling_is_ready adc t0 t1 t2 w = (data_ready w, w))
  /\ (mode w = ADC_MODE_MANUAL ->
      sampling_active w = false \/ data_ready w = true ->
      adc_sampling_is_ready adc t0 t1 t2 w = (data_ready w, w))
  /\ (reachable w ->
      mode w = ADC_MODE_MANUAL ->
      sampling_active w = true ->
      data_ready w = false ->
      let w' := snd (adc_sampling_is_ready adc t0 t1 t2 w) in
      fst (adc_sampling_is_ready adc t0 t1 t2 w) = true
      /\ adc_sampling_get_buffer w' = current_buffer w
      /\ deref (adc_sampling_get_buffer w') w' = Some (frame_of adc)
      /\ current_buffer w' <> current_buffer w
      /\ sample_count w'
         = wrap32 (sample_count w + Z.of_nat ADC_SAMPLING_FFT_SIZE)
      /\ trace w' =
         trace w
         ++ flat_map (fun j => [EvAdcRead (wrap16 (adc j)); EvSleepUs 7])
              (seq 0 ADC_SAMPLING_FFT_SIZE)
         ++ [EvStoreDataReady true]).
Proof.
  unfold adc_sampling_is_ready. split; [|split].
  - intros ->. reflexivity.
  - intros Hm [Ha | Hd]; rewrite Hm; cbn [mode_eqb andb].
    + now rewrite Ha.
    + destruct (sampling_active w); rewrite Hd; cbn [andb negb];
        now rewrite Hd.
  - intros Hr -> -> ->. cbn [mode_eqb andb negb snd fst].
    change (flat_map _ (seq 0 ADC_SAMPLING_FFT_SIZE))
      with (loop_trace adc ADC_SAMPLING_FFT_SIZE 0).
    destruct (reachable_Inv w Hr) as [Hc Hrd Hf Hs Ho Hst He Hp Hq].
    unfold _adc_manual_sample_buffer, adc_sampling_get_buffer.
    rewrite manual_sample_loop_spec.
    split_world w. cbn in *. subst.
    destruct buffer_selector0; case_ifs; cbn;
      rewrite ?fill_list_full by assumption;
      rewrite <- !app_assoc; repeat split; discriminate.
Qed.

Lemma C7_poll_by_mode_witness :
  (mode dma_started = ADC_MODE_DMA /\
   adc_sampling_is_ready ramp 0 8000 8001 dma_started
   = (data_ready dma_started, dma_started))
  /\ (reachable manual_started /\ mode manual_started = ADC_MODE_MANUAL /\
      sampling_active manual_started = true /\
      data_ready manual_started = false /\
      fst (adc_sampling_is_ready ramp 0 8000 8001 manual_started) = true)
  /\ (mode power_on = ADC_MODE_MANUAL /\ sampling_active power_on = false /\
      adc_sampling_is_ready ramp 0 8000 8001 power_on
      = (data_ready power_on, power_on)).
Proof.
  assert (Hr : reachable manual_started).
  { exists power_on, ADC_MODE_MANUAL, true, 0, [OpStart 0]. reflexivity. }
  assert (Hd : mode dma_started = ADC_MODE_DMA) by (vm_compute; reflexivity).
  assert (Hm : mode manual_started = ADC_MODE_MANUAL)
    by (vm_compute; reflexivity).
  assert (Ha : sampling_active manual_started = true)
    by (vm_compute; reflexivity).
  assert (Hn : data_ready manual_started = false)
    by (vm_compute; reflexivity).
  assert (Hp : mode power_on = ADC_MODE_MANUAL) by reflexivity.
  assert (Hi : sampling_active power_on = false) by reflexivity.
  split; [|split].
  - split; [exact Hd|].
    exact (proj1 (C7_poll_by_mode ramp 0 8000 8001 dma_started) Hd).
  - split; [exact Hr|]. split; [exact Hm|]. split; [exact Ha|].
    split; [exact Hn|].
    exact (proj1 (proj2 (proj2 (C7_poll_by_mode ramp 0 8000 8001
                                  manual_started))
                    Hr Hm Ha Hn)).
  - split; [exact Hp|]. split; [exact Hi|].
    exact (proj1 (proj2 (C7_poll_by_mode ramp 0 8000 8001 power_on))
             Hp (or_introl Hi)).
Defined.


(** *** Transfer faults *)

Lemma keeps_running_step o (w : world) :
  keeps_running o = true ->
  status w = ADC_STATUS_SAMPLING ->
  dma_busy w = false ->
  status (step o w) = ADC_STATUS_SAMPLING /\ dma_busy (step o w) = false.
Proof.
  intros Hk Hs Hb. destruct o; try discriminate Hk; cbn [step].
  - unfold adc_sampling_start. rewrite Hs. cbn. auto.
  - unfold adc_sampling_is_ready, _adc_manual_sample_buffer.
    rewrite manual_sample_loop_spec.
    split_world w. cbn in *. subst.
    destruct current_buffer0; case_ifs; cbn; auto.
  - auto.
  - unfold adc_sampling_process_fft.
    destruct (bufptr_eqb (adc_sampling_get_buffer w) NULL); cbn; auto.
  - unfold adc_sampling_complete_processing.
    destruct (data_ready w); cbn; auto.
  - cbn. auto.
  - cbn. auto.
  - rewrite Hb. auto.
  - cbn. auto.
Qed.

Lemma keeps_running_run ops : forall w : world,
  forallb keeps_running ops = true ->
  status w = ADC_STATUS_SAMPLING ->
  dma_busy w = false ->
  status (run ops w) = ADC_STATUS_SAMPLING /\ dma_busy (run ops w) = false.
Proof.
  induction ops as [|o ops IH]; intros w Hk Hs Hb; cbn in *; [auto|].
  apply andb_prop in Hk as [Ho Hk].
  destruct (keeps_running_step o w Ho Hs Hb) as [Hs' Hb'].
  now apply IH.
Qed.

(** C3, as the code has it.  There is no fault path in DMA mode: through
    every sequence of API calls, completion interrupts and transfer faults
    the status is [ADC_STATUS_IDLE] or [ADC_STATUS_SAMPLING], never
    [ADC_STATUS_ERROR], and [dma_error] stays clear.  A transfer that stops
    with a fault leaves the analyzer as it was, and while sampling the
    channel then stays stopped, with the status unchanged, through every
    sequence of operations that contains neither a stop nor a new
    initialisation: nothing restarts the transfer on its own. *)
Theorem C3_no_fault_path (w : world) :
  reachable w ->
  (status w = ADC_STATUS_IDLE \/ status w = ADC_STATUS_SAMPLING)
  /\ status w <> ADC_STATUS_ERROR
  /\ dma_error w = false
  /\ g_unified_analyzer (step OpDmaFault w) = g_unified_analyzer w
  /\ (status w = ADC_STATUS_SAMPLING ->
      forall ops, forallb keeps_running ops = true ->
      status (run ops (step OpDmaFault w)) = ADC_STATUS_SAMPLING
      /\ dma_busy (run ops (step OpDmaFault w)) = false).
Proof.
  intros Hr. destruct (reachable_Inv w Hr) as [_ _ _ _ _ Hst He _ _].
  split; [exact Hst|]. split; [destruct Hst as [-> | ->]; discriminate|].
  split; [exact He|]. split; [reflexivity|].
  intros Hs ops Hk. now apply keeps_running_run.
Qed.

Lemma C3_no_fault_path_witness :
  (reachable dma_started /\ status dma_started = ADC_STATUS_SAMPLING /\
   forallb keeps_running [OpStart 1; OpDmaComplete ramp 2; OpGetBuffer]
   = true)
  /\ dma_busy (run [OpStart 1; OpDmaComplete ramp 2; OpGetBuffer]
                 (step OpDmaFault dma_started)) = false.
Proof.
  assert (Hr : reachable dma_started).
  { exists power_on, ADC_MODE_DMA, true, 0, [OpStart 0]. reflexivity. }
  assert (Hs : status dma_started = ADC_STATUS_SAMPLING)
    by (vm_compute; reflexivity).
  assert (Hk : forallb keeps_running
                 [OpStart 1; OpDmaComplete ramp 2; OpGetBuffer] = true)
    by reflexivity.
  split; [auto|].
  destruct (C3_no_fault_path dma_started Hr) as (_ & _ & _ & _ & H).
  exact (proj2 (H Hs _ Hk)).
Defined.

(** C3 as claimed fails: in DMA mode, after a transfer fault the status is
    still [ADC_STATUS_SAMPLING], and a later call is not a no-op (the
    release of a ready buffer still clears it). *)
Lemma C3_counterexample :
  mode (step OpDmaFault dma_one_frame) = ADC_MODE_DMA
  /\ status (step OpDmaFault dma_one_frame) = ADC_STATUS_SAMPLING
  /\ status (step OpDmaFault dma_one_frame) <> ADC_STATUS_ERROR
  /\ ready_buffer (step OpDmaFault dma_one_frame) = PING
  /\ ready_buffer (step OpCompleteProcessing (step OpDmaFault dma_one_frame))
     = NULL.
Proof. vm_compute. repeat split; discriminate. Qed.

End AcquisitionFacts.

(** * Properties of the calibration math *)

Module CalibrationFacts.
Import Config Calibration.

Local Open Scope R_scope.

Lemma INR_FFT_SIZE : INR ADC_SAMPLING_FFT_SIZE = 1024.
Proof. unfold ADC_SAMPLING_FFT_SIZE. now rewrite INR_IZR_INZ. Qed.

Lemma INR_FFT_SIZE_half : INR (ADC_SAMPLING_FFT_SIZE / 2) = 512.
Proof.
  change (ADC_SAMPLING_FFT_SIZE / 2)%nat with 512%nat.
  now rewrite INR_IZR_INZ.
Qed.

Lemma ADC_VOLTAGE_PER_BIT_value : ADC_VOLTAGE_PER_BIT = 33 / 40960.
Proof.
  unfold ADC_VOLTAGE_PER_BIT, ADC_REFERENCE_VOLTAGE.
  change (Z.shiftl 1 ADC_RESOLUTION_BITS) with 4096%Z. field.
Qed.

(** *** Window constants *)

Lemma all_windows_complete (w : window_t) : In w all_windows.
Proof. destruct w; cbn; tauto. Qed.

(** C9.  There are seven window shapes, and for each of them the coherent
    gain times the amplitude correction is 1: exactly so for the decimal
    constants, and within one unit in the last place of 1.0 for the
    single-precision values the compiler computes from the literals. *)
Theorem C9_gain_times_correction :
  length all_windows = 7%nat
  /\ forall w : window_t,
       In w all_windows
       /\ coherent_gain w * amplitude_correction w = 1
       /\ Rabs (coherent_gain w * amplitude_correction w - 1) <= 1 / 10 ^ 6
       /\ Binary32.near_one
            (Binary32.fmul (Binary32.coherent_gain w)
                           (Binary32.amplitude_correction w)) = true.
Proof.
  split; [reflexivity|]. intros w.
  assert (H : coherent_gain w * amplitude_correction w = 1).
  { destruct w; cbv [coherent_gain amplitude_correction
      WINDOW_COHERENT_GAIN_RECTANGLE WINDOW_COHERENT_GAIN_HAMMING
      WINDOW_COHERENT_GAIN_HANN WINDOW_COHERENT_GAIN_BLACKMAN
      WINDOW_COHERENT_GAIN_BLACKMANHARRIS WINDOW_COHERENT_GAIN_KAISER_BESSEL
      WINDOW_COHERENT_GAIN_FLATTOP WINDOW_AMPLITUDE_CORRECTION_RECTANGLE
      WINDOW_AMPLITUDE_CORRECTION_HAMMING WINDOW_AMPLITUDE_CORRECTION_HANN
      WINDOW_AMPLITUDE_CORRECTION_BLACKMAN
      WINDOW_AMPLITUDE_CORRECTION_BLACKMANHARRIS
      WINDOW_AMPLITUDE_CORRECTION_KAISER_BESSEL
      WINDOW_AMPLITUDE_CORRECTION_FLATTOP]; field. }
  split; [apply all_windows_complete|]. split; [exact H|]. split.
  - rewrite H. replace (1 - 1) with 0 by ring. rewrite Rabs_R0.
    apply Rlt_le, Rdiv_lt_0_compat; [lra | apply pow_lt; lra].
  - destruct w; vm_compute; reflexivity.
Qed.

(** The single-precision product is 1.0 for six of the shapes and
    1 - 2^-24 for the Blackman window. *)
Example binary32_products :
  map (fun w => Binary32.fmul (Binary32.coherent_gain w)
                              (Binary32.amplitude_correction w))
      all_windows
  = [S754_finite false 8388608 (-23); S754_finite false 8388608 (-23);
     S754_finite false 8388608 (-23); S754_finite false 16777215 (-24);
     S754_finite false 8388608 (-23); S754_finite false 8388608 (-23);
     S754_finite false 8388608 (-23)].
Proof. vm_compute. reflexivity. Qed.


(** *** Magnitude normalisation *)

Lemma sqrtf_square x : 0 <= x -> sqrtf (x * x + 0 * 0) = x.
Proof.
  intros Hx. unfold sqrtf. replace (x * x + 0 * 0) with (Rsqr x)
    by (unfold Rsqr; ring).
  now apply sqrt_Rsqr.
Qed.

(** [adc_sampling_process_fft] divides the magnitude of every bin, whatever
    its index, by the transform size. *)
Lemma process_fft_magnitude_every_bin (c : kiss_fft_cpx) :
  process_fft_magnitude c = sqrt (r c * r c + i c * i c) / 1024.
Proof. unfold process_fft_magnitude, sqrtf. now rewrite INR_FFT_SIZE. Qed.

(** [fft_realtime_analysis] divides the magnitude (scaled by the window
    correction) by N at bin 0 and by N/2 at every other bin. *)
Lemma realtime_magnitude_by_bin (window_type : Z) (n : nat)
  (c : kiss_fft_cpx) :
  let m := sqrt (r c * r c + i c * i c)
           * realtime_window_correction window_type in
  (n = 0%nat -> realtime_magnitude window_type n c = m / 1024)
  /\ (n <> 0%nat -> realtime_magnitude window_type n c = m / 512).
Proof.
  unfold realtime_magnitude, sqrtf.
  change FFT_SIZE with ADC_SAMPLING_FFT_SIZE. split; intros Hn.
  - subst n. cbn [Nat.eqb]. now rewrite INR_FFT_SIZE.
  - apply Nat.eqb_neq in Hn. rewrite Hn.
    now rewrite INR_FFT_SIZE_half.
Qed.

(** C4 on [adc_sampling_process_fft].  A bin other than the DC bin, say
    bin 1, that holds 1024 + 0i comes out as 1024 / N = 1; divided by N/2,
    as claimed and as [fft_realtime_analysis] does, it would be 2. *)
Theorem C4_process_fft_divides_by_N :
  process_fft_magnitude (cpx 1024 0) = 1
  /\ sqrtf (1024 * 1024 + 0 * 0) / INR (ADC_SAMPLING_FFT_SIZE / 2) = 2
  /\ nth 1 (map process_fft_magnitude [cpx 0 0; cpx 1024 0]) 0 = 1
  /\ realtime_magnitude 0 1 (cpx 1024 0)
     = 2 * WINDOW_AMPLITUDE_CORRECTION_HAMMING.
Proof.
  assert (H1 : process_fft_magnitude (cpx 1024 0) = 1).
  { unfold process_fft_magnitude. cbn [r i].
    rewrite sqrtf_square, INR_FFT_SIZE by lra. field. }
  repeat split.
  - exact H1.
  - rewrite sqrtf_square, INR_FFT_SIZE_half by lra. field.
  - exact H1.
  - unfold realtime_magnitude. cbn [r i Nat.eqb].
    change (FFT_SIZE / 2)%nat with (ADC_SAMPLING_FFT_SIZE / 2)%nat.
    rewrite sqrtf_square by lra. rewrite INR_FFT_SIZE_half.
    cbv [realtime_window_correction WINDOW_AMPLITUDE_CORRECTION_HAMMING].
    field.
Qed.

(** *** Power level *)

Lemma ln10_pos : 0 < ln 10.
Proof. rewrite <- ln_1. apply ln_increasing; lra. Qed.

Lemma log10f_increasing x y : 0 < x -> x < y -> log10f x < log10f y.
Proof.
  intros Hx Hxy. unfold log10f.
  apply Rmult_lt_compat_r; [apply Rinv_0_lt_compat, ln10_pos|].
  now apply ln_increasing.
Qed.

Lemma log10f_inv_pow (n : nat) : log10f (1 / 10 ^ n) = - INR n.
Proof.
  unfold log10f. unfold Rdiv at 2. rewrite Rmult_1_l.
  rewrite ln_Rinv by (apply pow_lt; lra).
  rewrite ln_pow by lra. field. apply Rgt_not_eq, ln10_pos.
Qed.

Lemma log10f_1 : log10f 1 = 0.
Proof. unfold log10f. rewrite ln_1. field. apply Rgt_not_eq, ln10_pos. Qed.

(** Above a floor [1 / 10 ^ n] the quotient by the reference voltage is
    positive and its level is above [-20 n] dB. *)
Lemma level_above_floor (n : nat) (v : R) :
  1 / 10 ^ n < v ->
  0 < v / DB_REFERENCE_VOLTAGE_0DBM
  /\ - 20 * INR n < 20 * log10f (v / DB_REFERENCE_VOLTAGE_0DBM).
Proof.
  intros Hv.
  assert (Hp : 0 < 1 / 10 ^ n)
    by (apply Rdiv_lt_0_compat; [lra | apply pow_lt; lra]).
  assert (Hq : v < v / DB_REFERENCE_VOLTAGE_0DBM).
  { unfold DB_REFERENCE_VOLTAGE_0DBM.
    replace (v / (274 / 1000)) with (v * (1000 / 274)) by field. lra. }
  split; [lra|].
  assert (Hl : log10f (1 / 10 ^ n) < log10f (v / DB_REFERENCE_VOLTAGE_0DBM))
    by (apply log10f_increasing; lra).
  rewrite log10f_inv_pow in Hl. lra.
Qed.

(** The literal 0.274 is the square root of 1 mW times the reference
    impedance, rounded to three decimals. *)
Lemma reference_voltage_from_impedance :
  Rabs (DB_REFERENCE_VOLTAGE_0DBM - sqrt (1 / 1000 * DB_REFERENCE_IMPEDANCE))
  < 15 / 100000.
Proof.
  unfold DB_REFERENCE_VOLTAGE_0DBM, DB_REFERENCE_IMPEDANCE.
  assert (Hlo : 27385 / 100000 < sqrt (1 / 1000 * 75)).
  { rewrite <- (sqrt_Rsqr (27385 / 100000)) by lra.
    apply sqrt_lt_1; unfold Rsqr; lra. }
  assert (Hhi : sqrt (1 / 1000 * 75) < 274 / 1000).
  { rewrite <- (sqrt_Rsqr (274 / 1000)) by lra.
    apply sqrt_lt_1; unfold Rsqr; lra. }
  apply Rabs_def1; lra.
Qed.


(** [log10f] is the logarithm to base 10: raising 10 to it gives the
    argument back, and a factor of 10 adds 1. *)
Lemma log10f_Rpower (x : R) : 0 < x -> Rpower 10 (log10f x) = x.
Proof.
  intros Hx. unfold Rpower, log10f.
  replace (ln x / ln 10 * ln 10) with (ln x)
    by (field; apply Rgt_not_eq, ln10_pos).
  now apply exp_ln.
Qed.

Lemma log10f_decade (x : R) : 0 < x -> log10f (10 * x) = log10f x + 1.
Proof.
  intros Hx. unfold log10f. rewrite ln_mult by lra.
  field. apply Rgt_not_eq, ln10_pos.
Qed.

Lemma ln10_gt_2 : 2 < ln 10.
Proof.
  rewrite <- (ln_exp 2). apply ln_increasing; [apply exp_pos|].
  replace 2 with (1 + 1) by ring. rewrite exp_plus.
  pose proof exp_le_3. pose proof (exp_pos 1). nra.
Qed.

Lemma ln_lower (x : R) : 0 < x -> 1 - 1 / x <= ln x.
Proof.
  intros Hx. pose proof (exp_ineq1_le (1 / x - 1)) as H.
  replace (1 + (1 / x - 1)) with (/ x) in H by (field; lra).
  assert (Hl : ln (/ x) <= 1 / x - 1).
  { rewrite <- (ln_exp (1 / x - 1)). destruct H as [H | H].
    - left. apply ln_increasing; [now apply Rinv_0_lt_compat | exact H].
    - right. now rewrite H. }
  rewrite ln_Rinv in Hl by exact Hx. lra.
Qed.

(** The formula of both conversion sites above a floor [1 / 10 ^ n]. *)
Lemma level_facts (n : nat) (v : R) :
  1 / 10 ^ n < v ->
  DB_REFERENCE_VOLTAGE_0DBM
  * Rpower 10 (20 * log10f (v / DB_REFERENCE_VOLTAGE_0DBM) / 20) = v
  /\ 20 * log10f (10 * v / DB_REFERENCE_VOLTAGE_0DBM)
     = 20 * log10f (v / DB_REFERENCE_VOLTAGE_0DBM) + 20
  /\ (forall v' : R,
        v <= v' ->
        20 * log10f (v / DB_REFERENCE_VOLTAGE_0DBM)
        <= 20 * log10f (v' / DB_REFERENCE_VOLTAGE_0DBM)).
Proof.
  intros Hv. destruct (level_above_floor n v Hv) as [Hp _].
  assert (Hv0 : 0 < v).
  { assert (0 < 1 / 10 ^ n)
      by (apply Rdiv_lt_0_compat; [lra | apply pow_lt; lra]). lra. }
  split; [|split].
  - replace (20 * log10f (v / DB_REFERENCE_VOLTAGE_0DBM) / 20)
      with (log10f (v / DB_REFERENCE_VOLTAGE_0DBM)) by field.
    rewrite log10f_Rpower by exact Hp.
    unfold DB_REFERENCE_VOLTAGE_0DBM. field.
  - replace (10 * v / DB_REFERENCE_VOLTAGE_0DBM)
      with (10 * (v / DB_REFERENCE_VOLTAGE_0DBM))
      by (unfold DB_REFERENCE_VOLTAGE_0DBM; field).
    rewrite log10f_decade by exact Hp. ring.
  - intros v' [Hlt | <-]; [|lra].
    assert (Hq : v / DB_REFERENCE_VOLTAGE_0DBM
                 < v' / DB_REFERENCE_VOLTAGE_0DBM).
    { unfold DB_REFERENCE_VOLTAGE_0DBM.
      apply Rmult_lt_compat_r; [|exact Hlt].
      apply Rinv_0_lt_compat. lra. }
    pose proof (log10f_increasing _ _ Hp Hq). lra.
Qed.

(** The voltage that 1 mW produces over the reference impedance reads
    slightly below 0 dBm, by less than 0.01 dB. *)
Lemma level_of_impedance_voltage :
  1 / 10 ^ 9 < sqrt (1 / 1000 * DB_REFERENCE_IMPEDANCE)
  /\ - 1 / 100
     < 20 * log10f (sqrt (1 / 1000 * DB_REFERENCE_IMPEDANCE)
                    / DB_REFERENCE_VOLTAGE_0DBM)
     < 0.
Proof.
  unfold DB_REFERENCE_VOLTAGE_0DBM, DB_REFERENCE_IMPEDANCE.
  assert (Hlo : 27385 / 100000 < sqrt (1 / 1000 * 75)).
  { rewrite <- (sqrt_Rsqr (27385 / 100000)) by lra.
    apply sqrt_lt_1; unfold Rsqr; lra. }
  assert (Hhi : sqrt (1 / 1000 * 75) < 274 / 1000).
  { rewrite <- (sqrt_Rsqr (274 / 1000)) by lra.
    apply sqrt_lt_1; unfold Rsqr; lra. }
  set (s := sqrt (1 / 1000 * 75)) in *.
  assert (Hq : 27385 / 27400 < s / (274 / 1000) < 1).
  { replace (s / (274 / 1000)) with (s * (1000 / 274)) by field. lra. }
  split; [lra|].
  set (q := s / (274 / 1000)) in *.
  assert (Hln : - (15 / 27385) <= ln q).
  { pose proof (ln_lower q ltac:(lra)) as Hl.
    assert (1 / q <= 27400 / 27385).
    { unfold Rdiv. rewrite Rmult_1_l.
      replace (27400 * / 27385) with (/ (27385 / 27400)) by field.
      apply Rinv_le_contravar; lra. }
    lra. }
  assert (Hneg : ln q < 0)
    by (rewrite <- ln_1; apply ln_increasing; lra).
  pose proof ln10_gt_2 as H10.
  unfold log10f. split.
  - assert (- (1 / 2000) * ln 10 < ln q) by nra.
    assert (- (1 / 2000) < ln q / ln 10).
    { apply Rmult_lt_reg_r with (ln 10); [lra|].
      unfold Rdiv. rewrite Rmult_assoc, Rinv_l by lra. lra. }
    lra.
  - assert (ln q / ln 10 < 0).
    { apply Rmult_lt_reg_r with (ln 10); [lra|].
      unfold Rdiv. rewrite Rmult_assoc, Rinv_l by lra. lra. }
    lra.
Qed.

(** C5, as the code has it.  The power level of a voltage [v] above the
    floor of the conversion site is [20 log10 (v / V0)], the base-10
    logarithm proper: 10 raised to a twentieth of the level, times [V0],
    is [v] again, ten times the voltage reads 20 dB more, and the level
    grows with the voltage.  [V0] is the literal 0.274 V of the
    configuration, not a value computed from the configured impedance: it
    is the square root of 1 mW times 75 ohm to three decimals, reads 0 dBm
    itself, and the exact square root reads less than 0.01 dB below.  An
    input that is not above the floor gets the site's sentinel and the
    logarithm is not evaluated: floor 1e-9 V and sentinel -120 in
    [fft_realtime_analysis], floor 1e-10 V and sentinel -200 in
    [adc_sampling_process_fft].  Above the floor the level is more than
    -180, respectively -200. *)
Theorem C5_power_level (v : R) :
  (1 / 10 ^ 9 < v ->
   realtime_db v = 20 * log10f (v / DB_REFERENCE_VOLTAGE_0DBM)
   /\ DB_REFERENCE_VOLTAGE_0DBM * Rpower 10 (realtime_db v / 20) = v
   /\ realtime_db (10 * v) = realtime_db v + 20
   /\ -180 < realtime_db v
   /\ (forall v' : R, v <= v' -> realtime_db v <= realtime_db v'))
  /\ (v <= 1 / 10 ^ 9 -> realtime_db v = -120)
  /\ (1 / 10 ^ 10 < v ->
      process_fft_db v = 20 * log10f (v / DB_REFERENCE_VOLTAGE_0DBM)
      /\ DB_REFERENCE_VOLTAGE_0DBM * Rpower 10 (process_fft_db v / 20) = v
      /\ process_fft_db (10 * v) = process_fft_db v + 20
      /\ -200 < process_fft_db v
      /\ (forall v' : R, v <= v' -> process_fft_db v <= process_fft_db v'))
  /\ (v <= 1 / 10 ^ 10 -> process_fft_db v = -200)
  /\ realtime_db DB_REFERENCE_VOLTAGE_0DBM = 0
  /\ process_fft_db DB_REFERENCE_VOLTAGE_0DBM = 0
  /\ Rabs (DB_REFERENCE_VOLTAGE_0DBM
           - sqrt (1 / 1000 * DB_REFERENCE_IMPEDANCE)) < 15 / 100000
  /\ - 1 / 100 < realtime_db (sqrt (1 / 1000 * DB_REFERENCE_IMPEDANCE)) < 0
  /\ process_fft_db (sqrt (1 / 1000 * DB_REFERENCE_IMPEDANCE))
     = realtime_db (sqrt (1 / 1000 * DB_REFERENCE_IMPEDANCE)).
Proof.
  assert (Hone : DB_REFERENCE_VOLTAGE_0DBM / DB_REFERENCE_VOLTAGE_0DBM = 1)
    by (unfold DB_REFERENCE_VOLTAGE_0DBM; field).
  assert (Hf9 : 0 < 1 / 10 ^ 9) by lra.
  assert (Hf10 : 0 < 1 / 10 ^ 10) by lra.
  assert (Hrt : forall x, 1 / 10 ^ 9 < x ->
            realtime_db x = 20 * log10f (x / DB_REFERENCE_VOLTAGE_0DBM)).
  { intros x Hx. unfold realtime_db.
    destruct (Rgt_dec x (1 / 10 ^ 9)); [reflexivity | lra]. }
  assert (Hpf : forall x, 1 / 10 ^ 10 < x ->
            process_fft_db x = 20 * log10f (x / DB_REFERENCE_VOLTAGE_0DBM)).
  { intros x Hx. unfold process_fft_db.
    destruct (Rgt_dec x (1 / 10 ^ 10)); [reflexivity | lra]. }
  destruct level_of_impedance_voltage as [Hs9 Hsl].
  split; [|split; [|split; [|split; [|split; [|split; [|split; [|split]]]]]]].
  - intros Hv. destruct (level_above_floor 9 v Hv) as [_ Hl].
    destruct (level_facts 9 v Hv) as (Hinv & Hdec & Hmono).
    change (INR 9) with (1+1+1+1+1+1+1+1+1) in Hl.
    rewrite (Hrt v Hv), (Hrt (10 * v)) by lra.
    split; [reflexivity|]. split; [exact Hinv|]. split; [exact Hdec|].
    split; [lra|]. intros v' Hv'. rewrite (Hrt v') by lra. now apply Hmono.
  - intros Hv. unfold realtime_db.
    destruct (Rgt_dec v (1 / 10 ^ 9)); [lra | reflexivity].
  - intros Hv. destruct (level_above_floor 10 v Hv) as [_ Hl].
    destruct (level_facts 10 v Hv) as (Hinv & Hdec & Hmono).
    change (INR 10) with (1+1+1+1+1+1+1+1+1+1) in Hl.
    rewrite (Hpf v Hv), (Hpf (10 * v)) by lra.
    split; [reflexivity|]. split; [exact Hinv|]. split; [exact Hdec|].
    split; [lra|]. intros v' Hv'. rewrite (Hpf v') by lra. now apply Hmono.
  - intros Hv. unfold process_fft_db.
    destruct (Rgt_dec v (1 / 10 ^ 10)); [lra | reflexivity].
  - rewrite Hrt by (unfold DB_REFERENCE_VOLTAGE_0DBM; lra).
    rewrite Hone, log10f_1. ring.
  - rewrite Hpf by (unfold DB_REFERENCE_VOLTAGE_0DBM; lra).
    rewrite Hone, log10f_1. ring.
  - exact reference_voltage_from_impedance.
  - rewrite Hrt by exact Hs9. exact Hsl.
  - rewrite Hrt, Hpf by lra. reflexivity.
Qed.

Lemma C5_power_level_witness :
  (1 / 10 ^ 9 < 1 /\ 1 / 10 ^ 10 < 1
   /\ 0 <= 1 / 10 ^ 9 /\ 0 <= 1 / 10 ^ 10 /\ 1 <= 2)
  /\ realtime_db (10 * 1) = realtime_db 1 + 20
  /\ realtime_db 1 <= realtime_db 2
  /\ process_fft_db (10 * 1) = process_fft_db 1 + 20
  /\ realtime_db 0 = -120
  /\ process_fft_db 0 = -200.
Proof.
  assert (H1 : 1 / 10 ^ 9 < 1) by lra.
  assert (H2 : 1 / 10 ^ 10 < 1) by lra.
  assert (H3 : 0 <= 1 / 10 ^ 9) by lra.
  assert (H4 : 0 <= 1 / 10 ^ 10) by lra.
  assert (H5 : 1 <= 2) by lra.
  split; [auto 6|].
  destruct (C5_power_level 1) as (Ha & _ & Hb & _).
  destruct (C5_power_level 0) as (_ & Hc & _ & Hd & _).
  destruct (Ha H1) as (_ & _ & Ha1 & _ & Ha2).
  destruct (Hb H2) as (_ & _ & Hb1 & _).
  split; [exact Ha1|]. split; [exact (Ha2 2 H5)|]. split; [exact Hb1|].
  split; [exact (Hc H3) | exact (Hd H4)].
Defined.

(** C5 as claimed fails in three places.  The floor is not about 1e-9 V at
    both sites: in [adc_sampling_process_fft] an input of 5e-10 V is below
    1e-9 V and is converted by the logarithm, to a level above the sentinel,
    while [fft_realtime_analysis] maps the same input to its sentinel; the
    two sentinels differ; and the reference is not the square root of 1 mW
    times the reference impedance, whose level is not 0 dBm. *)
Lemma C5_counterexample :
  5 / 10 ^ 10 < 1 / 10 ^ 9
  /\ process_fft_db (5 / 10 ^ 10)
     = 20 * log10f (5 / 10 ^ 10 / DB_REFERENCE_VOLTAGE_0DBM)
  /\ -200 < process_fft_db (5 / 10 ^ 10)
  /\ realtime_db (5 / 10 ^ 10) = -120
  /\ realtime_db 0 <> process_fft_db 0
  /\ realtime_db (sqrt (1 / 1000 * DB_REFERENCE_IMPEDANCE)) <> 0.
Proof.
  assert (Hv : 1 / 10 ^ 10 < 5 / 10 ^ 10) by lra.
  destruct (level_above_floor 10 _ Hv) as [_ Hl].
  change (INR 10) with (1+1+1+1+1+1+1+1+1+1) in Hl.
  assert (Hpf : process_fft_db (5 / 10 ^ 10)
                = 20 * log10f (5 / 10 ^ 10 / DB_REFERENCE_VOLTAGE_0DBM)).
  { unfold process_fft_db.
    destruct (Rgt_dec (5 / 10 ^ 10) (1 / 10 ^ 10)); [reflexivity | lra]. }
  split; [lra|]. split; [exact Hpf|]. split; [rewrite Hpf; lra|].
  split; [|split].
  - unfold realtime_db.
    destruct (Rgt_dec (5 / 10 ^ 10) (1 / 10 ^ 9)); [lra | reflexivity].
  - unfold realtime_db, process_fft_db.
    destruct (Rgt_dec 0 (1 / 10 ^ 9)); [lra|].
    destruct (Rgt_dec 0 (1 / 10 ^ 10)); [lra|]. lra.
  - destruct level_of_impedance_voltage as [Hs Hsl].
    unfold realtime_db.
    destruct (Rgt_dec (sqrt (1 / 1000 * DB_REFERENCE_IMPEDANCE))
                (1 / 10 ^ 9)); lra.
Qed.

(** *** Display range *)

Lemma display_clamp_spec (v : R) :
  in_display_range (display_clamp v)
  /\ (v < -100 -> display_clamp v = -100)
  /\ (20 < v -> display_clamp v = 20)
  /\ (-100 <= v <= 20 -> display_clamp v = v).
Proof.
  unfold in_display_range, display_clamp, AMPLITUDE_RANGE_MIN_DB,
    AMPLITUDE_RANGE_MAX_DB.
  destruct (Rlt_dec v (-100));
    [destruct (Rgt_dec (-100) 20) | destruct (Rgt_dec v 20)];
    repeat split; intros; lra.
Qed.

Lemma realtime_limit_spec (v : R) :
  in_display_range (realtime_limit v)
  /\ (v < -100 -> realtime_limit v = -100)
  /\ (20 < v -> realtime_limit v = 20)
  /\ (-100 <= v <= 20 -> realtime_limit v = v).
Proof.
  unfold in_display_range, realtime_limit, AMPLITUDE_RANGE_MIN_DB,
    AMPLITUDE_RANGE_MAX_DB.
  destruct (Rgt_dec v 20);
    [destruct (Rlt_dec 20 (-100)) | destruct (Rlt_dec v (-100))];
    repeat split; intros; lra.
Qed.

(** A bin without energy leaves [adc_sampling_process_fft] with the
    sentinel, which lies below the display range; with the rectangular
    window [fft_realtime_unified_update_display] passes it on as it is and
    the display clamps it to the floor of the range. *)
Example empty_bin_unified :
  process_fft_bin (cpx 0 0) = -200
  /\ nth 0 (corrected_spectrum FFT_WINDOW_TYPE [process_fft_bin (cpx 0 0)]) 0
     = -200
  /\ display_clamp (-200) = -100.
Proof.
  assert (H : process_fft_bin (cpx 0 0) = -200).
  { unfold process_fft_bin, process_fft_magnitude. cbn [r i].
    rewrite sqrtf_square, INR_FFT_SIZE, ADC_VOLTAGE_PER_BIT_value by lra.
    unfold process_fft_db.
    destruct (Rgt_dec _ _) as [Hgt | _]; [exfalso; lra | reflexivity]. }
  split; [exact H|]. split.
  - cbn. rewrite H.
    change WINDOW_AMPLITUDE_CORRECTION_RECTANGLE with (1 / 1).
    replace (1 / 1) with 1 by field. rewrite log10f_1. ring.
  - apply display_clamp_spec. lra.
Qed.

(** C6, as the code has it.  Every magnitude the display uses lies in the
    configured range from [AMPLITUDE_RANGE_MIN_DB] to
    [AMPLITUDE_RANGE_MAX_DB]: a value below the range becomes its lower
    bound, a value above it its upper bound, a value inside is kept.
    [fft_realtime_analysis] applies the limits to the array before it calls
    the display, whose own clamp then changes nothing; the unified pipeline
    hands its array over as computed and each value goes through the clamp
    at the entry of [fft_streaming_display_update_spectrum].  The clamped
    value is a real number of that bounded range. *)
Theorem C6_display_range :
  (forall v : R,
     in_display_range (display_clamp v)
     /\ (v < IZR AMPLITUDE_RANGE_MIN_DB ->
         display_clamp v = IZR AMPLITUDE_RANGE_MIN_DB)
     /\ (IZR AMPLITUDE_RANGE_MAX_DB < v ->
         display_clamp v = IZR AMPLITUDE_RANGE_MAX_DB)
     /\ (in_display_range v -> display_clamp v = v))
  /\ (forall v : R,
        in_display_range (realtime_limit v)
        /\ (v < IZR AMPLITUDE_RANGE_MIN_DB ->
            realtime_limit v = IZR AMPLITUDE_RANGE_MIN_DB)
        /\ (IZR AMPLITUDE_RANGE_MAX_DB < v ->
            realtime_limit v = IZR AMPLITUDE_RANGE_MAX_DB)
        /\ (in_display_range v -> realtime_limit v = v))
  /\ (forall (window_type : Z) (fft_output : list kiss_fft_cpx) (bin : nat)
        (x : R),
        realtime_spectrum window_type fft_output !! bin = Some x ->
        in_display_range x /\ display_clamp x = x)
  /\ (forall (window_type : Z) (fft_output : list kiss_fft_cpx) (bin : nat)
        (x : R),
        corrected_spectrum window_type (process_fft_spectrum fft_output)
          !! bin = Some x ->
        in_display_range (display_clamp x)).
Proof.
  split; [|split; [|split]].
  - intros v. exact (display_clamp_spec v).
  - intros v. exact (realtime_limit_spec v).
  - intros wt out bin x. unfold realtime_spectrum.
    rewrite list_lookup_imap. intros Hx.
    destruct (take (FFT_SIZE / 2) out !! bin) as [c|]; [|discriminate].
    cbn in Hx. injection Hx as <-.
    destruct (realtime_limit_spec (realtime_bin wt bin c)) as [Hr _].
    split; [exact Hr|]. now apply display_clamp_spec.
  - intros wt out bin x _. apply display_clamp_spec.
Qed.

Lemma C6_display_range_witness :
  (-200 < IZR AMPLITUDE_RANGE_MIN_DB /\
   display_clamp (-200) = IZR AMPLITUDE_RANGE_MIN_DB)
  /\ (IZR AMPLITUDE_RANGE_MAX_DB < 35 /\
      realtime_limit 35 = IZR AMPLITUDE_RANGE_MAX_DB)
  /\ (in_display_range (-42) /\ display_clamp (-42) = -42).
Proof.
  destruct C6_display_range as (Hd & Hl & _ & _).
  assert (H1 : -200 < IZR AMPLITUDE_RANGE_MIN_DB)
    by (unfold AMPLITUDE_RANGE_MIN_DB; lra).
  assert (H2 : IZR AMPLITUDE_RANGE_MAX_DB < 35)
    by (unfold AMPLITUDE_RANGE_MAX_DB; lra).
  assert (H3 : in_display_range (-42))
    by (unfold in_display_range, AMPLITUDE_RANGE_MIN_DB,
          AMPLITUDE_RANGE_MAX_DB; lra).
  split; [|split].
  - split; [exact H1|]. exact (proj1 (proj2 (Hd (-200))) H1).
  - split; [exact H2|]. exact (proj1 (proj2 (proj2 (Hl 35))) H2).
  - split; [exact H3|]. exact (proj2 (proj2 (proj2 (Hd (-42)))) H3).
Defined.


(** C6 as claimed fails on the unified pipeline: for a transform output
    without energy (a constant sample buffer), with the configured
    rectangular window, the array that
    [fft_realtime_unified_update_display] passes to the display holds the
    sentinel -200 at bin 8, the 1 kHz bin, below the display range. *)
Lemma C6_counterexample :
  corrected_spectrum FFT_WINDOW_TYPE
    (process_fft_spectrum (repeat (cpx 0 0) ADC_SAMPLING_FFT_SIZE)) !! 8%nat
  = Some (-200)
  /\ ~ in_display_range (-200).
Proof.
  split.
  - assert (Hfull : forall (A : Type) (x : A),
               take 512 (repeat x 1024) = repeat x 512) by reflexivity.
    assert (Hhalf : forall (A : Type) (x : A),
               take 512 (repeat x 512) = repeat x 512) by reflexivity.
    unfold corrected_spectrum, process_fft_spectrum.
    change (ADC_SAMPLING_FFT_SIZE / 2)%nat with 512%nat.
    change ADC_SAMPLING_FFT_SIZE with 1024%nat.
    rewrite Hfull, map_repeat, Hhalf, map_repeat.
    destruct empty_bin_unified as (-> & _ & _).
    change (fft_realtime_unified_get_window_correction FFT_WINDOW_TYPE)
      with (1 / 1).
    replace (1 / 1) with 1 by field. rewrite log10f_1.
    replace (-200 + 20 * 0) with (-200) by ring.
    reflexivity.
  - unfold in_display_range, AMPLITUDE_RANGE_MIN_DB. lra.
Qed.

End CalibrationFacts.

(** * Further properties of the acquisition core *)

Module AcquisitionMore.
Import Config Acquisition AcquisitionFacts Coordinator.

#[local] Arguments wrap32 : simpl never.
#[local] Arguments Z.pow : simpl never.
#[local] Arguments fill_list : simpl never.
#[local] Arguments frame_of : simpl never.
#[local] Arguments loop_trace : simpl never.
#[local] Arguments Z.of_nat : simpl never.

(** *** Initialisation, start and stop *)

(** [adc_sampling_init] succeeds exactly when the transform configuration
    could be allocated and, in DMA mode, a channel was claimed.  Whatever
    the result and whatever was there before, it leaves the requested mode,
    an idle status, zeroed buffers and counters, no ready buffer and the
    ping buffer as write target. *)
Theorem init_result (m : adc_sampling_mode_t) (ok : bool) (claimed : Z)
  (w0 : world) :
  let w := snd (adc_sampling_init m ok claimed w0) in
  fst (adc_sampling_init m ok claimed w0)
  = ok && (mode_eqb m ADC_MODE_MANUAL || (0 <=? claimed))
  /\ mode w = m /\ status w = ADC_STATUS_IDLE
  /\ current_buffer w = PING /\ ready_buffer w = NULL
  /\ adc_sampling_get_buffer w = NULL
  /\ data_ready w = false /\ sampling_active w = false
  /\ sample_count w = 0 /\ buffer_overruns w = 0
  /\ buffer_ping w = repeat 0 ADC_SAMPLING_FFT_SIZE
  /\ buffer_pong w = repeat 0 ADC_SAMPLING_FFT_SIZE.
Proof.
  unfold adc_sampling_init, _adc_dma_init, _adc_manual_init,
    adc_sampling_get_buffer.
  split_world w0. cbn.
  destruct ok; cbn; [|repeat split; now destruct m].
  destruct m; cbn; [repeat split|].
  replace (0 <=? claimed) with (negb (claimed <? 0))
    by (destruct (Z.ltb_spec claimed 0), (Z.leb_spec 0 claimed);
        reflexivity || lia).
  destruct (claimed <? 0); cbn; repeat split.
Qed.

(** [adc_sampling_start] always reports success and leaves the status at
    sampling; a second start changes nothing, so the counters are not reset
    again. *)
Theorem start_twice (t1 t2 : Z) (w : world) :
  let w1 := snd (adc_sampling_start t1 w) in
  fst (adc_sampling_start t1 w) = true
  /\ status w1 = ADC_STATUS_SAMPLING
  /\ adc_sampling_start t2 w1 = (true, w1).
Proof.
  unfold adc_sampling_start.
  destruct (status_eqb (status w) ADC_STATUS_SAMPLING) eqn:Hs; cbn [fst snd].
  - rewrite Hs. destruct (status w); try discriminate Hs. auto.
  - split_world w. cbn in *. destruct mode0; cbn; auto.
Qed.

(** Starting from a status other than sampling, in DMA mode: the counters
    are reset, the start time is taken, one transfer of
    [ADC_SAMPLING_FFT_SIZE] samples is configured on the write target and
    started, and then the ADC is switched on; the buffers and the ready flag
    are not touched. *)
Theorem start_arms_dma (now : Z) (w : world) :
  status w <> ADC_STATUS_SAMPLING ->
  mode w = ADC_MODE_DMA ->
  let w1 := snd (adc_sampling_start now w) in
  sample_count w1 = 0 /\ buffer_overruns w1 = 0
  /\ sampling_start_time w1 = now /\ sampling_active w1 = true
  /\ dma_busy w1 = true /\ dma_write_addr w1 = current_buffer w
  /\ adc_running w1 = true
  /\ current_buffer w1 = current_buffer w
  /\ ready_buffer w1 = ready_buffer w /\ data_ready w1 = data_ready w
  /\ trace w1 =
     trace w ++ [EvDmaConfigure (dma_channel w) (current_buffer w)
                   (Z.of_nat ADC_SAMPLING_FFT_SIZE) false;
                 EvDmaStart (dma_channel w);
                 EvAdcRun true].
Proof.
  intros Hs Hm. unfold adc_sampling_start.
  split_world w. cbn in *. subst.
  destruct status0; try congruence; cbn; rewrite <- !app_assoc;
    repeat split.
Qed.

Lemma start_arms_dma_witness :
  (status (snd (adc_sampling_init ADC_MODE_DMA true 0 power_on))
   <> ADC_STATUS_SAMPLING
   /\ mode (snd (adc_sampling_init ADC_MODE_DMA true 0 power_on))
      = ADC_MODE_DMA)
  /\ dma_busy (snd (adc_sampling_start 5
                      (snd (adc_sampling_init ADC_MODE_DMA true 0
                              power_on)))) = true.
Proof.
  assert (Hs : status (snd (adc_sampling_init ADC_MODE_DMA true 0 power_on))
               <> ADC_STATUS_SAMPLING) by (vm_compute; discriminate).
  assert (Hm : mode (snd (adc_sampling_init ADC_MODE_DMA true 0 power_on))
               = ADC_MODE_DMA) by (vm_compute; reflexivity).
  split; [auto|].
  destruct (start_arms_dma 5 _ Hs Hm) as (_ & _ & _ & _ & H & _).
  exact H.
Defined.

(** Stopping from a status other than idle: the status becomes idle, the
    ready flag is cleared, so that a frame that was pending can no longer be
    taken or processed, and in DMA mode the ADC is switched off before the
    channel is aborted.  The write target, the selector and the counters
    stay, and a second stop changes nothing. *)
Theorem stop_drops_pending (now t2 : Z) (w : world) :
  status w <> ADC_STATUS_IDLE ->
  let w1 := snd (adc_sampling_stop now w) in
  status w1 = ADC_STATUS_IDLE
  /\ data_ready w1 = false /\ sampling_active w1 = false
  /\ adc_sampling_get_buffer w1 = NULL
  /\ adc_sampling_process_fft w1 = (false, w1)
  /\ adc_sampling_stop t2 w1 = (true, w1)
  /\ current_buffer w1 = current_buffer w
  /\ buffer_selector w1 = buffer_selector w
  /\ sample_count w1 = sample_count w
  /\ buffer_overruns w1 = buffer_overruns w
  /\ (mode w = ADC_MODE_DMA ->
      dma_busy w1 = false /\ adc_running w1 = false
      /\ trace w1 = trace w ++ [EvAdcRun false; EvDmaAbort (dma_channel w);
                                EvStoreDataReady false])
  /\ (mode w = ADC_MODE_MANUAL ->
      dma_busy w1 = dma_busy w /\ adc_running w1 = adc_running w).
Proof.
  intros Hs. unfold adc_sampling_stop, adc_sampling_process_fft,
    adc_sampling_get_buffer.
  split_world w. cbn in *.
  destruct status0; try congruence; destruct mode0; cbn;
    destruct (0 <? now - sampling_start_time0); cbn;
    rewrite <- ?app_assoc; repeat split; intros; discriminate.
Qed.

Lemma stop_drops_pending_witness :
  status dma_one_frame <> ADC_STATUS_IDLE
  /\ adc_sampling_get_buffer dma_one_frame = PING
  /\ adc_sampling_get_buffer (snd (adc_sampling_stop 9000 dma_one_frame))
     = NULL.
Proof.
  assert (Hs : status dma_one_frame <> ADC_STATUS_IDLE)
    by (vm_compute; discriminate).
  split; [exact Hs|]. split; [vm_compute; reflexivity|].
  destruct (stop_drops_pending 9000 0 dma_one_frame Hs)
    as (_ & _ & _ & H & _).
  exact H.
Defined.


(** *** Counters *)

Lemma wrap32_frame x :
  x mod 1024 = 0 ->
  wrap32 (x + Z.of_nat ADC_SAMPLING_FFT_SIZE) mod 1024 = 0.
Proof.
  intros Hx. unfold wrap32.
  change (Z.of_nat ADC_SAMPLING_FFT_SIZE) with 1024.
  rewrite Z.mod_mod_divide by (exists (2 ^ 22); reflexivity).
  rewrite Z.add_mod, Hx by lia. reflexivity.
Qed.

Lemma whole_frames_step o (w : world) :
  sample_count w mod 1024 = 0 -> sample_count (step o w) mod 1024 = 0.
Proof.
  intros H. destruct o; cbn [step].
  - unfold adc_sampling_init, _adc_dma_init, _adc_manual_init.
    split_world w. cbn. case_ifs; reflexivity.
  - unfold adc_sampling_start. split_world w. cbn in *.
    case_ifs; cbn; auto.
  - unfold adc_sampling_stop. split_world w. cbn in *.
    case_ifs; cbn; auto.
  - unfold adc_sampling_is_ready, _adc_manual_sample_buffer.
    rewrite manual_sample_loop_spec. split_world w. cbn in *.
    destruct current_buffer0; case_ifs; cbn; auto using wrap32_frame.
  - exact H.
  - unfold adc_sampling_process_fft. case_ifs; cbn; auto.
  - unfold adc_sampling_complete_processing. case_ifs; cbn; auto.
  - reflexivity.
  - exact H.
  - unfold dma_fill. split_world w. cbn in *.
    destruct dma_busy0; [|exact H].
    destruct dma_write_addr0; case_ifs; cbn; auto using wrap32_frame.
  - exact H.
Qed.

(** The sample counter only ever counts whole frames: in every state
    reachable after an initialisation it is a multiple of the frame size,
    also across the wrap-around of the 32-bit counter. *)
Theorem sample_count_whole_frames (w : world) :
  reachable w ->
  exists k : Z,
    sample_count w = k * Z.of_nat ADC_SAMPLING_FFT_SIZE
    /\ 0 <= k < 2 ^ 22.
Proof.
  intros Hr.
  assert (Hm : sample_count w mod 1024 = 0).
  { destruct Hr as (w0 & m & ok & claimed & ops & ->).
    assert (H0 : sample_count (snd (adc_sampling_init m ok claimed w0))
                 mod 1024 = 0)
      by (unfold adc_sampling_init, _adc_dma_init, _adc_manual_init;
          split_world w0; cbn; case_ifs; reflexivity).
    revert H0. generalize (snd (adc_sampling_init m ok claimed w0)).
    induction ops as [|o ops IH]; intros w H0; cbn; auto.
    apply IH, whole_frames_step, H0. }
  destruct (reachable_Inv w Hr) as [_ _ _ Hs _ _ _ _ _].
  exists (sample_count w / 1024).
  change (Z.of_nat ADC_SAMPLING_FFT_SIZE) with 1024.
  change (2 ^ 32) with 4294967296 in Hs.
  change (2 ^ 22) with 4194304.
  pose proof (Z.div_mod (sample_count w) 1024 ltac:(lia)) as Hdm.
  rewrite Hm in Hdm. split; [lia|].
  split; [apply Z.div_pos; lia | apply Z.div_lt_upper_bound; lia].
Qed.

Lemma sample_count_whole_frames_witness :
  reachable dma_one_frame
  /\ exists k : Z,
       sample_count dma_one_frame = k * Z.of_nat ADC_SAMPLING_FFT_SIZE
       /\ 0 <= k < 2 ^ 22.
Proof.
  assert (Hr : reachable dma_one_frame).
  { exists power_on, ADC_MODE_DMA, true, 0,
      [OpStart 0; OpDmaComplete ramp 8000]. reflexivity. }
  split; [exact Hr|]. exact (sample_count_whole_frames dma_one_frame Hr).
Defined.

(** *** Completion without a pending frame *)

(** In DMA mode, when the transfer armed on the write target completes and
    no frame is pending, no overrun is counted: the counter stays, the
    filled buffer with the new frame becomes the ready buffer, the flag is
    raised, the sample counter advances by one frame and the next transfer
    runs on the other buffer. *)
Theorem completion_without_overrun (adc : nat -> Z) (now : Z) (w : world) :
  reachable w ->
  dma_busy w = true ->
  dma_write_addr w = current_buffer w ->
  data_ready w = false ->
  let w' := step (OpDmaComplete adc now) w in
  buffer_overruns w' = buffer_overruns w
  /\ data_ready w' = true
  /\ adc_sampling_get_buffer w' = current_buffer w
  /\ deref (adc_sampling_get_buffer w') w' = Some (frame_of adc)
  /\ sample_count w'
     = wrap32 (sample_count w + Z.of_nat ADC_SAMPLING_FFT_SIZE)
  /\ last_buffer_completion w' = now
  /\ dma_busy w' = true
  /\ dma_write_addr w' = current_buffer w'
  /\ current_buffer w' <> current_buffer w.
Proof.
  intros Hr Hb Ha Hd.
  destruct (reachable_Inv w Hr) as [Hc Hrd Hf Hs Ho Hst He Hp Hq].
  cbn [step]. rewrite Hb. unfold dma_fill. rewrite Ha.
  unfold adc_sampling_get_buffer.
  split_world w. cbn in *. subst.
  destruct buffer_selector0; cbn; repeat split; discriminate.
Qed.

Lemma completion_without_overrun_witness :
  (reachable dma_started /\ dma_busy dma_started = true /\
   dma_write_addr dma_started = current_buffer dma_started /\
   data_ready dma_started = false)
  /\ buffer_overruns (step (OpDmaComplete ramp 8000) dma_started)
     = buffer_overruns dma_started.
Proof.
  assert (Hr : reachable dma_started).
  { exists power_on, ADC_MODE_DMA, true, 0, [OpStart 0]. reflexivity. }
  assert (Hb : dma_busy dma_started = true) by (vm_compute; reflexivity).
  assert (Ha : dma_write_addr dma_started = current_buffer dma_started)
    by (vm_compute; reflexivity).
  assert (Hd : data_ready dma_started = false) by (vm_compute; reflexivity).
  split; [auto|].
  exact (proj1 (completion_without_overrun ramp 8000 dma_started
                  Hr Hb Ha Hd)).
Defined.

(** *** A program that initialises once *)

(** What holds along the calls of such a program, after an initialisation
    in mode [m] that found the DMA channel at rest. *)
Lemma in_service_step m o (w : world) :
  in_service o = true ->
  Inv w ->
  mode w = m
  /\ (dma_busy w = true ->
      mode w = ADC_MODE_DMA /\ dma_write_addr w = current_buffer w)
  /\ (mode w = ADC_MODE_MANUAL -> buffer_overruns w = 0) ->
  mode (step o w) = m
  /\ (dma_busy (step o w) = true ->
      mode (step o w) = ADC_MODE_DMA
      /\ dma_write_addr (step o w) = current_buffer (step o w))
  /\ (mode (step o w) = ADC_MODE_MANUAL -> buffer_overruns (step o w) = 0).
Proof.
  intros Hs [Hc _ _ _ _ _ _ _ _] (Hm & Hb & Ho).
  destruct o; try discriminate Hs; cbn [step].
  - unfold adc_sampling_start. split_world w. cbn in *. subst.
    destruct status0, m; cbn; repeat split; auto; intros;
      try discriminate; try (apply Hb; assumption).
  - unfold adc_sampling_stop. split_world w. cbn in *. subst.
    destruct status0, m; cbn;
      destruct (0 <? now - sampling_start_time0); cbn;
      repeat split; auto; intros; try discriminate;
      try (apply Hb; assumption).
  - unfold adc_sampling_is_ready, _adc_manual_sample_buffer.
    rewrite manual_sample_loop_spec. split_world w. cbn in *. subst.
    destruct m; cbn.
    + destruct dma_busy0; [destruct (Hb eq_refl); discriminate|].
      destruct buffer_selector0; case_ifs; cbn;
        repeat split; auto; intros; discriminate.
    + repeat split; auto; intros; try discriminate;
        apply Hb; assumption.
  - auto.
  - unfold adc_sampling_process_fft.
    destruct (bufptr_eqb (adc_sampling_get_buffer w) NULL); cbn; auto.
  - unfold adc_sampling_complete_processing.
    destruct (data_ready w); cbn; auto.
  - split_world w. cbn in *. subst.
    repeat split; auto; intros; try discriminate; apply Hb; assumption.
  - destruct (dma_busy w) eqn:Hbusy;
      [|repeat split; auto; intros; congruence].
    destruct (Hb eq_refl) as [Hd Ha]. unfold dma_fill. rewrite Ha.
    split_world w. cbn in *. subst.
    destruct buffer_selector0, data_ready0; cbn;
      repeat split; auto; intros; discriminate.
  - split_world w. cbn in *. subst.
    repeat split; auto; intros; discriminate.
Qed.

Lemma in_service_run m ops : forall w : world,
  forallb in_service ops = true ->
  Inv w ->
  mode w = m
  /\ (dma_busy w = true ->
      mode w = ADC_MODE_DMA /\ dma_write_addr w = current_buffer w)
  /\ (mode w = ADC_MODE_MANUAL -> buffer_overruns w = 0) ->
  Inv (run ops w)
  /\ mode (run ops w) = m
  /\ (dma_busy (run ops w) = true ->
      mode (run ops w) = ADC_MODE_DMA
      /\ dma_write_addr (run ops w) = current_buffer (run ops w))
  /\ (mode (run ops w) = ADC_MODE_MANUAL -> buffer_overruns (run ops w) = 0).
Proof.
  induction ops as [|o ops IH]; intros w Hs HI HJ; cbn in *; [auto|].
  apply andb_prop in Hs as [Ho Hs].
  apply IH; auto using Inv_step, in_service_step.
Qed.

Lemma in_service_init m ok claimed (w0 : world) :
  dma_busy w0 = false ->
  let w := snd (adc_sampling_init m ok claimed w0) in
  mode w = m
  /\ (dma_busy w = true ->
      mode w = ADC_MODE_DMA /\ dma_write_addr w = current_buffer w)
  /\ (mode w = ADC_MODE_MANUAL -> buffer_overruns w = 0).
Proof.
  intros Hb. unfold adc_sampling_init, _adc_dma_init, _adc_manual_init.
  split_world w0. cbn in *. subst.
  destruct ok, m; cbn; try destruct (claimed <? 0); cbn;
    repeat split; auto; intros; discriminate.
Qed.

(** Manual mode leaves the DMA channel alone and never overruns.  After a
    manual-mode initialisation that found the channel at rest, along any
    calls other than a new initialisation or a direct call of the internal
    swap, no transfer is ever in flight and the overrun counter is zero. *)
Theorem manual_mode_never_overruns (ok : bool) (claimed : Z) (w0 : world)
  (ops : list op) :
  dma_busy w0 = false ->
  forallb in_service ops = true ->
  let w := run ops (snd (adc_sampling_init ADC_MODE_MANUAL ok claimed w0)) in
  mode w = ADC_MODE_MANUAL
  /\ dma_busy w = false
  /\ buffer_overruns w = 0.
Proof.
  intros Hb Hs w.
  destruct (in_service_run ADC_MODE_MANUAL ops _ Hs
              (Inv_init ADC_MODE_MANUAL ok claimed w0)
              (in_service_init ADC_MODE_MANUAL ok claimed w0 Hb))
    as (_ & Hm & HJ & Ho).
  fold w in Hm, HJ, Ho. split; [exact Hm|]. split; [|auto].
  destruct (dma_busy w); [|reflexivity].
  destruct (HJ eq_refl) as [Hd _]. congruence.
Qed.

Lemma manual_mode_never_overruns_witness :
  (dma_busy power_on = false /\
   forallb in_service
     [OpStart 0; OpIsReady ramp 0 8000 8001; OpDmaComplete ramp 9000;
      OpIsReady ramp 9000 17000 17001] = true)
  /\ buffer_overruns
       (run [OpStart 0; OpIsReady ramp 0 8000 8001; OpDmaComplete ramp 9000;
             OpIsReady ramp 9000 17000 17001]
          (snd (adc_sampling_init ADC_MODE_MANUAL true 0 power_on))) = 0.
Proof.
  assert (Hb : dma_busy power_on = false) by reflexivity.
  assert (Hs : forallb in_service
                 [OpStart 0; OpIsReady ramp 0 8000 8001;
                  OpDmaComplete ramp 9000;
                  OpIsReady ramp 9000 17000 17001] = true) by reflexivity.
  split; [auto|].
  pose proof (manual_mode_never_overruns true 0 power_on _ Hb Hs) as H.
  cbv zeta in H. destruct H as (_ & _ & H). exact H.
Defined.


End AcquisitionMore.

(** * Properties of the windowing, of the legacy loop and of the display *)

Module PipelineFacts.
Import Config Calibration CalibrationFacts Pipeline.

Local Open Scope R_scope.

(** *** Window coefficients *)

Lemma INR_size1 : INR (ADC_SAMPLING_FFT_SIZE - 1) = 1023.
Proof.
  change (ADC_SAMPLING_FFT_SIZE - 1)%nat with 1023%nat.
  now rewrite INR_IZR_INZ.
Qed.

Lemma INR_mirror (n : nat) :
  (n <= ADC_SAMPLING_FFT_SIZE - 1)%nat ->
  INR (ADC_SAMPLING_FFT_SIZE - 1 - n) = 1023 - INR n.
Proof. intros Hn. rewrite minus_INR by exact Hn. now rewrite INR_size1. Qed.

Lemma cos_mirror (j : nat) (n : nat) :
  (n <= ADC_SAMPLING_FFT_SIZE - 1)%nat ->
  cos (2 * INR j * M_PI * INR (ADC_SAMPLING_FFT_SIZE - 1 - n)
       / INR (ADC_SAMPLING_FFT_SIZE - 1))
  = cos (2 * INR j * M_PI * INR n / INR (ADC_SAMPLING_FFT_SIZE - 1)).
Proof.
  intros Hn. rewrite INR_mirror by exact Hn. rewrite INR_size1.
  unfold M_PI.
  replace (2 * INR j * PI * (1023 - INR n) / 1023)
    with (- (2 * INR j * PI * INR n / 1023) + 2 * INR j * PI) by field.
  rewrite cos_period. apply cos_neg.
Qed.

(** Every window of [_adc_apply_window_function] is symmetric about the
    middle of the frame: sample [n] and sample [N - 1 - n] get the same
    coefficient, whatever the selector. *)
Theorem window_symmetric (window_type : Z) (n : nat) :
  (n <= ADC_SAMPLING_FFT_SIZE - 1)%nat ->
  window_coefficient window_type (ADC_SAMPLING_FFT_SIZE - 1 - n)
  = window_coefficient window_type n.
Proof.
  intros Hn.
  pose proof (cos_mirror 1 n Hn) as C2.
  pose proof (cos_mirror 2 n Hn) as C4.
  pose proof (cos_mirror 3 n Hn) as C6.
  pose proof (cos_mirror 4 n Hn) as C8.
  change (INR 1) with 1 in C2. change (INR 2) with (1 + 1) in C4.
  change (INR 3) with (1 + 1 + 1) in C6.
  change (INR 4) with (1 + 1 + 1 + 1) in C8.
  replace (2 * 1) with 2 in C2 by ring.
  replace (2 * (1 + 1)) with 4 in C4 by ring.
  replace (2 * (1 + 1 + 1)) with 6 in C6 by ring.
  replace (2 * (1 + 1 + 1 + 1)) with 8 in C8 by ring.
  unfold window_coefficient.
  destruct window_type as [|p|p]; try reflexivity.
  destruct p as [p|p|]; try reflexivity;
    try (destruct p as [p|p|]; try reflexivity;
         try (destruct p as [p|p|]; try reflexivity));
    rewrite ?C2, ?C4, ?C6, ?C8; try reflexivity.
  rewrite INR_mirror by exact Hn. rewrite INR_size1.
  replace ((1023 - INR n - 1023 / 2) / (1023 / 2)
           * ((1023 - INR n - 1023 / 2) / (1023 / 2)))
    with ((INR n - 1023 / 2) / (1023 / 2) * ((INR n - 1023 / 2) / (1023 / 2)))
    by field.
  reflexivity.
Qed.

Lemma window_symmetric_witness :
  (3 <= ADC_SAMPLING_FFT_SIZE - 1)%nat
  /\ window_coefficient 3 (ADC_SAMPLING_FFT_SIZE - 1 - 3)
     = window_coefficient 3 3.
Proof.
  assert (H : (3 <= ADC_SAMPLING_FFT_SIZE - 1)%nat)
    by (unfold ADC_SAMPLING_FFT_SIZE; lia).
  split; [exact H|]. exact (window_symmetric 3 3 H).
Defined.


Lemma kaiser_argument (n : nat) :
  (n <= ADC_SAMPLING_FFT_SIZE - 1)%nat ->
  let x := (INR n - INR (ADC_SAMPLING_FFT_SIZE - 1) / 2)
           / (INR (ADC_SAMPLING_FFT_SIZE - 1) / 2) in
  0 <= KAISER_BESSEL_BETA * sqrtf (1 - x * x) <= KAISER_BESSEL_BETA.
Proof.
  intros Hn x.
  assert (Hx : -1 <= x <= 1).
  { assert (Hx1 : x * (1023 / 2) = INR n - 1023 / 2)
      by (unfold x; rewrite INR_size1; field).
    apply le_INR in Hn. rewrite INR_size1 in Hn. pose proof (pos_INR n).
    split; lra. }
  assert (H1 : 0 <= 1 - x * x <= 1) by nra.
  assert (Hs : 0 <= sqrtf (1 - x * x) <= 1).
  { unfold sqrtf. split; [apply sqrt_pos|].
    pose proof (sqrt_le_1_alt (1 - x * x) 1 (proj2 H1)) as Hq.
    now rewrite sqrt_1 in Hq. }
  unfold KAISER_BESSEL_BETA. nra.
Qed.

(** Range of the coefficients inside the frame.  The Hann window lies
    between 0 and 1 and is 0 at both ends of the frame; the Hamming window
    lies between 0.08 and 1; for the Kaiser-Bessel window the guard on the
    exponent always takes the first branch and the coefficient lies between
    [exp (- beta)] and 1, never reaching 0. *)
Theorem window_range (n : nat) :
  (n <= ADC_SAMPLING_FFT_SIZE - 1)%nat ->
  0 <= window_coefficient 2 n <= 1
  /\ window_coefficient 2 0 = 0
  /\ window_coefficient 2 (ADC_SAMPLING_FFT_SIZE - 1) = 0
  /\ 8 / 100 <= window_coefficient 1 n <= 1
  /\ exp (- KAISER_BESSEL_BETA) <= window_coefficient 5 n <= 1.
Proof.
  intros Hn. unfold window_coefficient.
  pose proof (COS_bound (2 * M_PI * INR n / INR (ADC_SAMPLING_FFT_SIZE - 1)))
    as [Hlo Hhi].
  split; [lra|]. split; [|split; [|split; [lra|]]].
  - replace (2 * M_PI * INR 0 / INR (ADC_SAMPLING_FFT_SIZE - 1)) with 0
      by (cbn [INR]; rewrite INR_size1; field).
    rewrite cos_0. ring.
  - replace (2 * M_PI * INR (ADC_SAMPLING_FFT_SIZE - 1)
             / INR (ADC_SAMPLING_FFT_SIZE - 1)) with (2 * PI)
      by (rewrite INR_size1; unfold M_PI; field).
    rewrite cos_2PI. ring.
  - pose proof (kaiser_argument n Hn) as Ha. cbv zeta in Ha.
    destruct (Rlt_dec _ 50) as [_ | Hge];
      [|exfalso; apply Hge; unfold KAISER_BESSEL_BETA in *; lra].
    set (arg := KAISER_BESSEL_BETA * sqrtf _) in *.
    split.
    + destruct Ha as [[Hlt | Heq] _].
      * left. apply exp_increasing. lra.
      * right. f_equal. lra.
    + rewrite <- exp_0. destruct Ha as [_ [Hlt | Heq]].
      * left. apply exp_increasing. lra.
      * right. f_equal. lra.
Qed.

Lemma window_range_witness :
  (512 <= ADC_SAMPLING_FFT_SIZE - 1)%nat
  /\ 0 <= window_coefficient 2 512 <= 1.
Proof.
  assert (H : (512 <= ADC_SAMPLING_FFT_SIZE - 1)%nat)
    by (unfold ADC_SAMPLING_FFT_SIZE; lia).
  split; [exact H|]. exact (proj1 (window_range 512 H)).
Defined.

(** *** Removal of the mean *)

Lemma fold_left_total (g : Z -> R) (l : list Z) : forall a : R,
  fold_left (fun acc x => acc + g x) l a = a + total (map g l).
Proof.
  induction l as [|x l IH]; intros a; cbn.
  - ring.
  - rewrite IH. unfold total. ring.
Qed.

Lemma total_shift (d : R) (l : list Z) :
  total (map (fun x => (IZR x - d) * 1) l)
  = total (map IZR l) - INR (length l) * d.
Proof.
  induction l as [|x l IH].
  - cbn. ring.
  - cbn [map total fold_right length]. fold (total (map IZR l)).
    fold (total (map (fun x => (IZR x - d) * 1) l)).
    rewrite IH, S_INR. ring.
Qed.

Lemma total_repeat (v : R) (k : nat) : total (repeat v k) = INR k * v.
Proof.
  induction k as [|k IH].
  - cbn. ring.
  - cbn [repeat total fold_right]. fold (total (repeat v k)).
    rewrite IH, S_INR. ring.
Qed.


Lemma imap_total (d : R) (l : list Z) :
  forall f : nat -> Z -> kiss_fft_cpx,
    (forall n x, r (f n x) = (IZR x - d) * 1) ->
    total (map r (imap f l)) = total (map (fun x => (IZR x - d) * 1) l).
Proof.
  induction l as [|x l IH]; intros f Hf; [reflexivity|].
  cbn [imap map total fold_right]. rewrite Hf. f_equal.
  apply IH. intros n y. apply Hf.
Qed.

Lemma imap_repeat (c : kiss_fft_cpx) (v : Z) (k : nat) :
  forall f : nat -> Z -> kiss_fft_cpx,
    (forall n, f n v = c) -> imap f (repeat v k) = repeat c k.
Proof.
  induction k as [|k IH]; intros f Hf; [reflexivity|].
  cbn [repeat imap]. rewrite Hf. f_equal. apply IH.
  intros n. apply Hf.
Qed.

Lemma dc_offset_mean (adc_buffer : list Z) :
  length adc_buffer = ADC_SAMPLING_FFT_SIZE ->
  dc_offset_of adc_buffer = total (map IZR adc_buffer) / 1024.
Proof.
  intros Hlen. unfold dc_offset_of.
  rewrite take_ge by (rewrite Hlen; reflexivity).
  rewrite fold_left_total, INR_FFT_SIZE. f_equal. ring.
Qed.

Lemma total_IZR (l : list Z) :
  total (map IZR l) = IZR (fold_right Z.add 0%Z l).
Proof.
  induction l as [|x l IH]; [reflexivity|].
  cbn [map total fold_right]. fold (total (map IZR l)).
  rewrite IH, plus_IZR. reflexivity.
Qed.

Lemma sum_in_range (l : list Z) :
  Forall (fun x => (0 <= x < 2 ^ ADC_RESOLUTION_BITS)%Z) l ->
  (0 <= fold_right Z.add 0%Z l <= 4095 * Z.of_nat (length l))%Z.
Proof.
  change (2 ^ ADC_RESOLUTION_BITS)%Z with 4096%Z.
  induction 1 as [|x l Hx _ IH]; cbn [fold_right length]; lia.
Qed.

(** [_adc_apply_window_function] on a full frame of samples of the 12-bit
    converter: the transform input has the frame's length and no imaginary
    part; the mean that is subtracted is an integer below 2^22 over 1024;
    with the rectangular window every real part is an integer of less than
    22 bits over 1024, so a binary32 number, and the real parts add up to
    zero, the mean of the samples being removed; and a frame of equal
    samples gives an input that is zero everywhere, whatever the window. *)
Theorem window_removes_mean (window_type : Z) (adc_buffer : list Z) :
  length adc_buffer = ADC_SAMPLING_FFT_SIZE ->
  Forall (fun x => (0 <= x < 2 ^ ADC_RESOLUTION_BITS)%Z) adc_buffer ->
  let fft_input := _adc_apply_window_function window_type adc_buffer in
  length fft_input = ADC_SAMPLING_FFT_SIZE
  /\ (forall (n : nat) (c : kiss_fft_cpx), fft_input !! n = Some c -> i c = 0)
  /\ (exists S : Z,
        (0 <= S < 2 ^ 22)%Z /\ dc_offset_of adc_buffer = IZR S / 1024)
  /\ (window_type = 0%Z ->
      total (map r fft_input) = 0
      /\ forall (n : nat) (c : kiss_fft_cpx),
           fft_input !! n = Some c ->
           exists k : Z, (- 2 ^ 22 < k < 2 ^ 22)%Z /\ r c = IZR k / 1024)
  /\ (forall v : Z,
        adc_buffer = repeat v ADC_SAMPLING_FFT_SIZE ->
        fft_input = repeat (cpx 0 0) ADC_SAMPLING_FFT_SIZE).
Proof.
  intros Hlen Hrange fft_input. unfold fft_input, _adc_apply_window_function.
  rewrite (dc_offset_mean adc_buffer Hlen).
  rewrite take_ge by (rewrite Hlen; reflexivity).
  pose proof (sum_in_range adc_buffer Hrange) as Hsum.
  rewrite Hlen in Hsum. change (Z.of_nat ADC_SAMPLING_FFT_SIZE) with 1024%Z in Hsum.
  rewrite total_IZR. set (S := fold_right Z.add 0%Z adc_buffer) in *.
  split; [|split; [|split; [|split]]].
  - now rewrite length_imap.
  - intros n c. rewrite list_lookup_imap.
    destruct (adc_buffer !! n); [|discriminate].
    cbn. intros [= <-]. reflexivity.
  - exists S. split; [lia | reflexivity].
  - intros ->. split.
    + rewrite (imap_total (IZR S / 1024)) by (intros; reflexivity).
      rewrite total_shift, Hlen, INR_FFT_SIZE, total_IZR. fold S. field.
    + intros n c. rewrite list_lookup_imap.
      destruct (adc_buffer !! n) as [x|] eqn:Hx; [|discriminate].
      cbn. intros [= <-]. cbn [r].
      rewrite Forall_lookup in Hrange. specialize (Hrange n x Hx).
      change (2 ^ ADC_RESOLUTION_BITS)%Z with 4096%Z in Hrange.
      exists (1024 * x - S)%Z. split; [lia|].
      rewrite minus_IZR, mult_IZR. field.
  - intros v ->. apply imap_repeat. intros n. cbn [r].
    f_equal. fold (total (map IZR (repeat v ADC_SAMPLING_FFT_SIZE))) in S.
    unfold S. rewrite <- total_IZR, map_repeat, total_repeat, INR_FFT_SIZE.
    field.
Qed.

Lemma window_removes_mean_witness :
  (length (repeat 2048%Z ADC_SAMPLING_FFT_SIZE) = ADC_SAMPLING_FFT_SIZE
   /\ Forall (fun x => (0 <= x < 2 ^ ADC_RESOLUTION_BITS)%Z)
        (repeat 2048%Z ADC_SAMPLING_FFT_SIZE))
  /\ _adc_apply_window_function 2 (repeat 2048%Z ADC_SAMPLING_FFT_SIZE)
     = repeat (cpx 0 0) ADC_SAMPLING_FFT_SIZE.
Proof.
  assert (H : length (repeat 2048%Z ADC_SAMPLING_FFT_SIZE)
              = ADC_SAMPLING_FFT_SIZE) by apply repeat_length.
  assert (Hr : Forall (fun x => (0 <= x < 2 ^ ADC_RESOLUTION_BITS)%Z)
                 (repeat 2048%Z ADC_SAMPLING_FFT_SIZE)).
  { apply Forall_forall. intros x Hx. apply list_elem_of_In in Hx.
    apply repeat_spec in Hx. subst x. unfold ADC_RESOLUTION_BITS. lia. }
  split; [auto|].
  exact (proj2 (proj2 (proj2 (proj2 (window_removes_mean 2 _ H Hr))))
           2048%Z eq_refl).
Defined.

(** The bound on the samples matters.  In binary32 a full-scale frame of
    the converter has the mean 4095 exactly and every sample minus the mean
    is zero, as in the real-number reading; a frame of 65535, which the
    16-bit element type admits but the converter never delivers, drives the
    sum past 2^24, where it is rounded, and comes out with the mean
    65535.75 and samples of -0.75. *)
Example dc_offset_binary32_frames :
  dc_offset_binary32 (repeat 4095%Z ADC_SAMPLING_FFT_SIZE)
  = Binary32.of_Z 4095
  /\ sample_binary32 (repeat 4095%Z ADC_SAMPLING_FFT_SIZE) 4095
     = Binary32.of_Z 0
  /\ dc_offset_binary32 (repeat 65535%Z ADC_SAMPLING_FFT_SIZE)
     = Binary32.lit 262143 4
  /\ sample_binary32 (repeat 65535%Z ADC_SAMPLING_FFT_SIZE) 65535
     = SFopp (Binary32.lit 3 4).
Proof. vm_compute. repeat split. Qed.


(** *** Bins, frequencies and columns *)

Lemma bin_frequency (bin : Z) :
  adc_sampling_bin_to_frequency bin = 125 * IZR bin
  /\ display_bin_freq bin (IZR ADC_SAMPLING_RATE) = 125 * IZR bin.
Proof.
  unfold adc_sampling_bin_to_frequency, display_bin_freq.
  change STREAM_FFT_SIZE with ADC_SAMPLING_FFT_SIZE.
  rewrite INR_FFT_SIZE.
  change (IZR ADC_SAMPLING_RATE) with 128000. split; field.
Qed.

(** At the nominal sampling rate a bin is 125 Hz wide, and the display
    draws exactly the bins 8 to 400, that is 1 kHz to 50 kHz; the DC bin
    and everything above bin 400 are skipped. *)
Theorem display_takes_bins_8_to_400 (bin : Z) :
  adc_sampling_bin_to_frequency bin = 125 * IZR bin
  /\ display_bin_freq bin (IZR ADC_SAMPLING_RATE)
     = adc_sampling_bin_to_frequency bin
  /\ display_takes bin (IZR ADC_SAMPLING_RATE)
     = ((8 <=? bin) && (bin <=? 400))%Z.
Proof.
  destruct (bin_frequency bin) as [H1 H2].
  split; [exact H1|]. split; [congruence|].
  unfold display_takes. rewrite H2.
  change (IZR FREQUENCY_RANGE_MIN) with 1000.
  change (IZR FREQUENCY_RANGE_MAX) with 50000.
  destruct (Z.leb_spec 8 bin) as [H8 | H8];
    destruct (Z.leb_spec bin 400) as [H4 | H4];
    [apply IZR_le in H8 | apply IZR_le in H8
    | apply IZR_lt in H8 | apply IZR_lt in H8];
    try apply IZR_le in H4; try apply IZR_lt in H4;
    destruct (Rlt_dec (125 * IZR bin) 1000);
    destruct (Rgt_dec (125 * IZR bin) 50000);
    cbn; try reflexivity; exfalso; lra.
Qed.

Lemma Int_part_quotient (a b : Z) :
  (0 < b)%Z -> Int_part (IZR a / IZR b) = (a / b)%Z.
Proof.
  intros Hb. symmetry. apply Int_part_spec.
  pose proof (Z.div_mod a b ltac:(lia)) as Hdm.
  pose proof (Z.mod_pos_bound a b Hb) as [Hlo Hhi].
  assert (HbR : 0 < IZR b) by (apply IZR_lt; exact Hb).
  assert (Ha : IZR a = IZR b * IZR (a / b) + IZR (a mod b))
    by (rewrite <- mult_IZR, <- plus_IZR; f_equal; exact Hdm).
  apply IZR_le in Hlo. apply IZR_lt in Hhi.
  assert (Hq : IZR a / IZR b = IZR (a / b) + IZR (a mod b) / IZR b)
    by (rewrite Ha; field; lra).
  assert (Hf : 0 <= IZR (a mod b) / IZR b < 1).
  { split.
    - apply Rmult_le_pos; [lra | left; now apply Rinv_0_lt_compat].
    - apply Rmult_lt_reg_r with (IZR b); [exact HbR|].
      unfold Rdiv. rewrite Rmult_assoc, Rinv_l by lra. lra. }
  lra.
Qed.

Lemma int_of_float_quotient (a b : Z) :
  (0 <= a)%Z -> (0 < b)%Z -> int_of_float (IZR a / IZR b) = (a / b)%Z.
Proof.
  intros Ha Hb. unfold int_of_float.
  destruct (Rle_dec 0 (IZR a / IZR b)) as [_ | Hn].
  - now apply Int_part_quotient.
  - exfalso. apply Hn. apply Rmult_le_pos; [now apply IZR_le|].
    left. apply Rinv_0_lt_compat. now apply IZR_lt.
Qed.

Lemma Int_part_mono (x y : R) : x <= y -> (Int_part x <= Int_part y)%Z.
Proof.
  intros Hxy.
  destruct (base_Int_part x) as [Hx1 Hx2].
  destruct (base_Int_part y) as [Hy1 Hy2].
  assert (H : IZR (Int_part x) < IZR (Int_part y + 1))
    by (rewrite plus_IZR; lra).
  apply lt_IZR in H. lia.
Qed.

Lemma position_range (freq_hz : R) :
  0 <= fft_streaming_display_freq_to_position freq_hz <= 1.
Proof.
  unfold fft_streaming_display_freq_to_position, USE_LOG_FREQ_SCALE.
  change (IZR FREQUENCY_RANGE_MIN) with 1000.
  change (IZR FREQUENCY_RANGE_MAX) with 50000.
  change (IZR (FREQUENCY_RANGE_MAX - FREQUENCY_RANGE_MIN)) with 49000.
  destruct (Rlt_dec freq_hz 1000); [lra|].
  destruct (Rgt_dec freq_hz 50000); [lra|].
  split.
  - apply Rmult_le_pos; lra.
  - apply Rmult_le_reg_r with 49000; [lra|].
    unfold Rdiv. rewrite Rmult_assoc, Rinv_l by lra. lra.
Qed.

Lemma position_mono (f1 f2 : R) :
  f1 <= f2 ->
  fft_streaming_display_freq_to_position f1
  <= fft_streaming_display_freq_to_position f2.
Proof.
  intros Hf. pose proof (position_range f1) as P1.
  pose proof (position_range f2) as P2. revert P1 P2.
  unfold fft_streaming_display_freq_to_position, USE_LOG_FREQ_SCALE.
  change (IZR FREQUENCY_RANGE_MIN) with 1000.
  change (IZR FREQUENCY_RANGE_MAX) with 50000.
  change (IZR (FREQUENCY_RANGE_MAX - FREQUENCY_RANGE_MIN)) with 49000.
  destruct (Rlt_dec f1 1000), (Rgt_dec f1 50000), (Rlt_dec f2 1000),
    (Rgt_dec f2 50000); intros P1 P2; lra.
Qed.

(** The column of a frequency is always a valid index into the 240-column
    buffers, it does not decrease when the frequency grows, frequencies
    below the displayed band go to the first column and those from its
    upper end on to the last. *)
Theorem column_in_range_and_monotone (f1 f2 : R) :
  (0 <= fft_streaming_display_freq_to_column f1 < STREAM_BUFFER_COLS)%Z
  /\ (f1 <= f2 ->
      (fft_streaming_display_freq_to_column f1
       <= fft_streaming_display_freq_to_column f2)%Z)
  /\ (f1 < IZR FREQUENCY_RANGE_MIN ->
      fft_streaming_display_freq_to_column f1 = 0%Z)
  /\ (IZR FREQUENCY_RANGE_MAX <= f1 ->
      fft_streaming_display_freq_to_column f1
      = (STREAM_BUFFER_COLS - 1)%Z).
Proof.
  assert (Hcol : forall f,
    fft_streaming_display_freq_to_column f
    = Z.min 239 (Int_part (fft_streaming_display_freq_to_position f * 240))).
  { intros f. unfold fft_streaming_display_freq_to_column, int_of_float.
    change (IZR STREAM_BUFFER_COLS) with 240.
    change STREAM_BUFFER_COLS with 240%Z.
    pose proof (position_range f) as [Hlo Hhi].
    destruct (Rle_dec 0 _) as [H0 | Hn]; [|exfalso; apply Hn; nra].
    pose proof (Int_part_mono _ _ H0) as Hm.
    replace (Int_part 0) with 0%Z in Hm
      by (change 0 with (INR 0); now rewrite Int_part_INR).
    destruct (Z.ltb_spec (Int_part (fft_streaming_display_freq_to_position f
                                    * 240)) 0); [lia|].
    destruct (Z.geb_spec (Int_part (fft_streaming_display_freq_to_position f
                                    * 240)) 240); lia. }
  assert (H0 : forall f, (0 <= Int_part
                 (fft_streaming_display_freq_to_position f * 240))%Z).
  { intros f. pose proof (position_range f) as [Hlo _].
    replace 0%Z with (Int_part 0)
      by (change 0 with (INR 0); now rewrite Int_part_INR).
    apply Int_part_mono. nra. }
  change STREAM_BUFFER_COLS with 240%Z.
  change (IZR FREQUENCY_RANGE_MIN) with 1000.
  change (IZR FREQUENCY_RANGE_MAX) with 50000.
  rewrite !Hcol. pose proof (H0 f1). pose proof (H0 f2).
  split; [lia|]. split; [|split].
  - intros Hf. pose proof (position_mono f1 f2 Hf) as Hp.
    assert (Hm : (Int_part (fft_streaming_display_freq_to_position f1 * 240)
                  <= Int_part
                       (fft_streaming_display_freq_to_position f2 * 240))%Z)
      by (apply Int_part_mono; lra).
    lia.
  - intros Hf. unfold fft_streaming_display_freq_to_position.
    change (IZR FREQUENCY_RANGE_MIN) with 1000.
    destruct (Rlt_dec f1 1000); [|lra].
    replace (0 * 240) with (INR 0) by (cbn; ring).
    now rewrite Int_part_INR.
  - intros Hf.
    assert (Hp : fft_streaming_display_freq_to_position f1 = 1).
    { unfold fft_streaming_display_freq_to_position, USE_LOG_FREQ_SCALE.
      change (IZR FREQUENCY_RANGE_MIN) with 1000.
      change (IZR FREQUENCY_RANGE_MAX) with 50000.
      change (IZR (FREQUENCY_RANGE_MAX - FREQUENCY_RANGE_MIN)) with 49000.
      destruct (Rlt_dec f1 1000); [lra|].
      destruct (Rgt_dec f1 50000); [reflexivity|].
      replace f1 with 50000 by lra. field. }
    rewrite Hp. replace (1 * 240) with (INR 240)
      by (rewrite INR_IZR_INZ; cbn; ring).
    rewrite Int_part_INR. reflexivity.
Qed.

Lemma column_in_range_and_monotone_witness :
  (1000 <= 22500 /\ 500 < IZR FREQUENCY_RANGE_MIN)
  /\ (fft_streaming_display_freq_to_column 1000
      <= fft_streaming_display_freq_to_column 22500)%Z
  /\ fft_streaming_display_freq_to_column 500 = 0%Z.
Proof.
  assert (H1 : 1000 <= 22500) by lra.
  assert (H2 : 500 < IZR FREQUENCY_RANGE_MIN)
    by (unfold FREQUENCY_RANGE_MIN; lra).
  split; [auto|]. split.
  - exact (proj1 (proj2 (column_in_range_and_monotone 1000 22500)) H1).
  - exact (proj1 (proj2 (proj2 (column_in_range_and_monotone 500 0))) H2).
Defined.

(** At the nominal sampling rate, bin [b] of the displayed band lands in
    column [30 (b - 8) / 49] (integer division), except the last bin, 400,
    which the clamp puts into column 239: the 393 bins share 240 columns. *)
Theorem column_of_bin (bin : Z) :
  (8 <= bin <= 400)%Z ->
  fft_streaming_display_freq_to_column
    (display_bin_freq bin (IZR ADC_SAMPLING_RATE))
  = Z.min 239 (30 * (bin - 8) / 49).
Proof.
  intros [H8 H4]. destruct (bin_frequency bin) as [_ ->].
  assert (R8 := IZR_le _ _ H8). assert (R4 := IZR_le _ _ H4).
  unfold fft_streaming_display_freq_to_column,
    fft_streaming_display_freq_to_position, USE_LOG_FREQ_SCALE.
  change (IZR FREQUENCY_RANGE_MIN) with 1000.
  change (IZR FREQUENCY_RANGE_MAX) with 50000.
  change (IZR (FREQUENCY_RANGE_MAX - FREQUENCY_RANGE_MIN)) with 49000.
  change (IZR STREAM_BUFFER_COLS) with 240.
  change STREAM_BUFFER_COLS with 240%Z.
  destruct (Rlt_dec (125 * IZR bin) 1000); [lra|].
  destruct (Rgt_dec (125 * IZR bin) 50000); [lra|].
  replace ((125 * IZR bin - 1000) / 49000 * 240)
    with (IZR (30 * (bin - 8)) / IZR 49)
    by (rewrite mult_IZR, minus_IZR; field).
  rewrite int_of_float_quotient by lia.
  assert (Hq : (0 <= 30 * (bin - 8) / 49)%Z) by (apply Z.div_pos; lia).
  destruct (Z.ltb_spec (30 * (bin - 8) / 49) 0); [lia|].
  destruct (Z.geb_spec (30 * (bin - 8) / 49) 240); lia.
Qed.

Lemma column_of_bin_witness :
  (8 <= 180 <= 400)%Z
  /\ fft_streaming_display_freq_to_column
       (display_bin_freq 180 (IZR ADC_SAMPLING_RATE)) = 105%Z.
Proof.
  assert (H : (8 <= 180 <= 400)%Z) by lia.
  split; [exact H|]. exact (column_of_bin 180 H).
Defined.


(** *** One display column *)

Lemma bar_top_range (level : R) :
  (STREAM_SPECTRUM_Y < bar_top level <= STREAM_SPECTRUM_Y + STREAM_SPECTRUM_H)%Z.
Proof.
  unfold bar_top, bar_height.
  change STREAM_SPECTRUM_Y with 20%Z. change STREAM_SPECTRUM_H with 180%Z.
  set (h := int_of_float _).
  destruct (Z.ltb_spec h 0).
  - cbn. lia.
  - destruct (Z.geb_spec h 180); lia.
Qed.

(** Updating a display column with a new magnitude.  If the smoothed level
    of the column was inside the display range (or this is the first
    frame), the new smoothed level is inside the range again; it follows
    the clamped magnitude exactly on the first frame.  The held peak is
    never below the smoothed level, and the top of the bar stays inside
    the spectrum area. *)
Theorem column_update_keeps_range (smooth_init : bool) (old peak_db : R)
  (hold_time now : Z) (magnitude : R) :
  (smooth_init = true -> in_display_range old) ->
  let u := column_update smooth_init old peak_db hold_time now magnitude in
  let smooth := fst (fst u) in
  let peak := fst (snd (fst u)) in
  let top := snd u in
  in_display_range smooth
  /\ smooth <= peak
  /\ (smooth_init = false -> smooth = display_clamp magnitude)
  /\ (STREAM_SPECTRUM_Y < top <= STREAM_SPECTRUM_Y + STREAM_SPECTRUM_H)%Z.
Proof.
  intros Hold. unfold column_update. cbn [fst snd].
  destruct (display_clamp_spec magnitude) as [Hc _].
  set (db := display_clamp magnitude) in *.
  assert (Hs : in_display_range (smooth_update smooth_init old db)).
  { unfold smooth_update. destruct smooth_init; cbn [negb]; [|exact Hc].
    specialize (Hold eq_refl). unfold in_display_range in *.
    change (IZR AMPLITUDE_RANGE_MIN_DB) with (-100) in *.
    change (IZR AMPLITUDE_RANGE_MAX_DB) with 20 in *. lra. }
  set (s := smooth_update smooth_init old db) in *.
  unfold hold_update.
  destruct (Rgt_dec s peak_db) as [Hgt | Hle];
    [|destruct (now - hold_time >? PEAK_HOLD_DURATION_MS * 1000)%Z];
    cbn [fst snd];
    (split; [exact Hs|]); (split; [lra|]);
    (split; [|apply bar_top_range]);
    intros ->; reflexivity.
Qed.

Lemma column_update_keeps_range_witness :
  (true = true -> in_display_range (-60))
  /\ in_display_range
       (fst (fst (column_update true (-60) (-200) 0 5 (-30)))).
Proof.
  assert (H : true = true -> in_display_range (-60)).
  { intros _. unfold in_display_range, AMPLITUDE_RANGE_MIN_DB,
      AMPLITUDE_RANGE_MAX_DB. lra. }
  split; [exact H|].
  exact (proj1 (column_update_keeps_range true (-60) (-200) 0 5 (-30) H)).
Defined.

(** With a smoothed level of -60 and a new magnitude of -30 the column
    moves to -48. *)
Example column_update_step :
  fst (fst (column_update true (-60) (-200) 0 5 (-30))) = -48.
Proof.
  unfold column_update, smooth_update. cbn [negb fst].
  rewrite (proj2 (proj2 (proj2 (display_clamp_spec (-30))))) by lra.
  field.
Qed.


(** *** Rate calibration of the legacy loop *)

Lemma calibrate_frames_mean (rates : list R) : forall (k : nat) (m : R),
  (k + length rates <= 10)%nat ->
  fst (calibrate_frames rates k (m, false)) * INR (k + length rates)
  = m * INR k + total rates
  /\ snd (calibrate_frames rates k (m, false))
     = match rates with
       | [] => false
       | _ => (k + length rates =? 10)%nat
       end.
Proof.
  induction rates as [|c rest IH]; intros k m Hk.
  - cbn. rewrite Nat.add_0_r. split; [ring | reflexivity].
  - cbn [length] in Hk. cbn [calibrate_frames fst snd].
    unfold calibrate_rate. cbn [negb andb].
    destruct (Nat.ltb_spec k 10) as [_ | Hge]; [|lia].
    assert (Hk1 : INR (k + 1) <> 0)
      by (rewrite Nat.add_1_r; apply not_0_INR; lia).
    destruct (Nat.eqb_spec k 9) as [-> | Hne].
    + destruct rest; [|cbn in Hk; lia].
      cbn [calibrate_frames fst snd length total fold_right].
      split; [|reflexivity].
      change (9 + 1)%nat with 10%nat in *. field. exact Hk1.
    + destruct (IH (S k) ((m * INR k + c) / INR (k + 1))
                  ltac:(lia)) as [Hm Hb].
      replace (k + length (c :: rest))%nat
        with (S k + length rest)%nat by (cbn; lia).
      split.
      * rewrite Hm. cbn [total fold_right].
        replace (INR (S k)) with (INR (k + 1)) by (f_equal; lia).
        unfold total. field. exact Hk1.
      * rewrite Hb. destruct rest; [|reflexivity].
        cbn [length]. destruct (Nat.eqb_spec (S k + 0) 10); [lia|reflexivity].
Qed.

Lemma calibrate_frames_frozen (rates : list R) : forall (k : nat) (m : R),
  calibrate_frames rates k (m, true) = (m, true).
Proof.
  induction rates as [|c rest IH]; intros k m; [reflexivity|].
  cbn [calibrate_frames fst snd]. unfold calibrate_rate.
  cbn [negb andb]. apply IH.
Qed.

Lemma calibrate_frames_app (a b : list R) : forall (k : nat) (st : R * bool),
  calibrate_frames (a ++ b) k st
  = calibrate_frames b (k + length a) (calibrate_frames a k st).
Proof.
  induction a as [|c a IH]; intros k st; cbn [app calibrate_frames length].
  - now rewrite Nat.add_0_r.
  - rewrite IH. f_equal. lia.
Qed.

(** The sampling rate that [fft_realtime_analysis] measures: after the
    first [k] frames, for [k] from 1 to 10, it is the arithmetic mean of
    the rates of these frames, the built-in 128000 having no weight; the
    tenth frame ends the calibration, and the value then stays whatever
    the later frames measure. *)
Theorem rate_calibration_is_mean (rates later : list R) :
  (1 <= length rates <= 10)%nat ->
  fst (calibrate_frames rates 0 (128000, false))
  = total rates / INR (length rates)
  /\ snd (calibrate_frames rates 0 (128000, false))
     = (length rates =? 10)%nat
  /\ (length rates = 10%nat ->
      calibrate_frames (rates ++ later) 0 (128000, false)
      = (total rates / 10, true)).
Proof.
  intros [H1 H10].
  destruct (calibrate_frames_mean rates 0 128000 ltac:(lia)) as [Hm Hb].
  cbn [plus INR] in Hm.
  assert (Hn : INR (length rates) <> 0) by (apply not_0_INR; lia).
  assert (Hmean : fst (calibrate_frames rates 0 (128000, false))
                  = total rates / INR (length rates)).
  { apply Rmult_eq_reg_r with (INR (length rates)); [|exact Hn].
    rewrite Hm. field. exact Hn. }
  assert (Hflag : snd (calibrate_frames rates 0 (128000, false))
                  = (length rates =? 10)%nat).
  { rewrite Hb. destruct rates; [cbn in H1; lia | reflexivity]. }
  split; [exact Hmean|]. split; [exact Hflag|].
  intros Hlen. rewrite calibrate_frames_app.
  rewrite (surjective_pairing (calibrate_frames rates 0 (128000, false))).
  rewrite Hmean, Hflag, Hlen. cbn [Nat.eqb].
  rewrite calibrate_frames_frozen.
  f_equal. f_equal. rewrite INR_IZR_INZ. reflexivity.
Qed.

Lemma rate_calibration_is_mean_witness :
  (1 <= length [127000; 129000]%R <= 10)%nat
  /\ fst (calibrate_frames [127000; 129000] 0 (128000, false))
     = total [127000; 129000] / INR (length [127000; 129000]).
Proof.
  assert (H : (1 <= length [127000; 129000]%R <= 10)%nat) by (cbn; lia).
  split; [exact H|].
  exact (proj1 (rate_calibration_is_mean [127000; 129000] [] H)).
Defined.

(** *** Peak search of the legacy loop *)

Lemma peak_search_spec (l : list R) : forall (n : nat) (mx : R) (b : nat),
  let res := peak_search l n mx b in
  (forall (j : nat) (x : R), l !! j = Some x -> x <= fst res)
  /\ ((fst res = mx /\ snd res = b)
      \/ exists j : nat,
           l !! j = Some (fst res) /\ snd res = (n + j)%nat
           /\ mx < fst res
           /\ forall (j' : nat) (x : R),
                (j' < j)%nat -> l !! j' = Some x -> x < fst res).
Proof.
  induction l as [|m rest IH]; intros n mx b; cbn [peak_search].
  - cbn. split; [intros j x H; discriminate | left; auto].
  - destruct (Rgt_dec m mx) as [Hgt | Hle].
    + specialize (IH (S n) m n). cbv zeta in IH.
      destruct IH as [Hall Hcase]. split.
      * intros [|j] x Hx; cbn in Hx.
        -- injection Hx as <-.
           destruct Hcase as [[-> _] | (j & _ & _ & Hlt & _)]; lra.
        -- eauto.
      * right. destruct Hcase as [[Hf Hs] | (j & Hj & Hs & Hlt & Hbefore)].
        -- exists 0%nat. rewrite Hf, Hs. cbn.
           split; [reflexivity|]. split; [lia|]. split; [lra|].
           intros; lia.
        -- exists (S j). cbn [lookup list_lookup]. rewrite Hs.
           split; [exact Hj|]. split; [lia|]. split; [lra|].
           intros [|j'] x Hlt' Hx; cbn in Hx.
           ++ injection Hx as <-. exact Hlt.
           ++ apply (Hbefore j'); [lia | exact Hx].
    + specialize (IH (S n) mx b). cbv zeta in IH.
      destruct IH as [Hall Hcase]. split.
      * intros [|j] x Hx; cbn in Hx.
        -- injection Hx as <-.
           destruct Hcase as [[-> _] | (j & _ & _ & Hlt & _)]; lra.
        -- eauto.
      * destruct Hcase as [Hsame | (j & Hj & Hs & Hlt & Hbefore)];
          [left; exact Hsame|].
        right. exists (S j). cbn [lookup list_lookup]. rewrite Hs.
        split; [exact Hj|]. split; [lia|]. split; [exact Hlt|].
        intros [|j'] x Hlt' Hx; cbn in Hx.
        -- injection Hx as <-. lra.
        -- apply (Hbefore j'); [lia | exact Hx].
Qed.

(** The peak search of [fft_realtime_analysis] over a half spectrum whose
    levels are all above the start value -200 (as the limited levels are):
    it returns a bin between 1 and N/2 - 1 and the level of that bin, no
    bin from 1 on has a higher level, and every bin before it has a lower
    one, so that of several equal peaks the first is reported.  The DC bin
    is never looked at. *)
Theorem find_peak_is_first_maximum (magnitude_db : list R) :
  length magnitude_db = (FFT_SIZE / 2)%nat ->
  Forall (fun x => -200 < x) magnitude_db ->
  let max_magnitude := fst (find_peak magnitude_db) in
  let max_bin := snd (find_peak magnitude_db) in
  (1 <= max_bin < FFT_SIZE / 2)%nat
  /\ magnitude_db !! max_bin = Some max_magnitude
  /\ (forall (j : nat) (x : R),
        (1 <= j)%nat -> magnitude_db !! j = Some x -> x <= max_magnitude)
  /\ (forall (j : nat) (x : R),
        (1 <= j < max_bin)%nat -> magnitude_db !! j = Some x ->
        x < max_magnitude).
Proof.
  intros Hlen Hall. cbv zeta. unfold find_peak.
  rewrite take_ge by (rewrite Hlen; reflexivity).
  pose proof (peak_search_spec (drop 1 magnitude_db) 1 (-200) 1) as Hs.
  cbv zeta in Hs. destruct Hs as [Hmax Hcase].
  set (res := peak_search (drop 1 magnitude_db) 1 (-200) 1) in *.
  assert (Hdrop : forall j, drop 1 magnitude_db !! j
                            = magnitude_db !! (S j))
    by (intros j; now rewrite lookup_drop).
  destruct Hcase as [[Hf _] | (j & Hj & Hb & _ & Hbefore)].
  - exfalso.
    destruct (magnitude_db !! 1%nat) as [x|] eqn:Hx.
    + assert (Hx' := Hx). rewrite <- Hdrop in Hx'.
      apply Hmax in Hx'. rewrite Hf in Hx'.
      rewrite Forall_lookup in Hall. specialize (Hall _ _ Hx). cbn in Hall.
      lra.
    + apply lookup_ge_None in Hx. rewrite Hlen in Hx.
      change (FFT_SIZE / 2)%nat with 512%nat in Hx. lia.
  - rewrite Hdrop in Hj. rewrite Hb.
    split; [|split; [exact Hj|split]].
    + apply lookup_lt_Some in Hj. rewrite Hlen in Hj. lia.
    + intros [|i] x Hi Hx; [lia|]. apply (Hmax i). now rewrite Hdrop.
    + intros [|i] x Hi Hx; [lia|]. apply (Hbefore i); [lia|].
      now rewrite Hdrop.
Qed.

Lemma find_peak_is_first_maximum_witness :
  (length (repeat (-100)%R (FFT_SIZE / 2)) = (FFT_SIZE / 2)%nat
   /\ Forall (fun x => -200 < x) (repeat (-100)%R (FFT_SIZE / 2)))
  /\ (1 <= snd (find_peak (repeat (-100)%R (FFT_SIZE / 2))) < FFT_SIZE / 2)%nat.
Proof.
  assert (Hl : length (repeat (-100)%R (FFT_SIZE / 2)) = (FFT_SIZE / 2)%nat)
    by apply repeat_length.
  assert (Hf : Forall (fun x => -200 < x) (repeat (-100)%R (FFT_SIZE / 2))).
  { apply Forall_forall. intros x Hx. apply list_elem_of_In in Hx.
    apply repeat_spec in Hx. subst x. lra. }
  split; [auto|].
  exact (proj1 (find_peak_is_first_maximum _ Hl Hf)).
Defined.

End PipelineFacts.

(** * Properties of the main loop under completion interrupts *)

Module CoordinatorFacts.
Import Config Acquisition AcquisitionFacts Calibration CalibrationFacts.
Import Pipeline Coordinator AcquisitionMore.

#[local] Arguments wrap32 : simpl never.
#[local] Arguments Z.pow : simpl never.
#[local] Arguments fill_list : simpl never.
#[local] Arguments frame_of : simpl never.
#[local] Arguments loop_trace : simpl never.
#[local] Arguments Z.of_nat : simpl never.

(** *** The handler and the buffers *)

Lemma Inv_coherent (w : world) :
  Inv w ->
  (dma_busy w = true ->
   mode w = ADC_MODE_DMA /\ dma_write_addr w = current_buffer w) ->
  coherent w /\ flag_ok w.
Proof.
  intros [Hc Hr Hf _ _ _ _ Hp Hq] HJ. split; [constructor; assumption|].
  exact Hf.
Qed.

(** The loop starts in such a state: after an initialisation that found the
    channel at rest and any calls other than a new initialisation or a
    direct call of the internal swap. *)
Lemma service_coherent (m : adc_sampling_mode_t) (ok : bool) (claimed : Z)
  (w0 : world) (ops : list op) :
  dma_busy w0 = false ->
  forallb in_service ops = true ->
  coherent (run ops (snd (adc_sampling_init m ok claimed w0)))
  /\ flag_ok (run ops (snd (adc_sampling_init m ok claimed w0))).
Proof.
  intros Hb Hs.
  destruct (in_service_run m ops _ Hs (Inv_init m ok claimed w0)
              (in_service_init m ok claimed w0 Hb)) as (HI & _ & HJ & _).
  now apply Inv_coherent.
Qed.

Lemma completion_spec (adc : nat -> Z) (now : Z) (w : world) :
  coherent w ->
  let w' := step (OpDmaComplete adc now) w in
  coherent w'
  /\ fft_ready w' = fft_ready w
  /\ mode w' = mode w
  /\ sampling_active w' = sampling_active w
  /\ dma_busy w' = dma_busy w
  /\ (dma_busy w = false -> w' = w)
  /\ (dma_busy w = true ->
      data_ready w' = true
      /\ ready_buffer w' = current_buffer w
      /\ ready_buffer w' <> NULL
      /\ deref (ready_buffer w') w' = Some (frame_of adc)
      /\ buffer_overruns w'
         = if data_ready w then wrap32 (buffer_overruns w + 1)
           else buffer_overruns w).
Proof.
  intros Hw. pose proof Hw as [Hc Hr Hp Hq HJ]. cbn [step].
  destruct (dma_busy w) eqn:Hb.
  - destruct (HJ eq_refl) as [Hm Ha]. clear Hw. unfold dma_fill.
    rewrite Ha, Hc.
    split_world w. cbn in *. subst.
    destruct buffer_selector0, data_ready0; cbn;
      (split; [constructor; cbn; autorewrite with inv_rw; auto|]);
      repeat split; auto; discriminate.
  - split; [exact Hw|]. repeat split; auto; discriminate.
Qed.

Lemma serve_spec (pending : list irq) : forall w : world,
  coherent w ->
  let w' := serve pending w in
  coherent w'
  /\ fft_ready w' = fft_ready w
  /\ mode w' = mode w
  /\ sampling_active w' = sampling_active w
  /\ dma_busy w' = dma_busy w
  /\ (dma_busy w = false -> w' = w)
  /\ (data_ready w = true -> data_ready w' = true)
  /\ (flag_ok w -> flag_ok w')
  /\ (pending <> [] -> dma_busy w = true ->
      data_ready w' = true /\ ready_buffer w' <> NULL).
Proof.
  induction pending as [|[adc now] rest IH]; intros w Hw.
  - cbn. split; [exact Hw|]. repeat split; auto; congruence.
  - change (serve ((adc, now) :: rest) w)
      with (serve rest (step (OpDmaComplete adc now) w)).
    destruct (completion_spec adc now w Hw)
      as (Hw1 & Hf1 & Hm1 & Hs1 & Hb1 & Hid1 & Hbusy1).
    cbv zeta in *.
    set (w1 := step (OpDmaComplete adc now) w) in *.
    destruct (IH w1 Hw1) as (Hw2 & Hf2 & Hm2 & Hs2 & Hb2 & Hid2 & Hd2 & Hfl2
                             & Hne2).
    cbv zeta in *.
    assert (Hfl1 : flag_ok w -> flag_ok w1).
    { intros Hfl. destruct (dma_busy w) eqn:Hb.
      - destruct (Hbusy1 eq_refl) as (_ & _ & Hn & _). intros _. exact Hn.
      - now rewrite (Hid1 eq_refl). }
    assert (Hd1 : data_ready w = true -> data_ready w1 = true).
    { intros Hd. destruct (dma_busy w) eqn:Hb.
      - now destruct (Hbusy1 eq_refl).
      - now rewrite (Hid1 eq_refl). }
    split; [exact Hw2|]. split; [congruence|]. split; [congruence|].
    split; [congruence|]. split; [congruence|].
    split; [intros Hb; rewrite Hid2 by congruence; now apply Hid1|].
    split; [auto|]. split; [auto|].
    intros _ Hb. destruct (Hbusy1 Hb) as (Hd & _ & Hn & _).
    split; [auto|]. apply Hfl2; [|auto]. intros _. exact Hn.
Qed.

(** *** The transfer and the reader *)

Lemma no_completion_in_service o :
  no_completion o = true -> in_service o = true.
Proof. destruct o; auto. Qed.

Lemma no_completion_step o (w : world) :
  no_completion o = true ->
  mode w = ADC_MODE_DMA ->
  mode (step o w) = ADC_MODE_DMA
  /\ current_buffer (step o w) = current_buffer w.
Proof.
  intros Ho Hm. destruct o; try discriminate Ho; cbn [step].
  - unfold adc_sampling_start. split_world w. cbn in *. subst.
    destruct status0; cbn; auto.
  - unfold adc_sampling_stop. split_world w. cbn in *. subst.
    destruct status0; cbn; destruct (0 <? now - sampling_start_time0);
      cbn; auto.
  - unfold adc_sampling_is_ready. rewrite Hm. cbn. auto.
  - auto.
  - unfold adc_sampling_process_fft.
    destruct (bufptr_eqb (adc_sampling_get_buffer w) NULL); cbn; auto.
  - unfold adc_sampling_complete_processing.
    destruct (data_ready w); cbn; auto.
  - auto.
  - auto.
Qed.

Lemma no_completion_run ops : forall w : world,
  forallb no_completion ops = true ->
  mode w = ADC_MODE_DMA ->
  forallb in_service ops = true
  /\ mode (run ops w) = ADC_MODE_DMA
  /\ current_buffer (run ops w) = current_buffer w.
Proof.
  induction ops as [|o ops IH]; intros w Hq Hm; [cbn; auto|].
  cbn [forallb] in Hq |- *. apply andb_prop in Hq as [Ho Hq].
  change (run (o :: ops) w) with (run ops (step o w)).
  destruct (no_completion_step o w Ho Hm) as [Hm1 Hc1].
  destruct (IH (step o w) Hq Hm1) as (Hs & Hm2 & Hc2).
  rewrite (no_completion_in_service o Ho), Hs. cbn [andb].
  split; [reflexivity|]. split; [exact Hm2|]. now rewrite Hc2.
Qed.

(** The transfer and the reader.  After an initialisation that found the
    channel at rest, along any calls other than a new initialisation or a
    direct call of the internal swap, whenever a transfer is in flight the
    mode is DMA, the transfer writes to the current write target, and this
    is not the buffer that [adc_sampling_get_buffer] returns in that state.
    A buffer [b] handed to the reader stays clear of the transfer through
    all further calls up to the next completion interrupt.  It is not
    protected beyond: if the frame has not been released, the next
    completion counts an overrun and arms the transfer on [b] itself, and
    the completion after that has replaced the contents of [b], whether the
    reader has finished with it or not. *)
Theorem dma_target_versus_reader (m : adc_sampling_mode_t)
  (ok : bool) (claimed : Z) (w0 : world) (ops : list op) :
  dma_busy w0 = false ->
  forallb in_service ops = true ->
  let w := run ops (snd (adc_sampling_init m ok claimed w0)) in
  let b := adc_sampling_get_buffer w in
  dma_busy w = true ->
  (mode w = ADC_MODE_DMA
   /\ dma_write_addr w = current_buffer w
   /\ dma_write_addr w <> NULL
   /\ dma_write_addr w <> b)
  /\ (forall quiet : list op,
        forallb no_completion quiet = true ->
        dma_busy (run quiet w) = true ->
        dma_write_addr (run quiet w) <> b)
  /\ (b <> NULL ->
      forall (adc adc' : nat -> Z) (now now' : Z),
        let w1 := step (OpDmaComplete adc now) w in
        let w2 := step (OpDmaComplete adc' now') w1 in
        dma_busy w1 = true
        /\ dma_write_addr w1 = b
        /\ buffer_overruns w1 = wrap32 (buffer_overruns w + 1)
        /\ adc_sampling_get_buffer w1 <> b
        /\ deref b w2 = Some (frame_of adc')).
Proof.
  intros Hb Hs w b Hbusy.
  destruct (in_service_run m ops _ Hs (Inv_init m ok claimed w0)
              (in_service_init m ok claimed w0 Hb))
    as (HI & Hmode & HJ & Hov).
  fold w in HI, Hmode, HJ, Hov.
  destruct (HJ Hbusy) as [Hm Ha].
  destruct HI as [Hc Hrd Hf Hsc Hoc Hst He Hp Hq].
  assert (Hcb : current_buffer w <> b).
  { unfold b, adc_sampling_get_buffer. rewrite Hc.
    destruct (data_ready w); cbn;
      [|destruct (buffer_selector w); discriminate].
    destruct Hrd as [-> | ->]; destruct (buffer_selector w); discriminate. }
  split; [|split].
  - split; [exact Hm|]. split; [exact Ha|].
    split; [|rewrite Ha; exact Hcb].
    rewrite Ha, Hc. destruct (buffer_selector w); discriminate.
  - intros quiet Hquiet Hbusy'.
    destruct (no_completion_run quiet w Hquiet Hm) as (Hs' & Hm' & Hc').
    assert (HIw : Inv w) by (constructor; assumption).
    destruct (in_service_run m quiet w Hs' HIw
                (conj Hmode (conj HJ Hov))) as (_ & _ & HJ' & _).
    destruct (HJ' Hbusy') as [_ Ha']. rewrite Ha', Hc'. exact Hcb.
  - intros Hnn adc adc' now now'. cbv zeta.
    assert (Hd : data_ready w = true).
    { unfold b, adc_sampling_get_buffer in Hnn.
      destruct (data_ready w); [reflexivity | now cbn in Hnn]. }
    assert (Hrb : ready_buffer w = b)
      by (unfold b, adc_sampling_get_buffer; now rewrite Hd).
    assert (Hcoh : coherent w)
      by (constructor; try assumption; intros _; auto).
    clearbody b. clearbody w.
    destruct (completion_spec adc now w Hcoh)
      as (Hw1 & _ & _ & _ & Hb1 & _ & Hdone1).
    cbv zeta in *. rewrite Hbusy in Hb1.
    destruct (Hdone1 Hbusy) as (Hd1 & Hr1 & _ & _ & Ho1).
    set (w1 := step (OpDmaComplete adc now) w) in *.
    destruct (completion_spec adc' now' w1 Hw1)
      as (_ & _ & _ & _ & _ & _ & Hdone2).
    cbv zeta in *.
    destruct (Hdone2 Hb1) as (_ & Hr2 & _ & Hf2 & _).
    pose proof Hw1 as [Hc1 Hrd1 _ _ HJ1].
    destruct (HJ1 Hb1) as [_ Ha1].
    assert (Hcur : current_buffer w1 = b).
    { rewrite Hc1. rewrite Hr1, Hc in Hrd1. rewrite Hc in Hcb.
      destruct Hrd as [Hn | Hother]; [congruence|].
      rewrite <- Hrb, Hother.
      destruct (buffer_selector w), (buffer_selector w1);
        destruct Hrd1 as [? | ?]; congruence. }
    split; [exact Hb1|]. split; [congruence|].
    split; [now rewrite Ho1, Hd|]. split.
    + unfold adc_sampling_get_buffer. rewrite Hd1. cbn [negb].
      rewrite Hr1. exact Hcb.
    + rewrite <- Hcur, <- Hr2. exact Hf2.
Qed.

Lemma dma_target_versus_reader_witness :
  (dma_busy power_on = false /\
   forallb in_service [OpStart 0; OpDmaComplete ramp 8000] = true /\
   dma_busy dma_one_frame = true /\
   adc_sampling_get_buffer dma_one_frame <> NULL /\
   forallb no_completion [OpProcessFft; OpCompleteProcessing] = true /\
   dma_busy (run [OpProcessFft; OpCompleteProcessing] dma_one_frame) = true)
  /\ dma_write_addr dma_one_frame <> adc_sampling_get_buffer dma_one_frame
  /\ dma_write_addr (run [OpProcessFft; OpCompleteProcessing] dma_one_frame)
     <> adc_sampling_get_buffer dma_one_frame
  /\ dma_write_addr (step (OpDmaComplete ramp 16000) dma_one_frame)
     = adc_sampling_get_buffer dma_one_frame.
Proof.
  unfold dma_one_frame.
  assert (Hb : dma_busy power_on = false) by reflexivity.
  assert (Hs : forallb in_service [OpStart 0; OpDmaComplete ramp 8000]
               = true) by reflexivity.
  assert (Hbusy : dma_busy
                    (run [OpStart 0; OpDmaComplete ramp 8000]
                       (snd (adc_sampling_init ADC_MODE_DMA true 0
                               power_on))) = true)
    by (vm_compute; reflexivity).
  assert (Hnn : adc_sampling_get_buffer
                  (run [OpStart 0; OpDmaComplete ramp 8000]
                     (snd (adc_sampling_init ADC_MODE_DMA true 0
                             power_on))) <> NULL)
    by (vm_compute; discriminate).
  assert (Hq : forallb no_completion [OpProcessFft; OpCompleteProcessing]
               = true) by reflexivity.
  assert (Hbusy' : dma_busy
                     (run [OpProcessFft; OpCompleteProcessing]
                        (run [OpStart 0; OpDmaComplete ramp 8000]
                           (snd (adc_sampling_init ADC_MODE_DMA true 0
                                   power_on)))) = true)
    by (vm_compute; reflexivity).
  split; [auto 10|].
  pose proof (dma_target_versus_reader ADC_MODE_DMA true 0 power_on
                [OpStart 0; OpDmaComplete ramp 8000] Hb Hs) as H.
  cbv zeta in H. destruct (H Hbusy) as ((_ & _ & _ & H1) & H2 & H3).
  split; [exact H1|]. split; [exact (H2 _ Hq Hbusy')|].
  destruct (H3 Hnn ramp ramp 16000 24000) as (_ & H4 & _). exact H4.
Defined.

Lemma coherent_fft_ready (v : bool) (w : world) :
  coherent w -> coherent (upd (set_fft_ready v) w).
Proof.
  intros [Hc Hr Hp Hq HJ]. split_world w. constructor; cbn in *; auto.
Qed.

Lemma coherent_emit (e : event) (w : world) :
  coherent w -> coherent (emit e w).
Proof.
  intros [Hc Hr Hp Hq HJ]. split_world w. constructor; cbn in *; auto.
Qed.

Lemma coherent_clear_flag (w : world) :
  coherent w ->
  coherent (emit (EvStoreDataReady false) (upd (set_data_ready false) w)).
Proof.
  intros [Hc Hr Hp Hq HJ]. split_world w. constructor; cbn in *; auto.
Qed.

Lemma coherent_clear_ready (w : world) :
  coherent w -> coherent (upd (set_ready_buffer NULL) w).
Proof.
  intros [Hc Hr Hp Hq HJ]. split_world w. constructor; cbn in *; auto.
Qed.

(** *** [adc_sampling_process_fft] *)

Lemma process_fft_bin_floor (c : kiss_fft_cpx) :
  (-200 <= process_fft_bin c)%R.
Proof.
  unfold process_fft_bin, process_fft_db.
  set (v := (process_fft_magnitude c * ADC_VOLTAGE_PER_BIT)%R).
  destruct (Rgt_dec v (1 / 10 ^ 10)) as [Hv | _]; [|lra].
  destruct (level_above_floor 10 v Hv) as [_ Hl].
  change (INR 10) with (1+1+1+1+1+1+1+1+1+1)%R in Hl. lra.
Qed.

Lemma process_fft_arrays_spec
  (kiss_fft : list kiss_fft_cpx -> list kiss_fft_cpx) (seen : list Z) :
  (forall (n : nat) (c : kiss_fft_cpx),
     fft_input (process_fft_arrays kiss_fft seen) !! n = Some c ->
     i c = 0%R)
  /\ Forall (fun m => (-200 <= m)%R)
       (magnitude (process_fft_arrays kiss_fft seen))
  /\ (length seen = ADC_SAMPLING_FFT_SIZE ->
      length (fft_input (process_fft_arrays kiss_fft seen))
      = ADC_SAMPLING_FFT_SIZE
      /\ ((forall x, length (kiss_fft x) = length x) ->
          length (magnitude (process_fft_arrays kiss_fft seen))
          = (ADC_SAMPLING_FFT_SIZE / 2)%nat)).
Proof.
  unfold process_fft_arrays. cbn [fft_input magnitude].
  split; [|split].
  - intros n c. unfold _adc_apply_window_function.
    rewrite list_lookup_imap.
    destruct (take ADC_SAMPLING_FFT_SIZE seen !! n); [|discriminate].
    cbn. intros [= <-]. reflexivity.
  - unfold process_fft_spectrum. apply Forall_map, Forall_forall.
    intros c _. apply process_fft_bin_floor.
  - intros Hlen.
    assert (Hin : length (_adc_apply_window_function FFT_WINDOW_TYPE seen)
                  = ADC_SAMPLING_FFT_SIZE).
    { unfold _adc_apply_window_function.
      rewrite length_imap, length_take, Hlen. apply Nat.min_id. }
    split; [exact Hin|]. intros Hk. unfold process_fft_spectrum.
    rewrite length_map, length_take, Hk, Hin. reflexivity.
Qed.



(** *** The pieces of a turn *)

Lemma poll_spec (adc : nat -> Z) (t0 t1 t2 : Z) (w : world) :
  coherent w ->
  let w1 := snd (adc_sampling_is_ready adc t0 t1 t2 w) in
  coherent w1
  /\ fst (adc_sampling_is_ready adc t0 t1 t2 w) = data_ready w1
  /\ dma_busy w1 = dma_busy w
  /\ (data_ready w = true -> w1 = w)
  /\ (mode w = ADC_MODE_DMA -> w1 = w)
  /\ (flag_ok w -> flag_ok w1)
  /\ (mode w = ADC_MODE_MANUAL -> sampling_active w = true ->
      data_ready w = false ->
      data_ready w1 = true
      /\ deref (ready_buffer w1) w1 = Some (frame_of adc)).
Proof.
  intros Hw. pose proof Hw as [Hc Hr Hp Hq HJ].
  unfold adc_sampling_is_ready.
  destruct (mode_eqb (mode w) ADC_MODE_MANUAL && sampling_active w
            && negb (data_ready w)) eqn:Hcond; cbn [fst snd].
  2:{ split; [exact Hw|]. split; [reflexivity|]. split; [reflexivity|].
      split; [auto|]. split; [auto|]. split; [auto|].
      intros Hm Ha Hd. rewrite Hm, Ha, Hd in Hcond. discriminate. }
  apply andb_prop in Hcond as [Hcond Hd]. apply andb_prop in Hcond as [Hm Ha].
  assert (Hb : dma_busy w = false).
  { destruct (dma_busy w); [|reflexivity].
    destruct (HJ eq_refl) as [Hm' _]. rewrite Hm' in Hm. discriminate. }
  clear Hw HJ.
  unfold _adc_manual_sample_buffer. rewrite manual_sample_loop_spec.
  unfold flag_ok.
  split_world w. cbn in *. subst.
  destruct data_ready0; [discriminate|]. destruct mode0; [|discriminate].
  destruct buffer_selector0; case_ifs; cbn;
    rewrite ?fill_list_full by assumption;
    (split; [constructor; cbn; autorewrite with inv_rw; auto;
             intros; discriminate|]);
    repeat split; auto; intros; discriminate.
Qed.

Lemma release_spec (i1 i2 i3 : list irq) (w : world) :
  coherent w ->
  let w' := adc_sampling_complete_processing_irq i1 i2 i3 w in
  coherent w'
  /\ dma_busy w' = dma_busy w
  /\ (data_ready w = false -> w' = w)
  /\ (i2 = [] -> i3 = [] -> flag_ok w')
  /\ (data_ready w = true -> i2 = [] -> i3 = [] ->
      data_ready w' = false /\ ready_buffer w' = NULL
      /\ fft_ready w' = false)
  /\ (data_ready w = true -> dma_busy w = true -> i2 ++ i3 <> [] ->
      data_ready w' = true /\ ready_buffer w' = NULL).
Proof.
  intros Hw. unfold adc_sampling_complete_processing_irq.
  destruct (data_ready w) eqn:Hd.
  2:{ split; [exact Hw|]. split; [reflexivity|]. split; [reflexivity|].
      split; [intros _ _ Hd'; congruence|].
      split; intros; discriminate. }
  destruct (serve_spec i1 w Hw) as (Hw1 & _ & _ & _ & Hb1 & _).
  cbv zeta in *. set (w1 := serve i1 w) in *.
  pose proof (coherent_clear_flag w1 Hw1) as Hw2.
  set (w2 := emit (EvStoreDataReady false) (upd (set_data_ready false) w1))
    in *.
  assert (Hb2 : dma_busy w2 = dma_busy w1)
    by (unfold w2; now destruct w1 as [[] ? ? ? ?]).
  assert (Hd2 : data_ready w2 = false)
    by (unfold w2; now destruct w1 as [[] ? ? ? ?]).
  destruct (serve_spec i2 w2 Hw2)
    as (Hw3 & _ & _ & _ & Hb3 & _ & Hd3 & _ & Hne3).
  cbv zeta in *. set (w3 := serve i2 w2) in *.
  pose proof (coherent_fft_ready false w3 Hw3) as Hw4.
  set (w4 := upd (set_fft_ready false) w3) in *.
  assert (Hb4 : dma_busy w4 = dma_busy w3)
    by (unfold w4; now destruct w3 as [[] ? ? ? ?]).
  assert (Hd4 : data_ready w4 = data_ready w3)
    by (unfold w4; now destruct w3 as [[] ? ? ? ?]).
  destruct (serve_spec i3 w4 Hw4)
    as (Hw5 & Hf5 & _ & _ & Hb5 & _ & Hd5 & _ & Hne5).
  cbv zeta in *. set (w5 := serve i3 w4) in *.
  assert (Hd6 : data_ready (upd (set_ready_buffer NULL) w5) = data_ready w5)
    by (now destruct w5 as [[] ? ? ? ?]).
  assert (Hr6 : ready_buffer (upd (set_ready_buffer NULL) w5) = NULL)
    by (now destruct w5 as [[] ? ? ? ?]).
  assert (Hb6 : dma_busy (upd (set_ready_buffer NULL) w5) = dma_busy w5)
    by (now destruct w5 as [[] ? ? ? ?]).
  assert (Hf6 : fft_ready (upd (set_ready_buffer NULL) w5) = fft_ready w5)
    by (now destruct w5 as [[] ? ? ? ?]).
  assert (Hquiet : i2 = [] -> i3 = [] ->
                   data_ready w5 = false /\ fft_ready w5 = false).
  { intros -> ->. subst w5 w3. cbn [serve fold_left].
    split; [now rewrite Hd4|]. unfold w4. now destruct w2 as [[] ? ? ? ?]. }
  split; [now apply coherent_clear_ready|].
  split; [congruence|]. split; [discriminate|].
  split; [|split].
  - intros E2 E3 Hd'. rewrite Hd6 in Hd'.
    destruct (Hquiet E2 E3). congruence.
  - intros _ E2 E3. destruct (Hquiet E2 E3) as [Hq1 Hq2].
    rewrite Hd6, Hf6. auto.
  - intros _ Hb Hne. split; [|exact Hr6]. rewrite Hd6.
    destruct i3 as [|q i3].
    + rewrite app_nil_r in Hne. subst w5. cbn [serve fold_left].
      rewrite Hd4. apply Hne3; [exact Hne | congruence].
    + apply Hne5; [discriminate | congruence].
Qed.

Lemma process_fft_irq_control
  (kiss_fft : list kiss_fft_cpx -> list kiss_fft_cpx)
  (ig iw it : list irq) (torn : list Z) (a : fft_arrays) (w : world) :
  coherent w ->
  let res := adc_sampling_process_fft_irq kiss_fft ig iw it torn a w in
  coherent (snd res)
  /\ dma_busy (snd res) = dma_busy w
  /\ (flag_ok w -> fst (fst res) = data_ready w)
  /\ (fst (fst res) = false ->
      snd (fst res) = a /\ snd res = w
      /\ (data_ready w = false \/ ready_buffer w = NULL))
  /\ (fst (fst res) = true ->
      fft_ready (snd res) = true /\ data_ready (snd res) = true
      /\ exists seen : list Z, snd (fst res) = process_fft_arrays kiss_fft seen).
Proof.
  intros Hw. cbv zeta.
  unfold adc_sampling_process_fft_irq, adc_sampling_get_buffer_irq.
  destruct (data_ready w) eqn:Hd; cbn [negb].
  2:{ cbn. split; [exact Hw|]. repeat split; auto; discriminate. }
  destruct (serve_spec ig w Hw)
    as (Hw1 & _ & _ & _ & Hb1 & Hid1 & Hd1 & Hfl1 & Hne1).
  cbv zeta in *. set (w1 := serve ig w) in *.
  destruct (serve_spec iw w1 Hw1) as (Hw2 & _ & _ & _ & Hb2 & _ & Hd2 & _).
  cbv zeta in *. set (w2 := serve iw w1) in *.
  destruct (serve_spec it w2 Hw2) as (Hw3 & _ & _ & _ & Hb3 & _ & Hd3 & _).
  cbv zeta in *. set (w3 := serve it w2) in *.
  specialize (Hd1 Hd). specialize (Hd2 Hd1). specialize (Hd3 Hd2).
  assert (Hnull : ready_buffer w1 = NULL -> w1 = w /\ ready_buffer w = NULL).
  { intros Hn. destruct (dma_busy w) eqn:Hb.
    - destruct ig as [|q ig]; [now subst w1|].
      destruct (Hne1 ltac:(discriminate) eq_refl) as [_ Hc]. congruence.
    - rewrite Hid1 in Hn |- * by reflexivity. auto. }
  assert (Hup : fft_ready (upd (set_fft_ready true) w3) = true
                /\ data_ready (upd (set_fft_ready true) w3) = data_ready w3
                /\ dma_busy (upd (set_fft_ready true) w3) = dma_busy w3)
    by (now destruct w3 as [[] ? ? ? ?]).
  destruct Hup as (Hu1 & Hu2 & Hu3).
  destruct (ready_buffer w1) eqn:Hrb; cbn [bufptr_eqb fst snd].
  - destruct (Hnull eq_refl) as [Hw1w Hrw].
    split; [now rewrite Hw1w|]. split; [now rewrite Hw1w|]. split.
    { intros Hfl. exfalso. now apply (Hfl Hd). }
    split; [auto | discriminate].
  - split; [now apply coherent_fft_ready|]. split; [congruence|].
    split; [reflexivity|]. split; [discriminate|].
    intros _. split; [exact Hu1|]. split; [congruence|]. eauto.
  - split; [now apply coherent_fft_ready|]. split; [congruence|].
    split; [reflexivity|]. split; [discriminate|].
    intros _. split; [exact Hu1|]. split; [congruence|]. eauto.
Qed.

Lemma sleep_spec (t : turn) (w : world) :
  coherent w ->
  let w' :=
    serve (at_sleep t)
      match frame_sleep (frame_end t - frame_start t) with
      | Some us => emit (EvSleepUs us) w
      | None => w
      end in
  coherent w' /\ (flag_ok w -> flag_ok w')
  /\ (at_sleep t = [] ->
      data_ready w' = data_ready w /\ ready_buffer w' = ready_buffer w).
Proof.
  intros Hw.
  assert (He : forall e,
             coherent (emit e w) /\ (flag_ok w -> flag_ok (emit e w))
             /\ data_ready (emit e w) = data_ready w
             /\ ready_buffer (emit e w) = ready_buffer w).
  { intros e. split; [now apply coherent_emit|].
    unfold flag_ok. now destruct w as [[] ? ? ? ?]. }
  destruct (frame_sleep (frame_end t - frame_start t)) as [us|].
  - destruct (He (EvSleepUs us)) as (H1 & H2 & H3 & H4).
    destruct (serve_spec (at_sleep t) _ H1) as (H5 & _ & _ & _ & _ & _ & _
                                                & H6 & _).
    cbv zeta in *. split; [exact H5|]. split; [auto|].
    intros ->. cbn. auto.
  - destruct (serve_spec (at_sleep t) _ Hw) as (H5 & _ & _ & _ & _ & _ & _
                                                & H6 & _).
    cbv zeta in *. split; [exact H5|]. split; [auto|].
    intros ->. cbn. auto.
Qed.

(** One turn, wherever the completions fall. *)
Lemma turn_spec (kiss_fft : list kiss_fft_cpx -> list kiss_fft_cpx)
  (t : turn) (s : loop_state) :
  coherent (loop_world s) ->
  let s' := unified_iteration kiss_fft t s in
  coherent (loop_world s')
  /\ last_frame_time (loop_counters s') = frame_end t
  /\ ((frame_count (loop_counters s') = frame_count (loop_counters s)
       /\ error_count (loop_counters s') = error_count (loop_counters s)
       /\ published (loop_counters s') = published (loop_counters s)
       /\ loop_arrays s' = loop_arrays s
       /\ data_ready (serve (at_poll t) (loop_world s)) = false)
      \/ (frame_count (loop_counters s')
          = wrap32 (frame_count (loop_counters s) + 1)
          /\ error_count (loop_counters s') = error_count (loop_counters s)
          /\ exists seen : list Z,
               loop_arrays s' = process_fft_arrays kiss_fft seen
               /\ published (loop_counters s')
                  = published (loop_counters s)
                    ++ [fft_realtime_unified_update_display
                          (magnitude (process_fft_arrays kiss_fft seen))])
      \/ (frame_count (loop_counters s') = frame_count (loop_counters s)
          /\ error_count (loop_counters s')
             = wrap32 (error_count (loop_counters s) + 1)
          /\ published (loop_counters s') = published (loop_counters s)
          /\ loop_arrays s' = loop_arrays s
          /\ ~ flag_ok (serve (at_poll t) (loop_world s))))
  /\ (flag_ok (loop_world s) -> quiet_release t -> flag_ok (loop_world s')).
Proof.
  intros Hw. destruct s as [c a w].
  cbn [loop_counters loop_arrays loop_world] in *. cbv zeta.
  unfold unified_iteration. cbn [loop_counters loop_arrays loop_world].
  destruct (serve_spec (at_poll t) w Hw)
    as (Hw1 & _ & _ & _ & _ & _ & _ & Hfl1 & _).
  cbv zeta in *. set (w1 := serve (at_poll t) w) in *.
  destruct (poll_spec (samples t) (poll_start t) (poll_end t) (poll_done t)
              w1 Hw1) as (Hw2 & Hready & _ & Hsame & _ & Hfl2 & _).
  cbv zeta in *.
  destruct (adc_sampling_is_ready (samples t) (poll_start t) (poll_end t)
              (poll_done t) w1) as [ready w2].
  cbn [fst snd] in *.
  destruct ready.
  - destruct (serve_spec (at_process t) w2 Hw2)
      as (Hw3 & _ & _ & _ & _ & _ & Hd3 & Hfl3 & _).
    cbv zeta in *. set (w3 := serve (at_process t) w2) in *.
    destruct (process_fft_irq_control kiss_fft (at_get_buffer t)
                (at_window t) (at_transform t) (torn t) a w3 Hw3)
      as (Hw4 & _ & Hok & Hfail & Hsucc).
    cbv zeta in *.
    destruct (adc_sampling_process_fft_irq kiss_fft (at_get_buffer t)
                (at_window t) (at_transform t) (torn t) a w3)
      as [[ok a'] w4].
    cbn [fst snd] in *.
    destruct ok.
    + destruct (Hsucc eq_refl) as (Hf4 & Hd4 & seen & ->).
      unfold adc_sampling_get_magnitude_spectrum. rewrite Hf4. cbn [negb].
      destruct (serve_spec (at_display t) w4 Hw4) as (Hw5 & _).
      cbv zeta in *. set (w5 := serve (at_display t) w4) in *.
      destruct (release_spec (at_release_test t) (at_release_flag t)
                  (at_release_fft t) w5 Hw5) as (Hw6 & _ & _ & Hfl6 & _).
      cbv zeta in *.
      set (w6 := adc_sampling_complete_processing_irq _ _ _ w5) in *.
      destruct (sleep_spec t w6 Hw6) as (Hw7 & Hfl7 & _).
      cbv zeta in *. cbn [loop_counters loop_arrays loop_world
                          frame_count error_count published
                          last_frame_time].
      split; [exact Hw7|]. split; [reflexivity|]. split.
      * right. left. split; [reflexivity|]. split; [reflexivity|].
        exists seen. auto.
      * intros _ [E2 E3]. auto.
    + destruct (Hfail eq_refl) as (-> & -> & _).
      destruct (sleep_spec t w3 Hw3) as (Hw7 & Hfl7 & _).
      cbv zeta in *. cbn [loop_counters loop_arrays loop_world
                          frame_count error_count published
                          last_frame_time].
      assert (Hbad : ~ flag_ok w1).
      { intros Hfl. specialize (Hok (Hfl3 (Hfl2 Hfl))).
        rewrite Hd3 in Hok by congruence. discriminate. }
      split; [exact Hw7|]. split; [reflexivity|]. split.
      * right. right. auto 6.
      * intros Hfl. exfalso. auto.
  - destruct (sleep_spec t w2 Hw2) as (Hw7 & Hfl7 & _).
    cbv zeta in *. cbn [loop_counters loop_arrays loop_world
                        frame_count error_count published last_frame_time].
    split; [exact Hw7|]. split; [reflexivity|]. split.
    + left. repeat split; auto.
      destruct (data_ready w1) eqn:Hd1; [|reflexivity].
      rewrite (Hsame eq_refl) in Hready. congruence.
    + intros Hfl _. auto.
Qed.

Lemma display_levels_floor (magnitude_spectrum : list R) :
  Forall (fun m => (-200 <= m)%R) magnitude_spectrum ->
  Forall (fun m => (-200 <= m)%R)
    (fft_realtime_unified_update_display magnitude_spectrum).
Proof.
  intros Hall. unfold fft_realtime_unified_update_display, corrected_spectrum.
  change (fft_realtime_unified_get_window_correction FFT_WINDOW_TYPE)
    with (1 / 1)%R.
  replace (1 / 1)%R with 1%R by field. rewrite log10f_1.
  apply Forall_map. apply Forall_take.
  apply (Forall_impl _ _ _ Hall). intros m Hm. cbn. lra.
Qed.

Lemma wrap32_succ (x : Z) (n : nat) (y : Z) :
  wrap32 y = wrap32 (wrap32 (x + 1) + Z.of_nat n) ->
  wrap32 y = wrap32 (x + Z.of_nat (S n)).
Proof.
  intros ->. unfold wrap32. rewrite Zplus_mod_idemp_l.
  f_equal. lia.
Qed.

(** *** The loop *)

(** The main loop of [fft_realtime_unified_run], over any number of
    turns and wherever completion interrupts are served in them.  The
    buffers stay coherent: the selector names the write target, a ready
    buffer is the other one, a transfer in flight writes to the write
    target.  Every turn hands at most one array to the display or counts at
    most one error, the counters advance accordingly (modulo 2^32), and no
    level handed over is below the sentinel -200.  If a raised flag comes
    with a buffer at the start and no completion is served between the
    stores of [adc_sampling_complete_processing] in any turn, no turn takes
    the error branch and a raised flag comes with a buffer at the end. *)
Theorem unified_run_under_interrupts
  (kiss_fft : list kiss_fft_cpx -> list kiss_fft_cpx)
  (turns : list turn) (s : loop_state) :
  coherent (loop_world s) ->
  let s' := unified_run kiss_fft turns s in
  coherent (loop_world s')
  /\ (exists (spectra : list (list R)) (errors : nat),
        published (loop_counters s')
        = published (loop_counters s) ++ spectra
        /\ (length spectra + errors <= length turns)%nat
        /\ Forall (Forall (fun m => (-200 <= m)%R)) spectra
        /\ wrap32 (frame_count (loop_counters s'))
           = wrap32 (frame_count (loop_counters s)
                     + Z.of_nat (length spectra))
        /\ wrap32 (error_count (loop_counters s'))
           = wrap32 (error_count (loop_counters s) + Z.of_nat errors)
        /\ (flag_ok (loop_world s) -> Forall quiet_release turns ->
            errors = 0%nat
            /\ error_count (loop_counters s')
               = error_count (loop_counters s)))
  /\ (flag_ok (loop_world s) -> Forall quiet_release turns ->
      flag_ok (loop_world s')).
Proof.
  revert s. induction turns as [|t turns IH]; intros s Hw.
  - cbn. split; [exact Hw|]. split; [|auto].
    exists [], 0%nat. rewrite app_nil_r, !Z.add_0_r. cbn.
    repeat split; auto.
  - change (unified_run kiss_fft (t :: turns) s)
      with (unified_run kiss_fft turns (unified_iteration kiss_fft t s)).
    destruct (turn_spec kiss_fft t s Hw) as (Hw1 & _ & Hcase & Hfl1).
    cbv zeta in *. set (s1 := unified_iteration kiss_fft t s) in *.
    destruct (IH s1 Hw1) as (Hw' & (spectra & errors & Hpub & Hlen & Hlev
                                    & Hfc & Hec & Hquiet) & Hfl').
    cbv zeta in *. set (s' := unified_run kiss_fft turns s1) in *.
    assert (Hserve : flag_ok (loop_world s) ->
                     flag_ok (serve (at_poll t) (loop_world s))).
    { intros Hfl. now apply (serve_spec (at_poll t) (loop_world s) Hw). }
    split; [exact Hw'|]. split.
    2:{ intros Hfl Hq. inversion Hq as [|? ? Hq1 Hq2]; subst. auto. }
    destruct Hcase as [(Ef & Ee & Ep & _) | [(Ef & Ee & seen & Ea & Ep)
                                            | (Ef & Ee & Ep & _ & Hbad)]].
    + exists spectra, errors. rewrite Hpub, Ep.
      split; [reflexivity|]. split; [cbn [length]; lia|].
      split; [exact Hlev|]. split; [now rewrite Hfc, Ef|].
      split; [now rewrite Hec, Ee|].
      intros Hfl Hq. inversion Hq as [|? ? Hq1 Hq2]; subst.
      destruct (Hquiet (Hfl1 Hfl Hq1) Hq2) as [H1 H2].
      split; [exact H1 | congruence].
    + exists (fft_realtime_unified_update_display
                (magnitude (process_fft_arrays kiss_fft seen)) :: spectra),
        errors.
      rewrite Hpub, Ep, <- app_assoc, Hec, Ee. cbn [length app].
      split; [reflexivity|]. split; [lia|]. split.
      { constructor; [|exact Hlev]. apply display_levels_floor.
        apply (process_fft_arrays_spec kiss_fft seen). }
      split; [apply wrap32_succ; now rewrite Hfc, Ef|].
      split; [reflexivity|].
      intros Hfl Hq. inversion Hq as [|? ? Hq1 Hq2]; subst.
      destruct (Hquiet (Hfl1 Hfl Hq1) Hq2) as [H1 H2].
      split; [exact H1 | congruence].
    + exists spectra, (S errors). rewrite Hpub, Ep, Hfc, Ef.
      cbn [length]. split; [reflexivity|]. split; [lia|].
      split; [exact Hlev|]. split; [reflexivity|].
      split; [apply wrap32_succ; now rewrite Hec, Ee|].
      intros Hfl _. exfalso. auto.
Qed.

Lemma unified_run_under_interrupts_witness :
  (coherent dma_one_frame /\ flag_ok dma_one_frame
   /\ Forall quiet_release [quiet_turn ramp 8100 8101 8102 8103 8200])
  /\ coherent
       (loop_world
          (unified_run (fun x => x)
             [Build_turn ramp 8100 8101 8102 8103 8200
                [] [] [] [] [] [] [] [(ramp, 16000)] [] [] []]
             (Build_loop_state (Build_coordinator 0 0 0 0 [])
                (Build_fft_arrays [] [] []) dma_one_frame)))
  /\ flag_ok
       (loop_world
          (unified_run (fun x => x)
             [quiet_turn ramp 8100 8101 8102 8103 8200]
             (Build_loop_state (Build_coordinator 0 0 0 0 [])
                (Build_fft_arrays [] [] []) dma_one_frame))).
Proof.
  assert (Hc : coherent dma_one_frame).
  { constructor; try (vm_compute; reflexivity).
    - right. vm_compute. reflexivity.
    - intros _. split; vm_compute; reflexivity. }
  assert (Hf : flag_ok dma_one_frame)
    by (intros _; vm_compute; discriminate).
  assert (Hq : Forall quiet_release
                 [quiet_turn ramp 8100 8101 8102 8103 8200])
    by (constructor; [split; reflexivity | constructor]).
  split; [auto|]. split.
  - pose proof (unified_run_under_interrupts (fun x => x)
                  [Build_turn ramp 8100 8101 8102 8103 8200
                     [] [] [] [] [] [] [] [(ramp, 16000)] [] [] []]
                  (Build_loop_state (Build_coordinator 0 0 0 0 [])
                     (Build_fft_arrays [] [] []) dma_one_frame) Hc) as H.
    cbv zeta in H. exact (proj1 H).
  - pose proof (unified_run_under_interrupts (fun x => x)
                  [quiet_turn ramp 8100 8101 8102 8103 8200]
                  (Build_loop_state (Build_coordinator 0 0 0 0 [])
                     (Build_fft_arrays [] [] []) dma_one_frame) Hc) as H.
    cbv zeta in H. exact (proj2 (proj2 H) Hf Hq).
Defined.

(** *** The release and the handler *)

(** A turn that starts with the flag raised and no buffer, when no
    completion is served before the load of [ready_buffer]. *)
Lemma stuck_turn (kiss_fft : list kiss_fft_cpx -> list kiss_fft_cpx)
  (t : turn) (c : coordinator) (a : fft_arrays) (w : world) :
  coherent w ->
  data_ready w = true -> ready_buffer w = NULL ->
  at_poll t = [] -> at_process t = [] -> at_get_buffer t = [] ->
  let s' := unified_iteration kiss_fft t (Build_loop_state c a w) in
  error_count (loop_counters s') = wrap32 (error_count c + 1)
  /\ frame_count (loop_counters s') = frame_count c
  /\ published (loop_counters s') = published c
  /\ (at_sleep t = [] ->
      data_ready (loop_world s') = true
      /\ ready_buffer (loop_world s') = NULL).
Proof.
  intros Hw Hd Hr E1 E2 E3. cbv zeta. unfold unified_iteration.
  cbn [loop_counters loop_arrays loop_world]. rewrite E1, E2, E3.
  cbn [serve fold_left].
  unfold adc_sampling_is_ready. rewrite Hd, andb_false_r.
  unfold adc_sampling_process_fft_irq, adc_sampling_get_buffer_irq.
  rewrite Hd. cbn [negb serve fold_left]. rewrite Hr. cbn [bufptr_eqb].
  destruct (sleep_spec t w Hw) as (_ & _ & Hs). cbv zeta in Hs.
  cbn [loop_counters loop_world error_count frame_count published].
  split; [reflexivity|]. split; [reflexivity|]. split; [reflexivity|].
  intros E. destruct (Hs E) as [H1 H2]. split; congruence.
Qed.

(** The release is not safe against the handler.  Without
    interrupts [adc_sampling_complete_processing] is the one-step function.
    With a transfer in flight, a completion served between its stores to
    [data_ready] and to [ready_buffer] delivers a frame that the last store
    takes away again: the call returns with the flag raised and no buffer,
    so that [adc_sampling_get_buffer] yields nothing and
    [adc_sampling_process_fft] fails although [adc_sampling_is_ready]
    reports a frame.  Every following turn of the main loop in which no
    completion is served before the buffer is fetched counts an error and
    leaves this state as it is; a turn with a completion before the poll
    shows a frame again. *)
Theorem release_race (kiss_fft : list kiss_fft_cpx -> list kiss_fft_cpx)
  (i1 i2 i3 : list irq) (w : world) :
  coherent w ->
  dma_busy w = true ->
  data_ready w = true ->
  i2 ++ i3 <> [] ->
  let w' := adc_sampling_complete_processing_irq i1 i2 i3 w in
  adc_sampling_complete_processing_irq [] [] [] w
  = adc_sampling_complete_processing w
  /\ coherent w'
  /\ data_ready w' = true /\ ready_buffer w' = NULL
  /\ fst (adc_sampling_is_ready (fun _ => 0) 0 0 0 w') = true
  /\ adc_sampling_get_buffer w' = NULL
  /\ fst (adc_sampling_process_fft w') = false
  /\ (forall (t : turn) (c : coordinator) (a : fft_arrays),
        at_poll t = [] -> at_process t = [] -> at_get_buffer t = [] ->
        let s' := unified_iteration kiss_fft t (Build_loop_state c a w') in
        error_count (loop_counters s') = wrap32 (error_count c + 1)
        /\ frame_count (loop_counters s') = frame_count c
        /\ published (loop_counters s') = published c
        /\ (at_sleep t = [] ->
            data_ready (loop_world s') = true
            /\ ready_buffer (loop_world s') = NULL))
  /\ (forall (t : turn) (c : coordinator) (a : fft_arrays),
        at_poll t <> [] ->
        let s' := unified_iteration kiss_fft t (Build_loop_state c a w') in
        error_count (loop_counters s') = error_count c
        /\ frame_count (loop_counters s') = wrap32 (frame_count c + 1)).
Proof.
  intros Hw Hb Hd Hne. cbv zeta.
  destruct (release_spec i1 i2 i3 w Hw) as (Hw' & Hb' & _ & _ & _ & Hrace).
  cbv zeta in *. destruct (Hrace Hd Hb Hne) as [Hd' Hr'].
  set (w' := adc_sampling_complete_processing_irq i1 i2 i3 w) in *.
  split.
  { unfold adc_sampling_complete_processing_irq,
      adc_sampling_complete_processing. rewrite Hd. reflexivity. }
  split; [exact Hw'|]. split; [exact Hd'|]. split; [exact Hr'|].
  split.
  { unfold adc_sampling_is_ready. rewrite Hd', andb_false_r. exact Hd'. }
  split; [unfold adc_sampling_get_buffer; now rewrite Hd'|].
  split.
  { unfold adc_sampling_process_fft, adc_sampling_get_buffer.
    now rewrite Hd', Hr'. }
  split.
  - intros t c a E1 E2 E3.
    exact (stuck_turn kiss_fft t c a w' Hw' Hd' Hr' E1 E2 E3).
  - intros t c a Hp.
    destruct (serve_spec (at_poll t) w' Hw') as (_ & _ & _ & _ & _ & _ & _
                                                 & _ & Hserved).
    cbv zeta in Hserved.
    destruct (Hserved Hp ltac:(congruence)) as [Hd1 Hr1].
    destruct (turn_spec kiss_fft t (Build_loop_state c a w') Hw')
      as (_ & _ & Hcase & _).
    cbn [loop_counters loop_arrays loop_world] in Hcase. cbv zeta in Hcase.
    destruct Hcase as [(_ & _ & _ & _ & Hidle) | [(Ef & Ee & _)
                                                 | (_ & _ & _ & _ & Hbad)]].
    + congruence.
    + auto.
    + exfalso. apply Hbad. intros _. exact Hr1.
Qed.

Lemma release_race_witness :
  (coherent dma_one_frame /\ dma_busy dma_one_frame = true
   /\ data_ready dma_one_frame = true
   /\ [(ramp, 16000)] ++ [] <> ([] : list irq))
  /\ data_ready
       (adc_sampling_complete_processing_irq [] [(ramp, 16000)] []
          dma_one_frame) = true
  /\ ready_buffer
       (adc_sampling_complete_processing_irq [] [(ramp, 16000)] []
          dma_one_frame) = NULL.
Proof.
  assert (Hc : coherent dma_one_frame).
  { constructor; try (vm_compute; reflexivity).
    - right. vm_compute. reflexivity.
    - intros _. split; vm_compute; reflexivity. }
  assert (Hb : dma_busy dma_one_frame = true) by (vm_compute; reflexivity).
  assert (Hd : data_ready dma_one_frame = true) by (vm_compute; reflexivity).
  assert (Hn : [(ramp, 16000)] ++ [] <> ([] : list irq)) by discriminate.
  split; [auto|].
  pose proof (release_race (fun x => x) [] [(ramp, 16000)] [] dma_one_frame
                Hc Hb Hd Hn) as H.
  cbv zeta in H. destruct H as (_ & _ & H1 & H2 & _). auto.
Defined.

(** *** What the display is given *)

Lemma process_fft_irq_quiet
  (kiss_fft : list kiss_fft_cpx -> list kiss_fft_cpx)
  (ig iw it : list irq) (torn : list Z) (a : fft_arrays) (w : world)
  (frame : list Z) :
  data_ready w = true ->
  deref (ready_buffer w) w = Some frame ->
  serve ig w = w ->
  iw = [] \/ dma_busy w = false ->
  exists w' : world,
    adc_sampling_process_fft_irq kiss_fft ig iw it torn a w
    = (true, process_fft_arrays kiss_fft frame, w')
    /\ fft_ready w' = true.
Proof.
  intros Hd Hf Hig Hq.
  unfold adc_sampling_process_fft_irq, adc_sampling_get_buffer_irq.
  rewrite Hd. cbn [negb]. rewrite Hig.
  assert (Hcond : dma_busy w && negb (none_pending iw) = false).
  { destruct Hq as [-> | ->]; [|reflexivity]. now rewrite andb_false_r. }
  rewrite Hcond.
  destruct (ready_buffer w) eqn:Hrb; [discriminate|..];
    cbn [bufptr_eqb]; rewrite Hf; cbn [default];
    eexists; (split; [reflexivity|]);
    now destruct (serve it (serve iw w)) as [[] ? ? ? ?].
Qed.

Lemma turn_published (kiss_fft : list kiss_fft_cpx -> list kiss_fft_cpx)
  (t : turn) (c : coordinator) (a a' : fft_arrays) (w w2 w4 : world) :
  adc_sampling_is_ready (samples t) (poll_start t) (poll_end t) (poll_done t)
    (serve (at_poll t) w) = (true, w2) ->
  adc_sampling_process_fft_irq kiss_fft (at_get_buffer t) (at_window t)
    (at_transform t) (torn t) a (serve (at_process t) w2) = (true, a', w4) ->
  fft_ready w4 = true ->
  published (loop_counters
               (unified_iteration kiss_fft t (Build_loop_state c a w)))
  = published c ++ [fft_realtime_unified_update_display (magnitude a')].
Proof.
  intros E1 E2 Hf. unfold unified_iteration.
  cbn [loop_counters loop_arrays loop_world]. rewrite E1, E2.
  unfold adc_sampling_get_magnitude_spectrum. rewrite Hf. reflexivity.
Qed.

Lemma pending_shown (kiss_fft : list kiss_fft_cpx -> list kiss_fft_cpx)
  (t : turn) (c : coordinator) (a : fft_arrays) (w w1 : world)
  (frame : list Z) :
  coherent w1 ->
  serve (at_poll t) w = w1 ->
  data_ready w1 = true ->
  deref (ready_buffer w1) w1 = Some frame ->
  serve (at_process t) w1 = w1 ->
  serve (at_get_buffer t) w1 = w1 ->
  at_window t = [] \/ dma_busy w1 = false ->
  published (loop_counters
               (unified_iteration kiss_fft t (Build_loop_state c a w)))
  = published c
    ++ [fft_realtime_unified_update_display
          (magnitude (process_fft_arrays kiss_fft frame))].
Proof.
  intros Hw1 E1 Hd Hf E2 E3 Hq.
  destruct (poll_spec (samples t) (poll_start t) (poll_end t) (poll_done t)
              w1 Hw1) as (_ & Hready & _ & Hsame & _).
  cbv zeta in *. specialize (Hsame Hd).
  assert (Epoll : adc_sampling_is_ready (samples t) (poll_start t)
                    (poll_end t) (poll_done t) (serve (at_poll t) w)
                  = (true, w1)).
  { rewrite E1.
    rewrite (surjective_pairing (adc_sampling_is_ready _ _ _ _ w1)).
    rewrite Hready, Hsame, Hd. reflexivity. }
  destruct (process_fft_irq_quiet kiss_fft (at_get_buffer t) (at_window t)
              (at_transform t) (torn t) a w1 frame Hd Hf E3 Hq)
    as (w4 & Eproc & Hfft).
  rewrite <- E2 in Eproc at 1.
  exact (turn_published kiss_fft t c a _ w w1 w4 Epoll Eproc Hfft).
Qed.

(** Which frame the display shows after a turn of the main loop.
    In manual mode with sampling active and nothing pending it is the frame
    sampled during the poll of this turn.  With a frame pending and no
    completion served up to the end of the window function it is the
    pending frame.  With a transfer in flight and completions served before
    the poll, none after it up to the end of the window function, it is
    the frame of the last of these completions: an older frame that was
    pending is never shown.  In each case the array handed over is the
    magnitude array of window, transform and calibration applied to that
    frame, with the window correction added. *)
Theorem displayed_spectrum
  (kiss_fft : list kiss_fft_cpx -> list kiss_fft_cpx)
  (t : turn) (c : coordinator) (a : fft_arrays) (w : world) :
  coherent w ->
  let s' := unified_iteration kiss_fft t (Build_loop_state c a w) in
  let shown := fun frame : list Z =>
    published c
    ++ [fft_realtime_unified_update_display
          (magnitude (process_fft_arrays kiss_fft frame))] in
  (mode w = ADC_MODE_MANUAL -> sampling_active w = true ->
   data_ready w = false ->
   published (loop_counters s') = shown (frame_of (samples t)))
  /\ (forall frame : list Z,
        data_ready w = true -> deref (ready_buffer w) w = Some frame ->
        at_poll t = [] -> at_process t = [] -> at_get_buffer t = [] ->
        at_window t = [] ->
        published (loop_counters s') = shown frame)
  /\ (forall (earlier : list irq) (adc : nat -> Z) (now : Z),
        dma_busy w = true ->
        at_poll t = earlier ++ [(adc, now)] ->
        at_process t = [] -> at_get_buffer t = [] -> at_window t = [] ->
        published (loop_counters s') = shown (frame_of adc)).
Proof.
  intros Hw. cbv zeta. pose proof Hw as [_ _ _ _ HJ].
  split; [|split].
  - intros Hm Ha Hd.
    assert (Hb : dma_busy w = false).
    { destruct (dma_busy w); [|reflexivity].
      destruct (HJ eq_refl) as [Hm' _]. congruence. }
    assert (Hid : forall l, serve l w = w)
      by (intros l; now apply (serve_spec l w Hw)).
    destruct (poll_spec (samples t) (poll_start t) (poll_end t) (poll_done t)
                w Hw) as (Hw2 & Hready & Hb2 & _ & _ & _ & Hman).
    cbv zeta in *. destruct (Hman Hm Ha Hd) as [Hd2 Hf2].
    set (w2 := snd (adc_sampling_is_ready (samples t) (poll_start t)
                      (poll_end t) (poll_done t) w)) in *.
    assert (Hid2 : forall l, serve l w2 = w2).
    { intros l. apply (serve_spec l w2 Hw2). congruence. }
    assert (Epoll : adc_sampling_is_ready (samples t) (poll_start t)
                      (poll_end t) (poll_done t) (serve (at_poll t) w)
                    = (true, w2)).
    { rewrite Hid.
      rewrite (surjective_pairing (adc_sampling_is_ready _ _ _ _ w)).
      fold w2. now rewrite Hready, Hd2. }
    assert (Hb2' : dma_busy w2 = false) by congruence.
    destruct (process_fft_irq_quiet kiss_fft (at_get_buffer t) (at_window t)
                (at_transform t) (torn t) a w2 (frame_of (samples t))
                Hd2 Hf2 (Hid2 _) (or_intror Hb2'))
      as (w4 & Eproc & Hfft).
    rewrite <- (Hid2 (at_process t)) in Eproc at 1.
    exact (turn_published kiss_fft t c a _ w w2 w4 Epoll Eproc Hfft).
  - intros frame Hd Hf E1 E2 E3 E4.
    apply (pending_shown kiss_fft t c a w w frame Hw);
      rewrite ?E1, ?E2, ?E3; auto.
  - intros earlier adc now Hb E1 E2 E3 E4.
    destruct (serve_spec earlier w Hw) as (Hw0 & _ & _ & _ & Hb0 & _).
    cbv zeta in *.
    destruct (completion_spec adc now (serve earlier w) Hw0)
      as (Hw1 & _ & _ & _ & _ & _ & Hdone).
    cbv zeta in *.
    destruct (Hdone ltac:(congruence)) as (Hd1 & _ & _ & Hf1 & _).
    apply (pending_shown kiss_fft t c a w
             (step (OpDmaComplete adc now) (serve earlier w))
             (frame_of adc) Hw1);
      rewrite ?E1, ?E2, ?E3; auto.
    unfold serve. now rewrite fold_left_app.
Qed.

Lemma displayed_spectrum_witness :
  (coherent manual_started /\ mode manual_started = ADC_MODE_MANUAL
   /\ sampling_active manual_started = true
   /\ data_ready manual_started = false)
  /\ published
       (loop_counters
          (unified_iteration (fun x => x)
             (quiet_turn ramp 0 1 8001 8002 9000)
             (Build_loop_state (Build_coordinator 0 0 0 0 [])
                (Build_fft_arrays [] [] []) manual_started)))
     = [] ++ [fft_realtime_unified_update_display
                (magnitude (process_fft_arrays (fun x => x)
                              (frame_of ramp)))].
Proof.
  assert (Hc : coherent manual_started).
  { constructor; try (vm_compute; reflexivity).
    - left. vm_compute. reflexivity.
    - intros Hb. vm_compute in Hb. discriminate. }
  assert (Hm : mode manual_started = ADC_MODE_MANUAL)
    by (vm_compute; reflexivity).
  assert (Ha : sampling_active manual_started = true)
    by (vm_compute; reflexivity).
  assert (Hd : data_ready manual_started = false)
    by (vm_compute; reflexivity).
  split; [auto|].
  pose proof (displayed_spectrum (fun x => x)
                (quiet_turn ramp 0 1 8001 8002 9000)
                (Build_coordinator 0 0 0 0 []) (Build_fft_arrays [] [] [])
                manual_started Hc) as H.
  cbv zeta in H. exact (proj1 H Hm Ha Hd).
Defined.

End CoordinatorFacts.
